(** * LLM-Mapping: the resumable Scopus harvester and the streaming
      Binoculars annotator, embedded from the Python sources

    Sources embedded here:
    - [Binoculars/binoculars_analysis.py] and its [_patch] sibling
      ([process_file_streaming], [analyze_abstracts]);
    - [Scopus/0_compsci.py] and its [_patch] sibling ([cycle_api_key],
      [get_headers], [check_for_pause], [pause_and_reload], [fetch_metadata],
      [fetch_abstract], [fetch_citations], [backup_data], [resume_backup]
      and the two top-level collection loops).

    Python values are a small inductive type, dictionaries are insertion
    ordered association lists, exceptions are an explicit outcome, and the
    outside world (the remote API, the operator's terminal, the [.env] file,
    the scoring model, the file system) is explicit state.

    What the embedding leaves out: console output and logging; the length
    of a sleep (a sleep is an event, not a delay); failures of the network
    and of the operating system other than a missing file, a file where a
    directory is needed and a directory where a file is needed; white space
    and digits outside ASCII in [str.strip] and [int]. Paths are lists of
    components relative to the working directory, and a month name is
    taken to hold no wildcard character when it is used in a glob
    pattern. *)

From Stdlib Require Import ZArith List String Ascii Bool Lia.
From Stdlib Require Import Floats.SpecFloat.
From stdpp Require Import base option list gmap strings pretty.

Local Open Scope Z_scope.
Local Open Scope string_scope.
Local Set Warnings "-register-all".

(** ** Python values *)

Module Py.

(** The values that [json.load], [ijson.items] and [response.json()] can
    hand to the scripts.  [VFloat] is a binary64 float; [VDec m e] is the
    [decimal.Decimal] [m * 10^e] that ijson builds for a number written with
    a fraction or an exponent. Dictionaries keep insertion order. *)
Inductive pyval : Type :=
| VNone
| VBool (b : bool)
| VInt (z : Z)
| VFloat (f : spec_float)
| VDec (m e : Z)
| VStr (s : string)
| VList (l : list pyval)
| VDict (d : list (string * pyval)).

(** Exceptions that the scripts can meet. *)
Inductive exn : Type :=
| TypeError | AttributeError | KeyError | ValueError | IndexError
| ZeroDivisionError | OverflowError | JSONDecodeError | OSError
| RuntimeError.

(** A computation that either returns or raises. *)
Definition result (A : Type) : Type := sum exn A.
Definition ret {A} (a : A) : result A := inr a.
Definition raise {A} (e : exn) : result A := inl e.
Definition rbind {A B} (m : result A) (k : A -> result B) : result B :=
  match m with inl e => inl e | inr a => k a end.

(** *** Generic association lists (Python [dict] with a key equality) *)

Section Assoc.
Context {K V : Type} (eqb : K -> K -> bool).

(** [d.get(k)] / [d[k]]: the entry whose key equals [k]. *)
Fixpoint assoc_get (k : K) (d : list (K * V)) : option V :=
  match d with
  | [] => None
  | (k', v) :: d' => if eqb k k' then Some v else assoc_get k d'
  end.

(** [d[k] = v]: an existing entry keeps its key and its place, a new key
    goes to the end. *)
Fixpoint assoc_set (k : K) (v : V) (d : list (K * V)) : list (K * V) :=
  match d with
  | [] => [(k, v)]
  | (k', v') :: d' =>
      if eqb k k' then (k', v) :: d' else (k', v') :: assoc_set k v d'
  end.

Definition assoc_mem (k : K) (d : list (K * V)) : bool :=
  match assoc_get k d with Some _ => true | None => false end.

End Assoc.

(** String-keyed dictionaries: JSON objects. *)
Definition dict_find (k : string) (d : list (string * pyval)) : option pyval :=
  assoc_get String.eqb k d.
Definition dict_set (k : string) (v : pyval) (d : list (string * pyval))
  : list (string * pyval) := assoc_set String.eqb k v d.
Definition dict_has (k : string) (d : list (string * pyval)) : bool :=
  assoc_mem String.eqb k d.
(** [d.get(k, default)] *)
Definition dict_get (k : string) (default : pyval) (d : list (string * pyval))
  : pyval := match dict_find k d with Some v => v | None => default end.

(** [x.get(k, default)] on an arbitrary value: only a dict has [.get]. *)
Definition py_get (x : pyval) (k : string) (default : pyval) : result pyval :=
  match x with
  | VDict d => ret (dict_get k default d)
  | _ => raise AttributeError
  end.

(** [x[k]] with a string subscript. *)
Definition py_getitem (x : pyval) (k : string) : result pyval :=
  match x with
  | VDict d => match dict_find k d with Some v => ret v | None => raise KeyError end
  | _ => raise TypeError
  end.

(** *** Truth value, [is None], [isinstance(_, list)] *)

Definition truthy (v : pyval) : bool :=
  match v with
  | VNone => false
  | VBool b => b
  | VInt z => negb (Z.eqb z 0)
  | VFloat (S754_zero _) => false
  | VFloat _ => true
  | VDec m _ => negb (Z.eqb m 0)
  | VStr s => negb (String.eqb s "")
  | VList [] => false
  | VList _ => true
  | VDict [] => false
  | VDict _ => true
  end.

Definition is_none (v : pyval) : bool :=
  match v with VNone => true | _ => false end.

Definition is_list (v : pyval) : bool :=
  match v with VList _ => true | _ => false end.

Definition is_dict (v : pyval) : bool :=
  match v with VDict _ => true | _ => false end.

(** [x == "literal"]: only a string can equal a string. *)
Definition eq_str (v : pyval) (s : string) : bool :=
  match v with VStr t => String.eqb t s | _ => false end.

(** *** Hashing and equality of dictionary keys *)

(** Lists and dicts are unhashable. *)
Definition hashable (v : pyval) : bool :=
  match v with VList _ | VDict _ => false | _ => true end.

(** The exact value of a finite number as a fraction with a positive
    denominator; bool, int, float and Decimal compare by value. *)
Definition num_ratio (v : pyval) : option (Z * Z) :=
  match v with
  | VBool b => Some (if b then 1 else 0, 1)
  | VInt z => Some (z, 1)
  | VFloat (S754_zero _) => Some (0, 1)
  | VFloat (S754_finite s m e) =>
      let sm := if s then Z.neg m else Z.pos m in
      Some (if Z.leb 0 e then (sm * 2 ^ e, 1) else (sm, 2 ^ (- e)))
  | VDec m e =>
      Some (if Z.leb 0 e then (m * 10 ^ e, 1) else (m, 10 ^ (- e)))
  | _ => None
  end.

(** [a == b] for two hashable values. A NaN equals nothing (the two passes
    never share a float object), an infinity equals the same infinity. *)
Definition key_eqb (a b : pyval) : bool :=
  match a, b with
  | VNone, VNone => true
  | VStr s, VStr t => String.eqb s t
  | VFloat (S754_infinity s), VFloat (S754_infinity t) => Bool.eqb s t
  | _, _ =>
      match num_ratio a, num_ratio b with
      | Some (n1, d1), Some (n2, d2) => Z.eqb (n1 * d2) (n2 * d1)
      | _, _ => false
      end
  end.

(** [for x in v]: what iterating over a value yields. *)
Definition py_iter (v : pyval) : result (list pyval) :=
  match v with
  | VList l => ret l
  | VDict d => ret (map (fun kv => VStr (fst kv)) d)
  | VStr s => ret (map (fun c => VStr (String c "")) (list_ascii_of_string s))
  | _ => raise TypeError
  end.

(** *** Strings *)

(** [str.isspace] on an ASCII character. *)
Definition is_space (c : ascii) : bool :=
  let n := nat_of_ascii c in
  ((9 <=? n)%nat && (n <=? 13)%nat) || ((28 <=? n)%nat && (n <=? 32)%nat).

Fixpoint lstrip (s : string) : string :=
  match s with
  | String c s' => if is_space c then lstrip s' else s
  | EmptyString => EmptyString
  end.

Fixpoint rstrip (s : string) : string :=
  match s with
  | String c s' =>
      let r := rstrip s' in
      if String.eqb r "" && is_space c then "" else String c r
  | EmptyString => EmptyString
  end.

(** [s.strip()] *)
Definition strip (s : string) : string := rstrip (lstrip s).

Definition lower_ascii (c : ascii) : ascii :=
  let n := nat_of_ascii c in
  if (65 <=? n)%nat && (n <=? 90)%nat then ascii_of_nat (n + 32) else c.

(** [s.lower()] *)
Fixpoint lower (s : string) : string :=
  match s with
  | String c s' => String (lower_ascii c) (lower s')
  | EmptyString => EmptyString
  end.

(** [s.split(sep)] for a one-character separator. *)
Fixpoint split (sep : ascii) (s : string) : list string :=
  match s with
  | EmptyString => [""]
  | String c s' =>
      let r := split sep s' in
      if Ascii.eqb c sep then "" :: r
      else match r with
           | h :: t => String c h :: t
           | [] => [String c ""]
           end
  end.

(** [s.replace(old, new)] for a non-empty [old]: left to right, without
    overlap. [skip] counts the characters of a match still to drop. *)
Fixpoint replace_from (old new : string) (skip : nat) (s : string) : string :=
  match s with
  | EmptyString => EmptyString
  | String c s' =>
      match skip with
      | S k => replace_from old new k s'
      | O =>
          if String.prefix old s
          then new ++ replace_from old new (String.length old - 1) s'
          else String c (replace_from old new 0 s')
      end
  end.

Definition replace (old new s : string) : string := replace_from old new 0 s.

(** [sub in s] on strings. *)
Fixpoint contains (sub s : string) : bool :=
  String.prefix sub s ||
  match s with
  | String _ s' => contains sub s'
  | EmptyString => false
  end.

(** [s.endswith(suf)] *)
Definition ends_with (suf s : string) : bool :=
  (String.length suf <=? String.length s)%nat &&
  String.eqb (String.substring (String.length s - String.length suf)
                               (String.length suf) s) suf.

Definition is_digit (c : ascii) : bool :=
  let n := nat_of_ascii c in (48 <=? n)%nat && (n <=? 57)%nat.

(** The digits of an [int] literal, where single underscores may separate
    digits. *)
Fixpoint digits_val (acc : Z) (after_digit : bool) (s : string) : option Z :=
  match s with
  | EmptyString => if after_digit then Some acc else None
  | String c s' =>
      if is_digit c
      then digits_val (10 * acc + (Z.of_nat (nat_of_ascii c) - 48)) true s'
      else if Ascii.eqb c "_"
           then if after_digit then digits_val acc false s' else None
           else None
  end.

(** [int(s)] for a string in base ten: surrounding white space, an optional
    sign, then digits (ASCII digits only). *)
Definition int_of_string (s : string) : result Z :=
  let body := strip s in
  let parsed :=
    match body with
    | String "-" t => option_map Z.opp (digits_val 0 false t)
    | String "+" t => digits_val 0 false t
    | _ => digits_val 0 false body
    end in
  match parsed with Some z => ret z | None => raise ValueError end.

(** [int(x)] *)
Definition py_int (x : pyval) : result Z :=
  match x with
  | VBool b => ret (if b then 1 else 0)
  | VInt z => ret z
  | VStr s => int_of_string s
  | VFloat (S754_zero _) => ret 0
  | VFloat (S754_finite s m e) =>
      let mag := if Z.leb 0 e then Z.pos m * 2 ^ e else Z.pos m / 2 ^ (- e) in
      ret (if s then - mag else mag)
  | VFloat S754_nan => raise ValueError
  | VFloat (S754_infinity _) => raise OverflowError
  | VDec m e =>
      ret (if Z.leb 0 e then m * 10 ^ e else Z.quot m (10 ^ (- e)))
  | VNone | VList _ | VDict _ => raise TypeError
  end.

(** [str(n)] for an [int]. *)
Definition str_of_int (z : Z) : string := pretty z.

End Py.

(** ** Effects: state that survives an exception *)

Module Eff.
Import Py.

(** A statement runs in a world [W]; it returns or stops with a failure of
    type [E], and in both cases leaves the world as it changed it. *)
Definition M (E W A : Type) : Type := W -> (E + A) * W.

#[global] Instance M_ret E W : MRet (M E W) := fun A a w => (inr a, w).
#[global] Instance M_bind E W : MBind (M E W) := fun A B k m w =>
  match m w with
  | (inl e, w') => (inl e, w')
  | (inr a, w') => k a w'
  end.

Definition throw {E W A} (e : E) : M E W A := fun w => (inl e, w).
Definition get_world {E W} : M E W W := fun w => (inr w, w).
Definition modify {E W} (f : W -> W) : M E W unit := fun w => (inr tt, f w).

(** Lift a pure computation that may fail. *)
Definition lift {E W A} (r : E + A) : M E W A := fun w => (r, w).

(** [try: m except Exception: h] *)
Definition try_except {E W A} (m : M E W A) (h : E -> M E W A) : M E W A :=
  fun w =>
  match m w with
  | (inl e, w') => h e w'
  | (inr a, w') => (inr a, w')
  end.

(** [for x in l: body x] with the loop variables [acc] threaded through. *)
Fixpoint for_each {E W A S} (body : A -> S -> M E W S) (l : list A) (acc : S)
  : M E W S :=
  match l with
  | [] => mret acc
  | x :: l' => acc' ← body x acc; for_each body l' acc'
  end.

End Eff.

(** ** The file system *)

Module FS.
Import Py Eff.

(** A path is its list of components, relative to the working directory;
    the empty path is the working directory itself. *)
Abbreviation path := (list string).

Inductive node (T : Type) : Type :=
| Dir
| File (t : T).
Arguments Dir {T}.
Arguments File {T} t.

Section Ops.
Context {T : Type}.

Definition is_dir_at (fs : gmap path (node T)) (q : path) : bool :=
  match q with
  | [] => true
  | _ => match fs !! q with Some Dir => true | _ => false end
  end.

(** The proper prefixes of a path, shortest first. *)
Definition ancestors (p : path) : list path :=
  map (fun n => take n p) (seq 0 (length p)).

(** Every directory on the way to [p] exists. *)
Definition reachable (fs : gmap path (node T)) (p : path) : bool :=
  forallb (is_dir_at fs) (ancestors p).

(** What the operating system finds at [p]. *)
Definition stat (fs : gmap path (node T)) (p : path) : option (node T) :=
  if reachable fs p
  then match p with [] => Some Dir | _ => fs !! p end
  else None.

(** [os.path.exists(p)], [Path.exists()] *)
Definition exists_ (fs : gmap path (node T)) (p : path) : bool :=
  match stat fs p with Some _ => true | None => false end.

(** [open(p, 'r')] or [open(p, 'rb')] followed by reading all of it. *)
Definition read_file (fs : gmap path (node T)) (p : path) : result T :=
  match stat fs p with
  | Some (File t) => ret t
  | _ => raise OSError
  end.

(** [open(p, 'w')], writing [t], closing. *)
Definition write_file (fs : gmap path (node T)) (p : path) (t : T)
  : result (gmap path (node T)) :=
  if reachable fs p
  then match p with
       | [] => raise OSError
       | _ => match fs !! p with
              | Some Dir => raise OSError
              | _ => ret (<[p := File t]> fs)
              end
       end
  else raise OSError.

(** [os.makedirs(p, exist_ok=True)] and
    [Path.mkdir(parents=True, exist_ok=True)]: walk down from [done],
    creating what is missing; a file in the way is an error. *)
Fixpoint makedirs_from (done rest : path) (fs : gmap path (node T))
  : result unit * gmap path (node T) :=
  match rest with
  | [] => (ret tt, fs)
  | c :: rest' =>
      let q := (done ++ [c])%list in
      match fs !! q with
      | None => makedirs_from q rest' (<[q := Dir]> fs)
      | Some Dir => makedirs_from q rest' fs
      | Some (File _) => (raise OSError, fs)
      end
  end.

Definition makedirs (p : path) (fs : gmap path (node T))
  : result unit * gmap path (node T) :=
  makedirs_from [] p fs.

(** The names in directory [d]: what [os.scandir(d)] lists. *)
Definition listdir (fs : gmap path (node T)) (d : path) : list string :=
  match stat fs d with
  | Some Dir =>
      omap (fun q : path =>
              match last q with
              | Some name =>
                  if bool_decide (q = (d ++ [name])%list) then Some name else None
              | None => None
              end)
           (map fst (map_to_list fs))
  | _ => []
  end.

End Ops.

(** [Path.parent] *)
Definition parent (p : path) : path := removelast p.

(** [Path.name] *)
Definition name (p : path) : string := List.last p "".

End FS.

(** ** The JSON libraries *)

Module Json.
Import Py.

(** [json] and [ijson] are used as they come. A file holds a [file_text];
    [json_load] is [json.load] ([None] when it raises), [ijson_items] is what
    [ijson.items(f, 'item')] yields before the stream ends ([true]) or
    raises ([false]), and [json_dump data indent ensure_ascii] is the text
    that [json.dump] writes when it completes. [json.dump] writes as it
    goes and can raise on the way: with [ensure_ascii=False] a string that
    holds a lone surrogate, which [json.load] accepts as an escape, cannot
    be encoded for a UTF-8 file. [json_dump_partial data indent ensure_ascii]
    is [Some written] when the dump raises having left [written] in the
    file, and [None] when it completes. *)
Class JsonLib : Type := {
  file_text : Type;
  json_load : file_text -> option pyval;
  ijson_items : file_text -> list pyval * bool;
  json_dump : pyval -> Z -> bool -> file_text;
  json_dump_partial : pyval -> Z -> bool -> option file_text
}.

End Json.

(** ** The streaming annotator: [Binoculars/binoculars_analysis.py] *)

Module Binoculars.
Import Py Eff FS Json.

(** The scoring model is an object with a state of its own;
    [compute_score] returns a float or raises ([None]). *)
Class Scorer : Type := {
  scorer : Type;
  compute_score : scorer -> pyval -> option spec_float * scorer
}.

(** 0.9015310749276843 and 0.8536432310785527 as binary64 values:
    0x1.cd957b2648c53p-1 and 0x1.b510b9bfde498p-1. *)
Definition BINOCULARS_ACCURACY_THRESHOLD : spec_float :=
  S754_finite false 8120270026214483 (-53).
Definition BINOCULARS_FPR_THRESHOLD : spec_float :=
  S754_finite false 7688934674785432 (-53).

(** [a >= b] on floats *)
Definition float_ge (a b : spec_float) : bool := SFleb b a.

(** [0 if score >= BINOCULARS_ACCURACY_THRESHOLD else 1] *)
Definition accuracy_prediction (score : spec_float) : Z :=
  if float_ge score BINOCULARS_ACCURACY_THRESHOLD then 0 else 1.

(** [0 if score >= BINOCULARS_FPR_THRESHOLD else 1] *)
Definition fpr_prediction (score : spec_float) : Z :=
  if float_ge score BINOCULARS_FPR_THRESHOLD then 0 else 1.

(** The dict literal stored for a scored article. *)
Record processed_item : Type := {
  Scopus_ID : pyval;
  Binoculars_Score : spec_float;
  Accuracy_Prediction : Z;
  FPR_Prediction : Z
}.

(** What the annotator does to the outside, in order. *)
Inductive event : Type :=
| EvGetSize (p : path)
| EvOpenStream (p : path)
| EvScore (text : pyval)
| EvJsonLoad (p : path)
| EvMkdir (p : path)
| EvJsonDump (p : path) (data : pyval) (indent : Z) (ensure_ascii : bool).

Section Annotator.
Context `{JL : JsonLib} `{SC : Scorer}.

Record world : Type := {
  fs : gmap path (node file_text);
  bino : scorer;
  trace : list event
}.

Definition set_fs (f : gmap path (node file_text)) (w : world) : world :=
  {| fs := f; bino := bino w; trace := trace w |}.
Definition set_bino (b : scorer) (w : world) : world :=
  {| fs := fs w; bino := b; trace := trace w |}.
Definition log (e : event) : M exn world unit :=
  modify (fun w => {| fs := fs w; bino := bino w; trace := (trace w ++ [e])%list |}).

(** Run a file-system operation on the world's file system. *)
Definition on_fs {A} (op : gmap path (node file_text) ->
                          result A * gmap path (node file_text))
  : M exn world A :=
  fun w => let '(r, f) := op (fs w) in (r, set_fs f w).

(** [os.path.getsize(p)] *)
Definition getsize (p : path) : M exn world unit :=
  log (EvGetSize p);;
  w ← get_world;
  if exists_ (fs w) p then mret tt else throw OSError.

(** [open(p, 'rb')] handed to [ijson.items(f, 'item')] *)
Definition open_stream (p : path) : M exn world (list pyval * bool) :=
  log (EvOpenStream p);;
  w ← get_world;
  t ← lift (read_file (fs w) p);
  mret (ijson_items t).

(** [bino.compute_score(abstract)] *)
Definition call_scorer (abstract : pyval) : M exn world spec_float :=
  log (EvScore abstract);;
  w ← get_world;
  let '(r, b) := compute_score (bino w) abstract in
  modify (set_bino b);;
  match r with
  | Some score => mret score
  | None => throw RuntimeError
  end.

(** [with open(p, 'r', encoding='utf-8') as f: data = json.load(f)] *)
Definition json_load_file (p : path) : M exn world pyval :=
  log (EvJsonLoad p);;
  w ← get_world;
  t ← lift (read_file (fs w) p);
  match json_load t with
  | Some data => mret data
  | None => throw JSONDecodeError
  end.

(** [p.mkdir(parents=True, exist_ok=True)] *)
Definition mkdir_parents (p : path) : M exn world unit :=
  log (EvMkdir p);;
  on_fs (makedirs p).

(** [with open(p, 'w', encoding='utf-8') as f:
       json.dump(data, f, indent=indent, ensure_ascii=ensure_ascii)].
    [open] creates or truncates the file before anything is dumped; a dump
    that raises (a [UnicodeEncodeError], which is a [ValueError]) leaves
    what it had written. *)
Definition json_dump_file (p : path) (data : pyval) (indent : Z)
  (ensure_ascii : bool) : M exn world unit :=
  log (EvJsonDump p data indent ensure_ascii);;
  w ← get_world;
  match json_dump_partial data indent ensure_ascii with
  | None =>
      f ← lift (write_file (fs w) p (json_dump data indent ensure_ascii));
      modify (set_fs f)
  | Some written =>
      f ← lift (write_file (fs w) p written);
      modify (set_fs f);;
      throw ValueError
  end.

(** The body of [for article in tqdm(items, ...)], lines 40-86. A record
    that is not a dict raises: a number, a boolean or [None] at the [in]
    test, a string or a list that holds ["Binoculars_Score"] at the
    subscript, and one that does not at [.get]. What the logging after the
    [append] does cannot change [processed_items]. *)
Definition score_article (article : pyval) (processed_items : list processed_item)
  : M exn world (list processed_item) :=
  match article with
  | VDict d =>
      if dict_has "Binoculars_Score" d
         && negb (is_none (dict_get "Binoculars_Score" VNone d))
      then mret processed_items
      else
        let abstract := dict_get "Abstract" (VStr "") d in
        if negb (truthy abstract) || eq_str abstract "N/A"
        then mret processed_items
        else
          try_except
            (score ← call_scorer abstract;
             let processed_item :=
               {| Scopus_ID := dict_get "Scopus_ID" (VStr "") d;
                  Binoculars_Score := score;
                  Accuracy_Prediction := accuracy_prediction score;
                  FPR_Prediction := fpr_prediction score |} in
             mret (processed_items ++ [processed_item])%list)
            (fun _ => mret processed_items)
  | VStr s =>
      if contains "Binoculars_Score" s then throw TypeError
      else throw AttributeError
  | VList l =>
      if existsb (fun x => eq_str x "Binoculars_Score") l then throw TypeError
      else throw AttributeError
  | _ => throw TypeError
  end.

(** First pass, lines 36-86: stream the items and collect the scores. *)
Definition first_pass (input_file : path) : M exn world (list processed_item) :=
  '(items, complete) ← open_stream input_file;
  processed_items ← for_each score_article items [];
  if complete : bool then mret processed_items else throw JSONDecodeError.

(** [{item['Scopus_ID']: item for item in processed_items}], line 104 *)
Fixpoint build_scores_dict (processed_items : list processed_item)
  (scores_dict : list (pyval * processed_item))
  : result (list (pyval * processed_item)) :=
  match processed_items with
  | [] => ret scores_dict
  | item :: rest =>
      if hashable (Scopus_ID item)
      then build_scores_dict rest
             (assoc_set key_eqb (Scopus_ID item) item scores_dict)
      else raise TypeError
  end.

(** The three assignments of lines 108-110. *)
Definition set_scores (scores : processed_item) (d : list (string * pyval))
  : list (string * pyval) :=
  dict_set "FPR_Prediction" (VInt (FPR_Prediction scores))
    (dict_set "Accuracy_Prediction" (VInt (Accuracy_Prediction scores))
       (dict_set "Binoculars_Score" (VFloat (Binoculars_Score scores)) d)).

(** The body of [for article in data], lines 106-110. *)
Definition update_article (scores_dict : list (pyval * processed_item))
  (article : pyval) : result pyval :=
  match article with
  | VDict d =>
      let key := dict_get "Scopus_ID" VNone d in
      if hashable key
      then
        if assoc_mem key_eqb key scores_dict
        then
          match dict_find "Scopus_ID" d with
          | Some key' =>
              match assoc_get key_eqb key' scores_dict with
              | Some scores => ret (VDict (set_scores scores d))
              | None => raise KeyError
              end
          | None => raise KeyError
          end
        else ret article
      else raise TypeError
  | _ => raise AttributeError
  end.

Fixpoint update_articles (scores_dict : list (pyval * processed_item))
  (articles : list pyval) : result (list pyval) :=
  match articles with
  | [] => ret []
  | article :: rest =>
      rbind (update_article scores_dict article) (fun article' =>
      rbind (update_articles scores_dict rest) (fun rest' =>
      ret (article' :: rest')))
  end.

(** [for article in data: ...], with [data] as it is afterwards: the
    records of a list are updated in place; anything else that can be
    iterated yields strings, which have no [.get]. *)
Definition merge_scores (scores_dict : list (pyval * processed_item))
  (data : pyval) : result pyval :=
  match data with
  | VList articles =>
      rbind (update_articles scores_dict articles) (fun articles' =>
      ret (VList articles'))
  | _ =>
      rbind (py_iter data) (fun articles =>
      rbind (update_articles scores_dict articles) (fun _ => ret data))
  end.

(** Lines 99-110: reload the document and put the scores in. *)
Definition reload_and_merge (input_file : path)
  (processed_items : list processed_item) : M exn world pyval :=
  data ← json_load_file input_file;
  scores_dict ← lift (build_scores_dict processed_items []);
  lift (merge_scores scores_dict data).

(** [process_file_streaming(input_file, output_file, bino)] *)
Definition process_file_streaming (input_file output_file : path)
  : M exn world bool :=
  try_except
    (getsize input_file;;
     processed_items ← first_pass input_file;
     match processed_items with
     | [] => mret false
     | _ =>
         data ← reload_and_merge input_file processed_items;
         mkdir_parents (parent output_file);;
         json_dump_file output_file data 4 false;;
         mret true
     end)
    (fun _ => mret false).

Definition target_files : list path :=
  [ ["2021"; "APRIL_comp_2021.json"];
    ["2021"; "FEBRUARY_comp_2021.json"];
    ["2021"; "NOVEMBER_comp_2021.json"];
    ["2022"; "APRIL_comp_2022.json"];
    ["2022"; "AUGUST_comp_2022.json"];
    ["2022"; "FEBRUARY_comp_2022.json"];
    ["2022"; "JANUARY_comp_2022.json"];
    ["2022"; "JULY_comp_2022.json"];
    ["2022"; "JUNE_comp_2022.json"];
    ["2022"; "MARCH_comp_2022.json"];
    ["2022"; "MAY_comp_2022.json"];
    ["2022"; "NOVEMBER_comp_2022.json"];
    ["2022"; "OCTOBER_comp_2022.json"];
    ["2022"; "SEPTEMBER_comp_2022.json"] ].

Definition input_dir : path := ["data"; "comp"; "pre"].
Definition output_dir : path := ["data"; "comp-proc"].

(** The body of [for file_path in target_files], lines 161-171. *)
Definition analyze_file (file_path : path) (success_count : Z) : M exn world Z :=
  let input_file := (input_dir ++ file_path)%list in
  let output_file := (output_dir ++ file_path)%list in
  w ← get_world;
  if negb (exists_ (fs w) input_file) then mret success_count
  else
    ok ← process_file_streaming input_file output_file;
    mret (if ok : bool then success_count + 1 else success_count).

(** [analyze_abstracts()], returning the tally it logs. *)
Definition analyze_abstracts : M exn world Z :=
  for_each analyze_file target_files 0.

End Annotator.
End Binoculars.

(** ** The patch annotator: [Binoculars/binoculars_analysis_patch.py] *)

Module BinocularsPatch.
Import Py Eff FS Json.

(** [s.rfind(c)] *)
Fixpoint rfind (c : ascii) (s : string) : option nat :=
  match s with
  | EmptyString => None
  | String a s' =>
      match rfind c s' with
      | Some i => Some (S i)
      | None => if Ascii.eqb a c then Some 0%nat else None
      end
  end.

(** The index at which [Path.suffix] starts, when the name has a suffix:
    the last dot, if it is neither the first nor the last character. *)
Definition suffix_start (name : string) : option nat :=
  match rfind "." name with
  | Some i =>
      if (0 <? i)%nat && (i <? String.length name - 1)%nat
      then Some i else None
  | None => None
  end.

(** [Path.suffix] *)
Definition suffix (p : path) : string :=
  match suffix_start (name p) with
  | Some i => String.substring i (String.length (name p) - i) (name p)
  | None => ""
  end.

(** [Path.stem] *)
Definition stem (p : path) : string :=
  match suffix_start (name p) with
  | Some i => String.substring 0 i (name p)
  | None => name p
  end.

Section Annotator.
Context `{JL : JsonLib} `{SC : Binoculars.Scorer}.

(** [Path(".") / f"{input_file.stem}_patched{input_file.suffix}"] *)
Definition patched_filename (input_file : path) : path :=
  [stem input_file ++ "_patched" ++ suffix input_file].

(** [process_file_streaming(input_file, output_file, bino)]: lines 27-110
    are those of [binoculars_analysis.py]; the write goes to the script
    directory under a patched label, and [output_file] is not used. *)
Definition process_file_streaming (input_file output_file : path)
  : M exn Binoculars.world bool :=
  try_except
    (Binoculars.getsize input_file;;
     processed_items ← Binoculars.first_pass input_file;
     match processed_items with
     | [] => mret false
     | _ =>
         data ← Binoculars.reload_and_merge input_file processed_items;
         Binoculars.json_dump_file (patched_filename input_file) data 4 false;;
         mret true
     end)
    (fun _ => mret false).

Definition target_files : list path :=
  [ ["MAY_comp_2023.json"]; ["JULY_comp_2023.json"] ].

Definition input_dir : path := [].
Definition output_dir : path := ["data"; "comp-proc"; "post"; "2023"].

Definition analyze_file (file_path : path) (success_count : Z)
  : M exn Binoculars.world Z :=
  let input_file := (input_dir ++ file_path)%list in
  let output_file := (output_dir ++ file_path)%list in
  w ← get_world;
  if negb (exists_ (Binoculars.fs w) input_file) then mret success_count
  else
    ok ← process_file_streaming input_file output_file;
    mret (if ok : bool then success_count + 1 else success_count).

Definition analyze_abstracts : M exn Binoculars.world Z :=
  for_each analyze_file target_files 0.

End Annotator.
End BinocularsPatch.

(** ** The resumable harvester: [Scopus/0_compsci.py] *)

Module Scopus.
Import Py Eff FS Json.

(** One [requests.get]: the URL, the [X-ELS-APIKey] header and the query
    parameters. *)
Record request : Type := {
  url : string;
  api_key : option string;
  params : list (string * pyval)
}.

(** What comes back: the status, and the body as [response.json()] gives it
    ([None] when it raises). *)
Record response : Type := {
  status_code : Z;
  json_body : option pyval
}.

(** The world outside the script: the reply to the n-th request (every
    request gets one), what the n-th look at the terminal finds ([None]: no
    line within the time-out), and the value of [SCOPUS_API_KEYS] at the
    n-th reload of [.env]. *)
Class Outside : Type := {
  respond : nat -> request -> response;
  stdin_poll : nat -> option string;
  dotenv_keys : nat -> option string
}.

Inductive event : Type :=
| EvRequest (r : request)
| EvSleep (seconds : Z).

(** A run stops with a Python exception, which no handler catches, or is
    still going when the fuel of a loop is used up. *)
Inductive halt : Type :=
| Raised (e : exn)
| OutOfFuel.

Definition SEARCH_URL : string := "https://api.elsevier.com/content/search/scopus".
Definition ABSTRACT_URL : string :=
  "https://api.elsevier.com/content/abstract/scopus_id/".
Definition COUNT : Z := 200.
Definition BACKUP_INTERVAL : Z := 500.
Definition base_backup_dir : list string := ["data"; "comp"; "post"].

(** Lines 18-23: the key pool as the script starts. *)
Definition load_api_keys (api_keys_str api_key : option string)
  : list (option string) :=
  match api_keys_str with
  | Some s =>
      if String.eqb s "" then [api_key]
      else map (fun key => Some (strip key)) (split "," s)
  | None => [api_key]
  end.

Section Harvester.
Context `{JL : JsonLib} `{OUT : Outside}.

Record world : Type := {
  API_KEYS : list (option string);
  current_api_key_index : nat;
  fs : gmap (list string) (node file_text);
  requests_made : nat;
  polls_made : nat;
  reloads_made : nat;
  trace : list event
}.

Definition set_keys (k : list (option string)) (w : world) : world :=
  {| API_KEYS := k; current_api_key_index := current_api_key_index w;
     fs := fs w; requests_made := requests_made w; polls_made := polls_made w;
     reloads_made := reloads_made w; trace := trace w |}.
Definition set_index (i : nat) (w : world) : world :=
  {| API_KEYS := API_KEYS w; current_api_key_index := i;
     fs := fs w; requests_made := requests_made w; polls_made := polls_made w;
     reloads_made := reloads_made w; trace := trace w |}.
Definition set_fs (f : gmap (list string) (node file_text)) (w : world) : world :=
  {| API_KEYS := API_KEYS w; current_api_key_index := current_api_key_index w;
     fs := f; requests_made := requests_made w; polls_made := polls_made w;
     reloads_made := reloads_made w; trace := trace w |}.
Definition sent (r : request) (w : world) : world :=
  {| API_KEYS := API_KEYS w; current_api_key_index := current_api_key_index w;
     fs := fs w; requests_made := S (requests_made w);
     polls_made := polls_made w; reloads_made := reloads_made w;
     trace := (trace w ++ [EvRequest r])%list |}.
Definition polled (w : world) : world :=
  {| API_KEYS := API_KEYS w; current_api_key_index := current_api_key_index w;
     fs := fs w; requests_made := requests_made w;
     polls_made := S (polls_made w); reloads_made := reloads_made w;
     trace := trace w |}.
Definition reloaded (w : world) : world :=
  {| API_KEYS := API_KEYS w; current_api_key_index := current_api_key_index w;
     fs := fs w; requests_made := requests_made w;
     polls_made := polls_made w; reloads_made := S (reloads_made w);
     trace := trace w |}.
Definition slept (seconds : Z) (w : world) : world :=
  {| API_KEYS := API_KEYS w; current_api_key_index := current_api_key_index w;
     fs := fs w; requests_made := requests_made w;
     polls_made := polls_made w; reloads_made := reloads_made w;
     trace := (trace w ++ [EvSleep seconds])%list |}.

(** A pure Python computation inside the script. *)
Definition lift_py {A} (r : result A) : M halt world A :=
  lift (match r with inl e => inl (Raised e) | inr a => inr a end).

(** Run a file-system operation on the world's file system. *)
Definition on_fs {A} (op : gmap (list string) (node file_text) ->
                          result A * gmap (list string) (node file_text))
  : M halt world A :=
  fun w => let '(r, f) := op (fs w) in
           (match r with inl e => inl (Raised e) | inr a => inr a end, set_fs f w).

(** [time.sleep(seconds)] *)
Definition sleep (seconds : Z) : M halt world unit := modify (slept seconds).

(** [get_headers()]: the key the pointer is on. *)
Definition get_headers : M halt world (option string) :=
  w ← get_world;
  match nth_error (API_KEYS w) (current_api_key_index w) with
  | Some key => mret key
  | None => throw (Raised IndexError)
  end.

(** [cycle_api_key()] *)
Definition cycle_api_key : M halt world unit :=
  w ← get_world;
  match API_KEYS w with
  | [] => throw (Raised ZeroDivisionError)
  | _ => modify (set_index
                   ((current_api_key_index w + 1) mod length (API_KEYS w))%nat)
  end.

(** [check_for_pause()] *)
Definition check_for_pause : M halt world bool :=
  w ← get_world;
  modify polled;;
  match stdin_poll (polls_made w) with
  | Some line => mret (String.eqb (lower (strip line)) "p")
  | None => mret false
  end.

(** The [while True] of [pause_and_reload], lines 51-54. *)
Fixpoint wait_for_resume (fuel : nat) : M halt world unit :=
  match fuel with
  | O => throw OutOfFuel
  | S fuel' =>
      resumed ← check_for_pause;
      if resumed : bool then mret tt
      else sleep 1;; wait_for_resume fuel'
  end.

(** [pause_and_reload()] *)
Definition pause_and_reload (fuel : nat) : M halt world unit :=
  wait_for_resume fuel;;
  w ← get_world;
  modify reloaded;;
  match dotenv_keys (reloads_made w) with
  | Some new_keys_str =>
      if String.eqb new_keys_str "" then mret tt
      else modify (set_keys (map (fun key => Some (strip key))
                                 (split "," new_keys_str)))
  | None => mret tt
  end.

(** [if check_for_pause(): pause_and_reload()] *)
Definition pause_point (fuel : nat) : M halt world unit :=
  paused ← check_for_pause;
  if paused : bool then pause_and_reload fuel else mret tt.

(** [requests.get(url, headers=get_headers(), params=params)] *)
Definition requests_get (url : string) (params : list (string * pyval))
  : M halt world response :=
  key ← get_headers;
  w ← get_world;
  let req := {| url := url; api_key := key; params := params |} in
  modify (sent req);;
  mret (respond (requests_made w) req).

(** [not json_data or key not in json_data] *)
Definition lacks_key (key : string) (json_data : pyval) : result bool :=
  if negb (truthy json_data) then ret true
  else match json_data with
       | VDict d => ret (negb (dict_has key d))
       | VList l => ret (negb (existsb (fun x => eq_str x key) l))
       | VStr s => ret (negb (contains key s))
       | _ => raise TypeError
       end.

(** The loop that [fetch_metadata], [fetch_abstract] and [fetch_citations]
    each spell out: up to [retries] requests; a 429, a body that is not
    JSON, or a body without the expected top-level key rotates the key,
    sleeps two seconds and tries again; the first usable body is handed to
    [extract]; when the attempts are used up the result is [fallback]. *)
Fixpoint fetch_with_retries (url : string) (params : list (string * pyval))
  (top_key : string) (extract : pyval -> result pyval) (fallback : pyval)
  (retries : nat) : M halt world pyval :=
  match retries with
  | O => mret fallback
  | S retries' =>
      response ← requests_get url params;
      if Z.eqb (status_code response) 429
      then cycle_api_key;; sleep 2;;
           fetch_with_retries url params top_key extract fallback retries'
      else
        match json_body response with
        | None =>
            cycle_api_key;; sleep 2;;
            fetch_with_retries url params top_key extract fallback retries'
        | Some json_data =>
            missing ← lift_py (lacks_key top_key json_data);
            if missing : bool
            then cycle_api_key;; sleep 2;;
                 fetch_with_retries url params top_key extract fallback retries'
            else lift_py (extract json_data)
        end
  end.

(** [xs[0]] *)
Definition py_first (xs : pyval) : result pyval :=
  match xs with
  | VList (x :: _) => ret x
  | VList [] => raise IndexError
  | _ => raise TypeError
  end.

Fixpoint map_result {A B} (f : A -> result B) (l : list A) : result (list B) :=
  match l with
  | [] => ret []
  | x :: l' =>
      rbind (f x) (fun y => rbind (map_result f l') (fun ys => ret (y :: ys)))
  end.

(** Lines 95-116 of [fetch_metadata]. *)
Definition extract_metadata (scopus_id : string) (json_data : pyval)
  : result pyval :=
  rbind (py_getitem json_data "abstracts-retrieval-response") (fun data =>
  rbind (py_get data "coredata" (VDict [])) (fun core_data =>
  rbind (py_get data "authors" VNone) (fun a =>
  let authors_section := if truthy a then a else VDict [] in
  rbind (py_get authors_section "author" (VList [])) (fun authors =>
  rbind (py_get data "affiliation" (VList [])) (fun aff =>
  let affiliations :=
    if is_list aff then aff
    else if truthy aff then VList [aff] else VList [] in
  rbind (if truthy affiliations
         then rbind (py_first affiliations) (fun first =>
              py_get first "affiliation-name" (VStr "N/A"))
         else ret (VStr "N/A")) (fun affiliation_name =>
  rbind (if truthy affiliations
         then rbind (py_first affiliations) (fun first =>
              py_get first "affiliation-country" (VStr "N/A"))
         else ret (VStr "N/A")) (fun affiliation_country =>
  rbind (py_get core_data "dc:title" (VStr "N/A")) (fun title =>
  rbind (py_get core_data "dc:description" (VStr "N/A")) (fun abstract =>
  rbind (match authors with
         | VList l =>
             map_result (fun author =>
                           py_get author "ce:indexed-name" (VStr "N/A")) l
         | _ => ret []
         end) (fun author_names =>
  rbind (py_get core_data "prism:coverDate" (VStr "N/A")) (fun date =>
  rbind (py_get core_data "prism:doi" (VStr "N/A")) (fun doi =>
  rbind (py_get core_data "authkeywords" (VStr "N/A")) (fun keywords =>
  rbind (py_get core_data "citedby-count" (VInt 0)) (fun cited =>
  rbind (py_int cited) (fun cited_by_count =>
  rbind (py_get core_data "prism:publicationName" (VStr "N/A")) (fun source =>
  ret (VDict [ ("Scopus_ID", VStr scopus_id);
               ("Title", title);
               ("Abstract", abstract);
               ("Authors", VList author_names);
               ("Affiliation_Name", affiliation_name);
               ("Affiliation_Country", affiliation_country);
               ("Publication_Date", date);
               ("DOI", doi);
               ("Keywords", keywords);
               ("Cited_By_Count", VInt cited_by_count);
               ("Source", source) ]))))))))))))))))).

(** [fetch_metadata(scopus_id, retries=3)] *)
Definition fetch_metadata (scopus_id : string) (retries : nat)
  : M halt world pyval :=
  fetch_with_retries (ABSTRACT_URL ++ scopus_id) []
    "abstracts-retrieval-response" (extract_metadata scopus_id) VNone retries.

(** Lines 140-141 of [fetch_abstract]. *)
Definition extract_abstract (json_data : pyval) : result pyval :=
  rbind (py_getitem json_data "abstracts-retrieval-response") (fun data =>
  rbind (py_get data "coredata" (VDict [])) (fun core_data =>
  py_get core_data "dc:description" (VStr "N/A"))).

(** [fetch_abstract(scopus_id, retries=3)] *)
Definition fetch_abstract (scopus_id : string) (retries : nat)
  : M halt world pyval :=
  fetch_with_retries (ABSTRACT_URL ++ scopus_id) []
    "abstracts-retrieval-response" extract_abstract (VStr "N/A") retries.

(** [entry.get("dc:identifier", "").replace("SCOPUS_ID:", "")] *)
Definition entry_scopus_id (entry : pyval) : result string :=
  rbind (py_get entry "dc:identifier" (VStr "")) (fun v =>
  match v with
  | VStr s => ret (replace "SCOPUS_ID:" "" s)
  | _ => raise AttributeError
  end).

(** The body of [for entry in entries] in [fetch_citations], lines 173-191. *)
Definition citation_of (entry : pyval) : result pyval :=
  rbind (entry_scopus_id entry) (fun citing_id =>
  rbind (py_get entry "prism:url" (VStr "N/A")) (fun citing_url =>
  rbind (py_get entry "prism:coverDate" (VStr "N/A")) (fun cited_date =>
  rbind (py_get entry "citedby-count" (VStr "N/A")) (fun citing_citation_count =>
  rbind (py_get entry "affiliation" (VDict [])) (fun affiliation_info =>
  rbind (if is_list affiliation_info && truthy affiliation_info
         then rbind (py_first affiliation_info) (fun first =>
              py_get first "affiliation-country" (VStr "N/A"))
         else if is_dict affiliation_info
              then py_get affiliation_info "affiliation-country" (VStr "N/A")
              else ret (VStr "N/A")) (fun citing_aff_country =>
  ret (VDict [ ("Citing_Article_Scopus_ID", VStr citing_id);
               ("Citing_Article_URL", citing_url);
               ("Cited_Date", cited_date);
               ("Citing_Citation_Count", citing_citation_count);
               ("Citing_Affiliation_Country", citing_aff_country) ]))))))).

(** Lines 170-192 of [fetch_citations]. *)
Definition extract_citations (json_data : pyval) : result pyval :=
  rbind (py_get json_data "search-results" (VDict [])) (fun results =>
  rbind (py_get results "entry" (VList [])) (fun entries =>
  rbind (py_iter entries) (fun entry_list =>
  rbind (map_result citation_of entry_list) (fun citations =>
  ret (VDict [("citations", VList citations)]))))).

(** [fetch_citations(scopus_id, count=200, retries=3)] *)
Definition fetch_citations (scopus_id : string) (count : Z) (retries : nat)
  : M halt world pyval :=
  fetch_with_retries SEARCH_URL
    [ ("query", VStr ("REF(" ++ scopus_id ++ ")")); ("count", VInt count);
      ("start", VInt 0); ("view", VStr "STANDARD") ]
    "search-results" extract_citations (VDict [("citations", VList [])])
    retries.

(** [backup_data(data, backup_filename)]: [json.dump(data, f, indent=4)].
    With [ensure_ascii] left at its default the text is plain ASCII, and
    a document put together from JSON replies can always be serialised:
    this dump completes once the file is open. *)
Definition backup_data (data : pyval) (backup_filename : list string)
  : M halt world unit :=
  on_fs (fun f => match write_file f backup_filename (json_dump data 4 true) with
                  | inl e => (inl e, f)
                  | inr f' => (inr tt, f')
                  end).

(** [get_year_folder(year)], with [str(year)] already taken. *)
Definition get_year_folder (year : string) : M halt world (list string) :=
  let year_folder := (base_backup_dir ++ [year])%list in
  on_fs (makedirs year_folder);;
  mret year_folder.

(** The names that [f"{month}_*_comp_23_25.json"] matches, for a month
    name without wildcard characters. *)
Definition is_backup_name (month base : string) : bool :=
  String.prefix (month ++ "_") base
  && ends_with "_comp_23_25.json" base
  && (String.length (month ++ "_") + String.length "_comp_23_25.json"
      <=? String.length base)%nat.

(** [f"{month}_{count}_comp_23_25.json"] *)
Definition backup_name (month : string) (count : Z) : string :=
  month ++ "_" ++ str_of_int count ++ "_comp_23_25.json".

(** [int(base.split("_")[1])] *)
Definition backup_index (base : string) : result Z :=
  match nth_error (split "_" base) 1 with
  | Some part => int_of_string part
  | None => raise IndexError
  end.

(** The [for bf in backup_files] loop, lines 222-229: names whose count
    does not parse are reported and left out. *)
Definition backup_indices (backup_files : list string) : list Z :=
  omap (fun base => match backup_index base with
                    | inr index_val => Some index_val
                    | inl _ => None
                    end) backup_files.

(** [max(indices)] of a non-empty list *)
Definition max_index (first : Z) (others : list Z) : Z :=
  fold_left Z.max others first.

(** [resume_backup(year_dir, month)] *)
Definition resume_backup (year_dir : list string) (month : string)
  : M halt world (Z * pyval) :=
  w ← get_world;
  let backup_files := filter (fun base => is_backup_name month base = true)
                             (listdir (fs w) year_dir) in
  match backup_indices backup_files with
  | [] => mret (0, VList [])
  | first :: others =>
      let start_offset := max_index first others in
      let latest_backup := (year_dir ++ [backup_name month start_offset])%list in
      t ← lift_py (read_file (fs w) latest_backup);
      match json_load t with
      | Some articles => mret (start_offset, articles)
      | None => throw (Raised JSONDecodeError)
      end
  end.

Definition month_list : list string :=
  [ "JANUARY"; "FEBRUARY"; "MARCH"; "APRIL"; "MAY"; "JUNE";
    "JULY"; "AUGUST"; "SEPTEMBER"; "OCTOBER"; "NOVEMBER"; "DECEMBER" ].

(** [x.append(item)] *)
Definition py_append (x item : pyval) : result pyval :=
  match x with
  | VList l => ret (VList (l ++ [item]))
  | _ => raise AttributeError
  end.

(** [x[key] = value] *)
Definition py_setitem (x : pyval) (key : string) (value : pyval) : result pyval :=
  match x with
  | VDict d => ret (VDict (dict_set key value d))
  | _ => raise TypeError
  end.

(** [x > 0] *)
Definition py_positive (x : pyval) : result bool :=
  match x with
  | VInt z => ret (Z.ltb 0 z)
  | VBool b => ret b
  | VFloat f => ret (SFltb (S754_zero false) f)
  | VDec m _ => ret (Z.ltb 0 m)
  | _ => raise TypeError
  end.

(** [response.json()] *)
Definition response_json (r : response) : result pyval :=
  match json_body r with
  | Some v => ret v
  | None => raise JSONDecodeError
  end.

(** The body of [for entry in entries], lines 286-302. *)
Definition process_entry (year_dir : list string) (month_name : string)
  (entry : pyval) (st : Z * pyval) : M halt world (Z * pyval) :=
  let '(total_processed, monthly_articles) := st in
  scopus_id ← lift_py (entry_scopus_id entry);
  metadata ← fetch_metadata scopus_id 3;
  if truthy metadata
  then
    abstract ← fetch_abstract scopus_id 3;
    metadata ← lift_py (py_setitem metadata "Abstract" abstract);
    cited ← lift_py (py_getitem metadata "Cited_By_Count");
    has_citations ← lift_py (py_positive cited);
    metadata ←
      (if has_citations : bool
       then citation_data ← fetch_citations scopus_id 200 3;
            citations ← lift_py (py_getitem citation_data "citations");
            lift_py (py_setitem metadata "Citations" citations)
       else lift_py (py_setitem metadata "Citations" (VList [])));
    monthly_articles ← lift_py (py_append monthly_articles metadata);
    let total_processed := total_processed + 1 in
    (if Z.eqb (total_processed mod BACKUP_INTERVAL) 0
     then backup_data monthly_articles
            (year_dir ++ [backup_name month_name total_processed])%list;;
          sleep 10
     else mret tt);;
    mret (total_processed, monthly_articles)
  else mret st.

(** [while current_offset < 5000], lines 273-304. The loop variables are
    [current_offset], [total_processed] and [monthly_articles]. *)
Fixpoint page_loop (fuel : nat) (query : string) (year_dir : list string)
  (month_name : string) (st : Z * Z * pyval) : M halt world (Z * Z * pyval) :=
  match fuel with
  | O => throw OutOfFuel
  | S fuel' =>
      let '(current_offset, total_processed, monthly_articles) := st in
      if Z.ltb current_offset 5000
      then
        pause_point fuel';;
        response ← requests_get SEARCH_URL
                     [ ("query", VStr query); ("count", VInt COUNT);
                       ("start", VInt current_offset) ];
        if negb (Z.eqb (status_code response) 200)
        then lift_py (response_json response);; mret st
        else
          data ← lift_py (response_json response);
          results ← lift_py (py_get data "search-results" (VDict []));
          entries ← lift_py (py_get results "entry" (VList []));
          if negb (truthy entries) then mret st
          else
            entry_list ← lift_py (py_iter entries);
            '(total_processed, monthly_articles) ←
              for_each (process_entry year_dir month_name) entry_list
                       (total_processed, monthly_articles);
            page_loop fuel' query year_dir month_name
              (current_offset + COUNT, total_processed, monthly_articles)
      else mret st
  end.

(** [f"SUBJAREA(COMP) AND PUBDATETXT({month_name}+{year})"] *)
Definition month_query (month_name year : string) : string :=
  "SUBJAREA(COMP) AND PUBDATETXT(" ++ month_name ++ "+" ++ year ++ ")".

(** [f"{month_name}_comp_23_25.json"] under the year's directory *)
Definition output_file_of (year_dir : list string) (month_name : string)
  : list string :=
  (year_dir ++ [(month_name ++ "_comp_23_25.json")%string])%list.

(** One turn of [while current_date <= end_date], lines 250-311, for the
    month [current_date = (year, month)]. *)
Definition collect_month (fuel : nat) (current_date : Z * Z)
  : M halt world unit :=
  let '(year, month) := current_date in
  let month_name := nth (Z.to_nat (month - 1)) month_list "" in
  let query := month_query month_name (str_of_int year) in
  year_dir ← get_year_folder (str_of_int year);
  let output_file := output_file_of year_dir month_name in
  w ← get_world;
  if exists_ (fs w) output_file
  then mret tt
  else
    pause_point fuel;;
    '(start_offset, monthly_articles) ← resume_backup year_dir month_name;
    '(_, _, monthly_articles) ←
      page_loop fuel query year_dir month_name
        (start_offset, start_offset, monthly_articles);
    backup_data monthly_articles output_file.

(** [current_date.replace(day=28) + timedelta(days=4)], then
    [.replace(day=1)]: the first day of the next month. *)
Definition next_month (current_date : Z * Z) : Z * Z :=
  let '(year, month) := current_date in
  if Z.eqb month 12 then (year + 1, 1) else (year, month + 1).

(** [current_date <= end_date] for the first day of a month and
    [end_date = datetime(2025, 1, 31)]. *)
Definition before_end (current_date : Z * Z) : bool :=
  let '(year, month) := current_date in
  Z.ltb year 2025 || (Z.eqb year 2025 && Z.leb month 1).

(** [while current_date <= end_date] *)
Fixpoint collect_from (fuel : nat) (current_date : Z * Z) : M halt world unit :=
  match fuel with
  | O => throw OutOfFuel
  | S fuel' =>
      if before_end current_date
      then collect_month fuel' current_date;;
           collect_from fuel' (next_month current_date)
      else mret tt
  end.

(** The script from line 206 on. *)
Definition main (fuel : nat) : M halt world unit :=
  on_fs (makedirs base_backup_dir);;
  collect_from fuel (2023, 1).

End Harvester.
End Scopus.

(** ** The patch harvester: [Scopus/0_compsci_patch.py] *)

Module ScopusPatch.
Import Py Eff FS Json.
Import Scopus.

Section Harvester.
Context `{JL : JsonLib} `{OUT : Outside}.

(** [len(x)] *)
Definition py_len (x : pyval) : result Z :=
  match x with
  | VList l => ret (Z.of_nat (length l))
  | VDict d => ret (Z.of_nat (length d))
  | VStr s => ret (Z.of_nat (String.length s))
  | _ => raise TypeError
  end.

(** [if articles: backup_data(articles, f"{month}_{len(articles)}_...")] *)
Definition save_collected (year_dir : list string) (month : string)
  (articles : pyval) : M halt world unit :=
  if truthy articles
  then n ← lift_py (py_len articles);
       backup_data articles (year_dir ++ [backup_name month n])%list
  else mret tt.

(** The body of [for entry in entries], lines 313-329. *)
Definition process_entry (year_dir : list string) (month : string)
  (entry : pyval) (articles : pyval) : M halt world pyval :=
  scopus_id ← lift_py (entry_scopus_id entry);
  if String.eqb scopus_id "" then mret articles
  else
    metadata ← fetch_metadata scopus_id 3;
    if negb (truthy metadata) then mret articles
    else
      articles ← lift_py (py_append articles metadata);
      n ← lift_py (py_len articles);
      (if Z.eqb (n mod BACKUP_INTERVAL) 0
       then backup_data articles (year_dir ++ [backup_name month n])%list
       else mret tt);;
      mret articles.

(** [while True], lines 273-335. The loop variables are [params["start"]]
    and [articles]; the other parameters do not change. *)
Fixpoint page_loop (fuel : nat) (query : string) (year_dir : list string)
  (month : string) (st : Z * pyval) : M halt world pyval :=
  match fuel with
  | O => throw OutOfFuel
  | S fuel' =>
      let '(start, articles) := st in
      pause_point fuel';;
      response ← requests_get SEARCH_URL
                   [ ("query", VStr query); ("count", VInt COUNT);
                     ("start", VInt start); ("view", VStr "STANDARD") ];
      if Z.eqb (status_code response) 429
      then cycle_api_key;; sleep 2;;
           page_loop fuel' query year_dir month st
      else
        match json_body response with
        | None =>
            cycle_api_key;; sleep 2;;
            page_loop fuel' query year_dir month st
        | Some json_data =>
            missing ← lift_py (lacks_key "search-results" json_data);
            if missing : bool
            then save_collected year_dir month articles;;
                 cycle_api_key;; sleep 2;;
                 mret articles
            else
              results ← lift_py (py_get json_data "search-results" (VDict []));
              entries ← lift_py (py_get results "entry" (VList []));
              if negb (truthy entries)
              then save_collected year_dir month articles;; mret articles
              else
                entry_list ← lift_py (py_iter entries);
                articles ← for_each (process_entry year_dir month) entry_list
                                    articles;
                sleep 1;;
                page_loop fuel' query year_dir month (start + COUNT, articles)
        end
  end.

(** The body of [for month in months], lines 251-342. *)
Definition collect_month (fuel : nat) (year : string) (year_dir : list string)
  (month : string) (_ : unit) : M halt world unit :=
  '(start_offset, articles) ← resume_backup year_dir month;
  let month_name := if String.eqb month "MAY" then "May" else "July" in
  let query := month_query month_name year in
  articles ← page_loop fuel query year_dir month (start_offset, articles);
  save_collected year_dir month articles.

(** [target_months = {"2023": ["MAY", "JULY"]}] *)
Definition target_months : list (string * list string) :=
  [ ("2023", ["MAY"; "JULY"]) ].

(** The script from line 206 on. *)
Definition main (fuel : nat) : M halt world unit :=
  on_fs (makedirs base_backup_dir);;
  for_each (fun '(year, months) (_ : unit) =>
              year_dir ← get_year_folder year;
              for_each (collect_month fuel year year_dir) months tt)
           target_months tt.

End Harvester.
End ScopusPatch.

(** ** The vocabulary of the statements about the annotator *)

Module AnnotSpec.
Import Py Eff FS Json Binoculars.

(** The text field as the first pass reads it: [article.get("Abstract", "")]. *)
Definition abstract_of (d : list (string * pyval)) : pyval :=
  dict_get "Abstract" (VStr "") d.

(** A record carries a non-null score. *)
Definition already_scored (d : list (string * pyval)) : Prop :=
  exists v, dict_find "Binoculars_Score" d = Some v /\ v <> VNone.

(** The text field is missing, empty, or the sentinel. *)
Definition text_unavailable (d : list (string * pyval)) : Prop :=
  dict_find "Abstract" d = None \/
  dict_find "Abstract" d = Some (VStr "") \/
  dict_find "Abstract" d = Some (VStr "N/A").

(** Both checks of the first pass, as one test. *)
Definition passes_checks (d : list (string * pyval)) : bool :=
  negb (dict_has "Binoculars_Score" d
        && negb (is_none (dict_get "Binoculars_Score" VNone d)))
  && negb (negb (truthy (abstract_of d)) || eq_str (abstract_of d) "N/A").

(** The texts handed to the scorer, in order. *)
Definition scorer_inputs (tr : list event) : list pyval :=
  omap (fun e => match e with EvScore t => Some t | _ => None end) tr.

(** The records at the head of the stream: a value that is not a dict
    stops the pass. *)
Fixpoint leading_records (items : list pyval) : list (list (string * pyval)) :=
  match items with
  | VDict d :: rest => d :: leading_records rest
  | _ => []
  end.

(** The annotations computed last for an identifier equal to [k]. *)
Fixpoint last_with_key (k : pyval) (processed_items : list processed_item)
  : option processed_item :=
  match processed_items with
  | [] => None
  | item :: rest =>
      match last_with_key k rest with
      | Some later => Some later
      | None => if key_eqb k (Scopus_ID item) then Some item else None
      end
  end.

(** The annotations that a pass over [records] computes when the scorer
    starts in state [b]: one for each record that passes both checks and
    on whose text the scorer returns a score, in the order of the records,
    with the record's identifier ([""] when it has none), the score and the
    two thresholded predictions. The scorer's state runs through the calls,
    also through those that raise. *)
Fixpoint computed_annotations `{SC : Scorer}
  (records : list (list (string * pyval))) (b : scorer) : list processed_item :=
  match records with
  | [] => []
  | d :: rest =>
      if passes_checks d
      then
        match compute_score b (abstract_of d) with
        | (Some score, b') =>
            {| Scopus_ID := dict_get "Scopus_ID" (VStr "") d;
               Binoculars_Score := score;
               Accuracy_Prediction := accuracy_prediction score;
               FPR_Prediction := fpr_prediction score |}
            :: computed_annotations rest b'
        | (None, b') => computed_annotations rest b'
        end
      else computed_annotations rest b
  end.

(** The three fields that the merge writes. *)
Definition score_field (k : string) : bool :=
  String.eqb k "Binoculars_Score" || String.eqb k "Accuracy_Prediction"
  || String.eqb k "FPR_Prediction".

(** What the merge may do to one record, given the lookup. *)
Definition merged_record (scores_dict : list (pyval * processed_item))
  (article article' : pyval) : Prop :=
  exists d, article = VDict d /\
  match assoc_get key_eqb (dict_get "Scopus_ID" VNone d) scores_dict with
  | Some scores =>
      exists d', article' = VDict d' /\
        dict_find "Binoculars_Score" d' = Some (VFloat (Binoculars_Score scores)) /\
        dict_find "Accuracy_Prediction" d' = Some (VInt (Accuracy_Prediction scores)) /\
        dict_find "FPR_Prediction" d' = Some (VInt (FPR_Prediction scores)) /\
        (forall k, score_field k = false -> dict_find k d' = dict_find k d) /\
        exists added, map fst d' = (map fst d ++ added)%list
  | None => article' = article
  end.

(** A stored item's predictions are the thresholded score. *)
Definition thresholded (item : processed_item) : Prop :=
  Accuracy_Prediction item = accuracy_prediction (Binoculars_Score item) /\
  FPR_Prediction item = fpr_prediction (Binoculars_Score item).

(** The events of the first pass: nothing after the stream is opened but
    calls of the scorer. *)
Definition streaming_event (e : event) : bool :=
  match e with
  | EvGetSize _ | EvOpenStream _ | EvScore _ => true
  | _ => false
  end.

Section Worlds.
Context `{JL : JsonLib} `{SC : Scorer}.

(** The world after the events [e]. *)
Definition logged (e : list event) (w : world) : world :=
  {| fs := fs w; bino := bino w; trace := (trace w ++ e)%list |}.

(** The run up to the merge, as the main and the patch annotator share it. *)
Definition merged_run (input_file : path) (w : world) (t : file_text)
  (loaded : pyval) (processed_items : list processed_item)
  (scores_dict : list (pyval * processed_item)) (data : pyval) (w2 : world)
  : Prop :=
  exists items w1,
    read_file (fs w) input_file = inr t /\
    ijson_items t = (items, true) /\
    for_each score_article items []
      (logged [EvGetSize input_file; EvOpenStream input_file] w)
      = (inr processed_items, w1) /\
    processed_items <> [] /\
    json_load t = Some loaded /\
    build_scores_dict processed_items [] = inr scores_dict /\
    merge_scores scores_dict loaded = inr data /\
    w2 = logged [EvJsonLoad input_file] w1 /\
    fs w2 = fs w.

End Worlds.

End AnnotSpec.

(** ** The classes of dictionary keys *)

Module KeyClass.
Import Py.

(** a key's class: what [==] and [hash] see of it *)
Inductive key_class : Type :=
| KNone | KStr (s : string) | KInf (s : bool) | KNum (n d : Z) | KOther.

Definition class_of (v : pyval) : key_class :=
  match v with
  | VNone => KNone
  | VStr s => KStr s
  | VFloat (S754_infinity s) => KInf s
  | _ => match num_ratio v with Some (n, d) => KNum n d | None => KOther end
  end.

Definition class_eqb (a b : key_class) : bool :=
  match a, b with
  | KNone, KNone => true
  | KStr s, KStr t => String.eqb s t
  | KInf s, KInf t => Bool.eqb s t
  | KNum n1 d1, KNum n2 d2 => Z.eqb (n1 * d2) (n2 * d1)
  | _, _ => false
  end.

End KeyClass.

(** ** The vocabulary of the statements about the harvester *)

Module HarvestSpec.
Import Py Eff FS Json Scopus.
Section Vocabulary.
Context `{JL : JsonLib} `{OUT : Outside}.

(** The terminal shows no pause request. *)
Definition no_pause_signal (line : option string) : bool :=
  match line with
  | Some l => negb (String.eqb (lower (strip l)) "p")
  | None => true
  end.

(** The world after a request that is answered by a rotation: the request
    is sent, the pointer moves on by one modulo the pool size, and the
    script sleeps two seconds. *)
Definition rotated (req : request) (w : world) : world :=
  slept 2
    (set_index ((current_api_key_index w + 1) mod length (API_KEYS w))%nat
       (sent req w)).

(** A reply after which the fetch functions try again. *)
Definition retried (top_key : string) (r : response) : bool :=
  Z.eqb (status_code r) 429 ||
  match json_body r with
  | None => true
  | Some json_data =>
      match lacks_key top_key json_data with
      | inr true => true
      | _ => false
      end
  end.

(** The next [n] replies to the request [mk key] are all tried again. *)
Fixpoint all_retried (top_key : string) (mk : option string -> request)
  (n : nat) (w : world) : bool :=
  match n with
  | O => true
  | S n' =>
      match nth_error (API_KEYS w) (current_api_key_index w) with
      | Some key =>
          retried top_key (respond (requests_made w) (mk key))
          && all_retried top_key mk n' (rotated (mk key) w)
      | None => false
      end
  end.

(** The world after [n] such attempts. *)
Fixpoint after_retries (mk : option string -> request) (n : nat) (w : world)
  : world :=
  match n with
  | O => w
  | S n' =>
      match nth_error (API_KEYS w) (current_api_key_index w) with
      | Some key => after_retries mk n' (rotated (mk key) w)
      | None => w
      end
  end.

(** The page request of the patch harvester at offset [start]. *)
Definition patch_page_request (query : string) (start : Z)
  (key : option string) : request :=
  {| url := SEARCH_URL; api_key := key;
     params := [ ("query", VStr query); ("count", VInt COUNT);
                 ("start", VInt start); ("view", VStr "STANDARD") ] |}.

(** The page request of the main harvester at offset [current_offset]. *)
Definition page_request (query : string) (current_offset : Z)
  (key : option string) : request :=
  {| url := SEARCH_URL; api_key := key;
     params := [ ("query", VStr query); ("count", VInt COUNT);
                 ("start", VInt current_offset) ] |}.

(** The next [n] page requests are all answered with a 429, and the
    operator asks for no pause. *)
Fixpoint rate_limited (mk : option string -> request) (n : nat) (w : world)
  : bool :=
  match n with
  | O => true
  | S n' =>
      no_pause_signal (stdin_poll (polls_made w))
      && match nth_error (API_KEYS w) (current_api_key_index w) with
         | Some key =>
             Z.eqb (status_code (respond (requests_made w) (mk key))) 429
             && rate_limited mk n' (rotated (mk key) (polled w))
         | None => false
         end
  end.

(** The world after [n] rate-limited page requests. *)
Fixpoint after_rate_limits (mk : option string -> request) (n : nat)
  (w : world) : world :=
  match n with
  | O => w
  | S n' =>
      match nth_error (API_KEYS w) (current_api_key_index w) with
      | Some key => after_rate_limits mk n' (rotated (mk key) (polled w))
      | None => w
      end
  end.

(** The events of [n] rotations on the request built by [mk]. *)
Definition retry_event (mk : option string -> request) (e : event) : Prop :=
  match e with
  | EvRequest r => exists key, r = mk key
  | EvSleep seconds => seconds = 2
  end.

(** A checkpoint of [month] at count [n] in [year_dir]: a file under the
    count's name that holds a list of [n] records. *)
Definition checkpoint_at (w : world) (year_dir : list string) (month : string)
  (n : Z) (l : list pyval) : Prop :=
  exists t, read_file (fs w) (year_dir ++ [backup_name month n])%list = inr t /\
            json_load t = Some (VList l) /\ Z.of_nat (length l) = n.

(** The names in [year_dir] that the resume pattern matches. *)
Definition backup_files_in (w : world) (year_dir : list string) (month : string)
  : list string :=
  filter (fun base => is_backup_name month base = true) (listdir (fs w) year_dir).

End Vocabulary.

(** The request of [fetch_metadata] and [fetch_abstract]. *)
Definition abstract_request (scopus_id : string) (key : option string)
  : request :=
  {| url := ABSTRACT_URL ++ scopus_id; api_key := key; params := [] |}.

(** The request of [fetch_citations]. *)
Definition citations_request (scopus_id : string) (count : Z)
  (key : option string) : request :=
  {| url := SEARCH_URL; api_key := key;
     params := [ ("query", VStr ("REF(" ++ scopus_id ++ ")"));
                 ("count", VInt count); ("start", VInt 0);
                 ("view", VStr "STANDARD") ] |}.

Fixpoint all_chars (P : ascii -> bool) (s : string) : bool :=
  match s with
  | EmptyString => true
  | String c s' => P c && all_chars P s'
  end.

(** The value of a string of digits, most significant digit first. *)
Fixpoint horner (acc : Z) (s : string) : Z :=
  match s with
  | EmptyString => acc
  | String c s' => horner (10 * acc + (Z.of_nat (nat_of_ascii c) - 48)) s'
  end.

End HarvestSpec.

(** ** Concrete libraries, documents and replies for the examples *)

Module Examples.
Import Py Eff FS Json Binoculars AnnotSpec Scopus HarvestSpec.

(** A JSON library whose file texts are the documents themselves. *)
Definition plain_json : JsonLib :=
  {| file_text := pyval;
     json_load := Some;
     ijson_items := fun t => (match t with VList l => l | _ => [] end, true);
     json_dump := fun data _ _ => data;
     json_dump_partial := fun _ _ _ => None |}.

(** 0.5 and 1.0 as binary64 values. *)
Definition half : spec_float := S754_finite false 4503599627370496 (-53).
Definition one : spec_float := S754_finite false 4503599627370496 (-52).

(** A scorer that counts its calls: it fails on the text "unreadable",
    gives 0.5 to "machine text" and 1.0 to anything else. *)
Definition counting_scorer : Binoculars.Scorer :=
  {| Binoculars.scorer := nat;
     Binoculars.compute_score := fun calls text =>
       (if eq_str text "unreadable" then None
        else if eq_str text "machine text" then Some half else Some one,
        S calls) |}.

(** Three records: one scored already, one with an empty text, one to score. *)
Definition scored_record : list (string * pyval) :=
  [ ("Scopus_ID", VStr "1"); ("Abstract", VStr "first text");
    ("Binoculars_Score", VFloat half) ].
Definition empty_record : list (string * pyval) :=
  [ ("Scopus_ID", VStr "2"); ("Abstract", VStr "") ].
Definition fresh_record : list (string * pyval) :=
  [ ("Scopus_ID", VStr "3"); ("Title", VStr "Third");
    ("Abstract", VStr "third text") ].
Definition three_records : pyval :=
  VList [ VDict scored_record; VDict empty_record; VDict fresh_record ].

Definition april_in : list string :=
  ["data"; "comp"; "pre"; "2021"; "APRIL_comp_2021.json"].
Definition april_out : list string :=
  ["data"; "comp-proc"; "2021"; "APRIL_comp_2021.json"].

Definition dirs_of {T} (p : list string) : list (list string * node T) :=
  map (fun n => (take n p, Dir)) (seq 1 (length p - 1)).

(** A file system with one file [p] holding [doc], below its directories. *)
Definition one_file (p : list string) (doc : pyval)
  : gmap (list string) (node (@file_text plain_json)) :=
  list_to_map ((p, File (doc : @file_text plain_json)) :: dirs_of p).

Definition annotator_world (p : list string) (doc : pyval)
  : @Binoculars.world plain_json counting_scorer :=
  @Binoculars.Build_world plain_json counting_scorer
    (one_file p doc) 0%nat [].

(** The remote service replies from a script, then with [default]; the
    operator types nothing and [.env] does not change. *)
Definition scripted (replies : list Scopus.response) (default : Scopus.response)
  : Scopus.Outside :=
  {| Scopus.respond := fun n _ => nth n replies default;
     Scopus.stdin_poll := fun _ => None;
     Scopus.dotenv_keys := fun _ => None |}.

Definition too_many_requests : Scopus.response :=
  {| Scopus.status_code := 429; Scopus.json_body := Some (VDict []) |}.
Definition empty_page : Scopus.response :=
  {| Scopus.status_code := 200;
     Scopus.json_body :=
       Some (VDict [("search-results", VDict [("entry", VList [])])]) |}.
Definition metadata_reply : Scopus.response :=
  {| Scopus.status_code := 200;
     Scopus.json_body :=
       Some (VDict [("abstracts-retrieval-response",
                     VDict [("coredata",
                             VDict [("dc:title", VStr "A title");
                                    ("citedby-count", VStr "0")])])]) |}.

Definition harvester_world (keys : list (option string))
  (files : gmap (list string) (node (@file_text plain_json)))
  : @Scopus.world plain_json :=
  @Scopus.Build_world plain_json keys 0%nat files 0%nat 0%nat 0%nat [].

Definition year_2023 : list string := ["data"; "comp"; "post"; "2023"].

(** The 2023 directory with the checkpoints of May at counts 500 and 1000. *)
Definition may_checkpoints : gmap (list string) (node (@file_text plain_json)) :=
  list_to_map
    ( ((year_2023 ++ ["MAY_500_comp_23_25.json"])%list,
       File (VList (replicate 500 (VDict [])) : @file_text plain_json))
      :: ((year_2023 ++ ["MAY_1000_comp_23_25.json"])%list,
          File (VList (replicate 1000 (VDict [])) : @file_text plain_json))
      :: dirs_of (year_2023 ++ ["x"])%list ).

(** The 2023 directory with the final output of May. *)
Definition may_finished : gmap (list string) (node (@file_text plain_json)) :=
  one_file (year_2023 ++ ["MAY_comp_23_25.json"])%list (VList []).

Definition april_world : @Binoculars.world plain_json counting_scorer :=
  annotator_world april_in three_records.

Definition april_done : @Binoculars.world plain_json counting_scorer :=
  snd (Binoculars.process_file_streaming april_in april_out april_world).

Definition scored_world : @Binoculars.world plain_json counting_scorer :=
  annotator_world april_in (VList [VDict scored_record]).

Definition may_in : list string := ["MAY_comp_2023.json"].

Definition may_out : list string :=
  ["data"; "comp-proc"; "post"; "2023"; "MAY_comp_2023.json"].

Definition may_world : @Binoculars.world plain_json counting_scorer :=
  annotator_world may_in three_records.

Definition may_patched : @Binoculars.world plain_json counting_scorer :=
  snd (BinocularsPatch.process_file_streaming may_in may_out may_world).

Definition quiet : Outside := scripted [] empty_page.

Definition limited : Outside := scripted [] too_many_requests.

Definition limited_twice : Outside :=
  scripted [too_many_requests; too_many_requests] empty_page.

Definition abstract_fails : Outside := scripted [metadata_reply] too_many_requests.

Definition resume_world : @Scopus.world plain_json :=
  harvester_world [Some "k1"] may_checkpoints.

Definition finished_world : @Scopus.world plain_json :=
  harvester_world [Some "k1"; Some "k2"; Some "k3"] may_finished.

Definition entry_42 : pyval := VDict [("dc:identifier", VStr "SCOPUS_ID:42")].

(** Two annotations for the identifier "7", and one stored under "". *)
Definition seven_first : processed_item :=
  {| Scopus_ID := VStr "7"; Binoculars_Score := half;
     Accuracy_Prediction := 1; FPR_Prediction := 1 |}.

Definition seven_last : processed_item :=
  {| Scopus_ID := VStr "7"; Binoculars_Score := one;
     Accuracy_Prediction := 0; FPR_Prediction := 0 |}.

Definition nameless : list (string * pyval) := [("Abstract", VStr "some text")].

Definition sevens : list pyval :=
  [ VDict [("Scopus_ID", VStr "7"); ("Abstract", VStr "a")];
    VDict nameless;
    VDict [("Scopus_ID", VStr "7"); ("Abstract", VStr "b")] ].

(** The same records once the annotation [seven_last] is written onto the
    two that carry "7". *)
Definition sevens_written : list pyval :=
  [ VDict [ ("Scopus_ID", VStr "7"); ("Abstract", VStr "a");
            ("Binoculars_Score", VFloat one);
            ("Accuracy_Prediction", VInt 0); ("FPR_Prediction", VInt 0) ];
    VDict nameless;
    VDict [ ("Scopus_ID", VStr "7"); ("Abstract", VStr "b");
            ("Binoculars_Score", VFloat one);
            ("Accuracy_Prediction", VInt 0); ("FPR_Prediction", VInt 0) ] ].

End Examples.

(** ** Further vocabulary for the annotator *)

Module AnnotMore.
Import Py Eff FS Json Binoculars AnnotSpec.

(** The identifier under which the first pass stores a record's scores:
    [article.get("Scopus_ID", "")]. *)
Definition stored_id (d : list (string * pyval)) : pyval :=
  dict_get "Scopus_ID" (VStr "") d.


(** The files whose size was asked for, in order: [os.path.getsize] is the
    first thing that [process_file_streaming] does with its input. *)
Definition size_queries (tr : list event) : list path :=
  omap (fun e => match e with EvGetSize p => Some p | _ => None end) tr.

End AnnotMore.

(** ** Further vocabulary for the harvester *)

Module HarvestMore.
Import Py Eff FS Json Scopus HarvestSpec.

(** How often [c] occurs in [s]. *)
Fixpoint count_char (c : ascii) (s : string) : nat :=
  match s with
  | EmptyString => O
  | String a s' => if Ascii.eqb a c then S (count_char c s') else count_char c s'
  end.

Section Vocabulary.
Context `{JL : JsonLib} `{OUT : Outside}.

(** [n] calls of [cycle_api_key()] in a row. *)
Fixpoint cycle_times (n : nat) : M halt world unit :=
  match n with
  | O => mret tt
  | S n' => cycle_api_key;; cycle_times n'
  end.

(** The world after [k] looks at the terminal that found no resume
    request, each followed by a sleep of one second. *)
Fixpoint waited (k : nat) (w : world) : world :=
  match k with
  | O => w
  | S k' => waited k' (slept 1 (polled w))
  end.

(** The key pool after a reload of [.env] that finds [new_keys_str]. *)
Definition reloaded_keys (new_keys_str : option string) (w : world) : world :=
  match new_keys_str with
  | Some s =>
      if String.eqb s "" then w
      else set_keys (map (fun key => Some (strip key)) (split "," s)) w
  | None => w
  end.

(** A Python outcome as an outcome of the script. *)
Definition outcome {A} (r : result A) : halt + A :=
  match r with inl e => inl (Raised e) | inr a => inr a end.

(** Between [f] and [f'] nothing changed but checkpoints of [month] in
    [year_dir] as the main harvester writes them: a list of records under
    the name of its length, a multiple of the backup interval. *)
Definition checkpoints_only (year_dir : list string) (month : string)
  (f f' : gmap (list string) (node file_text)) : Prop :=
  forall p, f' !! p = f !! p \/
    exists l, p = (year_dir ++ [backup_name month (Z.of_nat (length l))])%list /\
              f' !! p = Some (File (json_dump (VList l) 4 true)) /\
              Z.of_nat (length l) mod BACKUP_INTERVAL = 0.

(** The same for the patch harvester, which names a file by [len] of what
    it holds. *)
Definition patch_checkpoints_only (year_dir : list string) (month : string)
  (f f' : gmap (list string) (node file_text)) : Prop :=
  forall p, f' !! p = f !! p \/
    exists data n, ScopusPatch.py_len data = inr n /\
                   p = (year_dir ++ [backup_name month n])%list /\
                   f' !! p = Some (File (json_dump data 4 true)).

(** From [w] to [w'] requests were only added: the counter did not go
    down and the trace was only extended. *)
Definition grows (w w' : world) : Prop :=
  (requests_made w <= requests_made w')%nat /\ trace w `prefix_of` trace w'.

End Vocabulary.

End HarvestMore.

(** ** The calendar step of the collection loop *)

Module Dates.
Import Py.

(** A [datetime] at midnight: year, month, day. *)
Definition date : Type := Z * Z * Z.

(** [datetime.MINYEAR] and [datetime.MAXYEAR] *)
Definition MINYEAR : Z := 1.
Definition MAXYEAR : Z := 9999.

Definition is_leap (year : Z) : bool :=
  Z.eqb (year mod 4) 0 && (negb (Z.eqb (year mod 100) 0) || Z.eqb (year mod 400) 0).

Definition days_in_month (year month : Z) : Z :=
  if Z.eqb month 2 then (if is_leap year then 29 else 28)
  else if Z.eqb month 4 || Z.eqb month 6 || Z.eqb month 9 || Z.eqb month 11
       then 30 else 31.

(** [d + timedelta(days=1)]: there is no day after 31 December of
    [MAXYEAR], and [datetime] raises [OverflowError]. *)
Definition next_day (d : date) : result date :=
  let '(year, month, day) := d in
  if Z.ltb day (days_in_month year month) then ret (year, month, day + 1)
  else if Z.eqb month 12
       then (if Z.ltb year MAXYEAR then ret (year + 1, 1, 1)
             else raise OverflowError)
       else ret (year, month + 1, 1).

(** [d + timedelta(days=n)], a day at a time: the sum is out of range
    exactly when one of the steps is. *)
Fixpoint add_days (n : nat) (d : date) : result date :=
  match n with
  | O => ret d
  | S n' => rbind (next_day d) (add_days n')
  end.

(** [d.replace(day=day)], for a day that the month has. *)
Definition replace_day (d : date) (day : Z) : date :=
  let '(year, month, _) := d in (year, month, day).

(** Lines 260-261 and 310-311:
    [next_month = current_date.replace(day=28) + timedelta(days=4)], then
    [current_date = next_month.replace(day=1)]. *)
Definition advance (current_date : date) : result date :=
  rbind (add_days 4 (replace_day current_date 28)) (fun next_month =>
  ret (replace_day next_month 1)).

(** [a <= b] on dates *)
Definition date_le (a b : date) : bool :=
  let '(ya, ma, da) := a in
  let '(yb, mb, db) := b in
  Z.ltb ya yb || (Z.eqb ya yb && (Z.ltb ma mb || (Z.eqb ma mb && Z.leb da db))).

(** [end_date = datetime(2025, 1, 31)], line 247 *)
Definition end_date : date := (2025, 1, 31).

End Dates.

(** ** Further documents, replies and operators for the examples *)

Module MoreExamples.
Import Py Eff FS Json Binoculars AnnotSpec Scopus HarvestSpec Examples.



(** 0.1 as a binary64 value, 0x1.999999999999ap-4, and a JSON library
    whose two parsers read the number [0.1] differently: the stream gives
    the decimal, as [ijson] does, the load gives the float. A file text is
    a pair of the two readings. *)
Definition tenth : spec_float := S754_finite false 7205759403792794 (-56).
Definition two_readings : JsonLib :=
  {| file_text := list pyval * pyval;
     json_load := fun t => Some (snd t);
     ijson_items := fun t => (fst t, true);
     json_dump := fun data _ _ => ([], data);
     json_dump_partial := fun _ _ _ => None |}.
Definition decimal_id_record : list (string * pyval) :=
  [ ("Scopus_ID", VDec 1 (-1)); ("Abstract", VStr "some text") ].
Definition float_id_record : list (string * pyval) :=
  [ ("Scopus_ID", VFloat tenth); ("Abstract", VStr "some text") ].
Definition two_readings_world : @Binoculars.world two_readings counting_scorer :=
  @Binoculars.Build_world two_readings counting_scorer
    (list_to_map
       ((april_in,
         File (([VDict decimal_id_record], VList [VDict float_id_record])
               : @file_text two_readings))
        :: dirs_of april_in))
    0%nat [].

(** Two inputs of the main annotator, the first with a string where a
    record should be; and the same for the patch annotator. *)
Definition february_in : list string :=
  ["data"; "comp"; "pre"; "2021"; "FEBRUARY_comp_2021.json"].
Definition two_inputs_world : @Binoculars.world plain_json counting_scorer :=
  @Binoculars.Build_world plain_json counting_scorer
    (list_to_map
       ((april_in, File (VList [VStr "oops"] : @file_text plain_json))
        :: (february_in, File (three_records : @file_text plain_json))
        :: dirs_of april_in))
    0%nat [].
Definition two_patch_inputs_world : @Binoculars.world plain_json counting_scorer :=
  @Binoculars.Build_world plain_json counting_scorer
    (list_to_map
       [ (["MAY_comp_2023.json"], File (VList [VStr "oops"] : @file_text plain_json));
         (["JULY_comp_2023.json"], File (three_records : @file_text plain_json)) ])
    0%nat [].

(** A record on whose text [counting_scorer] raises. *)
Definition unreadable_record : list (string * pyval) :=
  [ ("Scopus_ID", VStr "4"); ("Abstract", VStr "unreadable") ].

(** A stream with a string where a record should be. *)
Definition broken_world : @Binoculars.world plain_json counting_scorer :=
  annotator_world april_in (VList [VDict fresh_record; VStr "oops"]).

(** A record whose identifier is a list, and one whose identifier is null. *)
Definition listed_id_record : list (string * pyval) :=
  [ ("Scopus_ID", VList [VStr "a"]); ("Abstract", VStr "some text") ].
Definition null_id_record : list (string * pyval) :=
  [ ("Scopus_ID", VNone); ("Abstract", VStr "some text") ].

Definition listed_world : @Binoculars.world plain_json counting_scorer :=
  annotator_world april_in (VList [VDict listed_id_record]).
Definition null_world : @Binoculars.world plain_json counting_scorer :=
  annotator_world april_in (VList [VDict null_id_record; VDict nameless]).

(** The annotation that [counting_scorer] gives a text it scores 1.0, under
    the identifier [id]. *)
Definition scored_one (id : pyval) : processed_item :=
  {| Scopus_ID := id; Binoculars_Score := one;
     Accuracy_Prediction := 0; FPR_Prediction := 0 |}.

(** The operator types [p] at every look, and [SCOPUS_API_KEYS] is one key
    after the reload. *)
Definition operator_reloads : Outside :=
  {| respond := fun _ _ => empty_page;
     stdin_poll := fun _ => Some "p";
     dotenv_keys := fun _ => Some "k9" |}.

(** Nothing at the first look, another line at the second, then [P]
    between blanks; [SCOPUS_API_KEYS] is two keys after the reload. *)
Definition operator_waits : Outside :=
  {| respond := fun _ _ => empty_page;
     stdin_poll := fun n => match n with
                            | O => None
                            | S O => Some "q"
                            | _ => Some " P "
                            end;
     dotenv_keys := fun _ => Some "k7, k8" |}.

(** Three keys, the pointer on the last. *)
Definition third_key_world : @Scopus.world plain_json :=
  @Scopus.Build_world plain_json [Some "k1"; Some "k2"; Some "k3"] 2%nat ∅
    0%nat 0%nat 0%nat [].

(** One rate-limited reply, then the metadata. *)
Definition limited_once : Outside := scripted [too_many_requests] metadata_reply.

(** A search reply with one citing article. *)
Definition citing_reply : Scopus.response :=
  {| Scopus.status_code := 200;
     Scopus.json_body :=
       Some (VDict [("search-results",
                     VDict [("entry",
                             VList [VDict [("dc:identifier", VStr "SCOPUS_ID:7");
                                           ("affiliation",
                                            VList [VDict [("affiliation-country",
                                                           VStr "France")]])]])])]) |}.
Definition cited : Outside := scripted [] citing_reply.

(** A page with one entry, the metadata twice (for the metadata and for the
    abstract), then empty pages. *)
Definition one_entry_page : Scopus.response :=
  {| Scopus.status_code := 200;
     Scopus.json_body :=
       Some (VDict [("search-results", VDict [("entry", VList [entry_42])])]) |}.
Definition one_more_record : Outside :=
  scripted [one_entry_page; metadata_reply; metadata_reply] empty_page.

(** An error page whose body is not JSON. *)
Definition server_error : Outside :=
  scripted [] {| Scopus.status_code := 500; Scopus.json_body := None |}.

(** The 2023 directory with a checkpoint of May whose count is spelt with a
    leading zero. *)
Definition stray_checkpoint : gmap (list string) (node (@file_text plain_json)) :=
  list_to_map
    ( ((year_2023 ++ ["MAY_0500_comp_23_25.json"])%list,
       File (VList [] : @file_text plain_json))
      :: dirs_of (year_2023 ++ ["x"])%list ).
Definition stray_world : @Scopus.world plain_json :=
  harvester_world [Some "k1"] stray_checkpoint.

(** 499 records collected so far, and the record that the main harvester
    makes of [entry_42] when the service answers [metadata_reply]. *)
Definition collected_499 : list pyval := replicate 499 (VDict []).
Definition record_42 : pyval :=
  VDict [ ("Scopus_ID", VStr "42"); ("Title", VStr "A title");
          ("Abstract", VStr "N/A"); ("Authors", VList []);
          ("Affiliation_Name", VStr "N/A"); ("Affiliation_Country", VStr "N/A");
          ("Publication_Date", VStr "N/A"); ("DOI", VStr "N/A");
          ("Keywords", VStr "N/A"); ("Cited_By_Count", VInt 0);
          ("Source", VStr "N/A"); ("Citations", VList []) ].

(** The 2023 directory with a checkpoint of May that holds two records,
    and the record that the patch harvester makes of [entry_42]. *)
Definition two_collected : list pyval :=
  [ VDict [("Scopus_ID", VStr "1")]; VDict [("Scopus_ID", VStr "2")] ].
Definition may_two : gmap (list string) (node (@file_text plain_json)) :=
  list_to_map
    ( ((year_2023 ++ ["MAY_2_comp_23_25.json"])%list,
       File (VList two_collected : @file_text plain_json))
      :: dirs_of (year_2023 ++ ["x"])%list ).
Definition two_world : @Scopus.world plain_json :=
  harvester_world [Some "k1"] may_two.
Definition metadata_42 : pyval :=
  VDict [ ("Scopus_ID", VStr "42"); ("Title", VStr "A title");
          ("Abstract", VStr "N/A"); ("Authors", VList []);
          ("Affiliation_Name", VStr "N/A"); ("Affiliation_Country", VStr "N/A");
          ("Publication_Date", VStr "N/A"); ("DOI", VStr "N/A");
          ("Keywords", VStr "N/A"); ("Cited_By_Count", VInt 0);
          ("Source", VStr "N/A") ].

End MoreExamples.

(** * Proofs *)

Import Py Eff FS Json.
Import Binoculars AnnotSpec KeyClass.

(** ** The first pass of the annotator *)

(** Open the monad of [Eff]. *)
Ltac unfold_eff :=
  unfold mbind, mret, M_bind, M_ret, throw, get_world, modify, lift,
    try_except in *.

(** An item that is not a dict: the test that tells which exception it
    raises is taken apart. *)
Ltac raising_item :=
  cbn [score_article];
  repeat match goal with |- context [if ?c then _ else _] => destruct c end.

Section AnnotatorFacts.
Context `{JL : JsonLib} `{SC : Scorer}.

Lemma score_article_skip (d : list (string * pyval)) processed (w : world) :
  passes_checks d = false ->
  score_article (VDict d) processed w = (inr processed, w).
Proof.
  unfold passes_checks, abstract_of, score_article. intros H.
  destruct (dict_has "Binoculars_Score" d
            && negb (is_none (dict_get "Binoculars_Score" VNone d))); [reflexivity|].
  simpl in H. apply negb_false_iff in H. rewrite H. reflexivity.
Qed.

Lemma score_article_call (d : list (string * pyval)) processed (w : world) :
  passes_checks d = true ->
  let r := compute_score (bino w) (abstract_of d) in
  score_article (VDict d) processed w =
  (inr (match fst r with
        | Some score =>
            (processed ++ [ {| Scopus_ID := dict_get "Scopus_ID" (VStr "") d;
                              Binoculars_Score := score;
                              Accuracy_Prediction := accuracy_prediction score;
                              FPR_Prediction := fpr_prediction score |} ])%list
        | None => processed
        end),
   {| fs := fs w; bino := snd r;
      trace := (trace w ++ [EvScore (abstract_of d)])%list |}).
Proof.
  unfold passes_checks, abstract_of, score_article. intros H.
  apply andb_true_iff in H as [H1 H2].
  apply negb_true_iff in H1, H2. rewrite H1, H2.
  unfold call_scorer, log, set_bino. unfold_eff. simpl.
  destruct (compute_score (bino w) (dict_get "Abstract" (VStr "") d)) as [[score|] b];
    reflexivity.
Qed.

Lemma already_scored_fails (d : list (string * pyval)) :
  already_scored d -> passes_checks d = false.
Proof.
  intros (v & Hv & Hn). unfold passes_checks, dict_has, assoc_mem, dict_get.
  unfold dict_find in *. rewrite Hv. destruct v; try reflexivity. congruence.
Qed.

Lemma text_unavailable_fails (d : list (string * pyval)) :
  text_unavailable d -> passes_checks d = false.
Proof.
  unfold passes_checks, abstract_of, dict_get.
  intros [H|[H|H]]; rewrite H; simpl; apply andb_false_r.
Qed.

Lemma scorer_inputs_app (a b : list event) :
  scorer_inputs (a ++ b) = (scorer_inputs a ++ scorer_inputs b)%list.
Proof. unfold scorer_inputs. apply omap_app. Qed.

Lemma first_pass_loop_inputs (items : list pyval) processed (w : world) :
  scorer_inputs (trace (snd (for_each score_article items processed w))) =
  (scorer_inputs (trace w) ++
   map abstract_of (filter (fun d => passes_checks d = true) (leading_records items)))%list.
Proof.
  revert processed w. induction items as [|a items IH]; intros processed w; simpl.
  - unfold_eff. simpl. by rewrite app_nil_r.
  - destruct a;
      try (raising_item; unfold_eff; simpl;
           by rewrite app_nil_r).
    unfold mbind, M_bind.
    destruct (passes_checks d) eqn:E.
    + rewrite (score_article_call d processed w E). cbv zeta.
      rewrite IH. simpl. rewrite scorer_inputs_app. simpl.
      rewrite filter_cons_True by done. simpl. by rewrite <- app_assoc.
    + rewrite (score_article_skip d processed w E).
      rewrite IH. rewrite filter_cons_False; [done|]. congruence.
Qed.

End AnnotatorFacts.

(** ** Dictionary keys and association lists *)

Lemma key_eqb_class (a b : pyval) :
  key_eqb a b = class_eqb (class_of a) (class_of b).
Proof.
  destruct a as [| | |[| | |]| | | |], b as [| | |[| | |]| | | |]; try reflexivity;
  unfold key_eqb, class_of; simpl;
  repeat match goal with |- context [if ?c then _ else _] => destruct c end;
  reflexivity.
Qed.

Lemma class_of_den_pos (v : pyval) n d : class_of v = KNum n d -> 0 < d.
Proof.
  destruct v as [| | |[| | |]| | | |]; simpl; try discriminate;
  unfold class_of; simpl;
  repeat match goal with |- context [if ?c then _ else _] => destruct c eqn:? end;
  intros [= <- <-]; try lia; apply Z.pow_pos_nonneg; lia.
Qed.

Lemma key_eqb_sym (a b : pyval) : key_eqb a b = key_eqb b a.
Proof.
  rewrite !key_eqb_class.
  destruct (class_of a), (class_of b); simpl; try reflexivity.
  - apply String.eqb_sym.
  - destruct s, s0; reflexivity.
  - apply Z.eqb_sym.
Qed.

Lemma key_eqb_trans (a b c : pyval) :
  key_eqb a b = true -> key_eqb b c = true -> key_eqb a c = true.
Proof.
  rewrite !key_eqb_class.
  pose proof (class_of_den_pos a) as Ha.
  pose proof (class_of_den_pos b) as Hb.
  pose proof (class_of_den_pos c) as Hc.
  destruct (class_of a), (class_of b), (class_of c); simpl; try discriminate; try reflexivity.
  - intros H1 H2. apply String.eqb_eq in H1, H2. apply String.eqb_eq. congruence.
  - destruct s, s0, s1; simpl; congruence.
  - intros H1 H2. apply Z.eqb_eq in H1, H2. apply Z.eqb_eq.
    specialize (Ha _ _ eq_refl). specialize (Hb _ _ eq_refl). specialize (Hc _ _ eq_refl).
    apply (Z.mul_cancel_r _ _ d0); [lia|]. 
    transitivity (n * d0 * d1); [ring|]. rewrite H1.
    transitivity (n0 * d1 * d); [ring|]. rewrite H2. ring.
Qed.

Lemma key_eqb_cong (a b c : pyval) :
  key_eqb a b = true -> key_eqb c b = key_eqb c a.
Proof.
  intros H. destruct (key_eqb c a) eqn:E.
  - eapply key_eqb_trans; eauto.
  - destruct (key_eqb c b) eqn:E'; [|reflexivity].
    rewrite <- E. symmetry. eapply key_eqb_trans; [exact E'|]. by rewrite key_eqb_sym.
Qed.

Lemma key_eqb_empty_str (v : pyval) : key_eqb v (VStr "") = true <-> v = VStr "".
Proof.
  split; [|intros ->; reflexivity].
  destruct v as [| | |[| | |]| | | |]; simpl; try discriminate;
    unfold key_eqb; simpl;
    repeat match goal with |- context [if ?c then _ else _] => destruct c end;
    try discriminate.
  intros H. apply String.eqb_eq in H. congruence.
Qed.

Lemma key_eqb_none (v : pyval) : key_eqb v VNone = true <-> v = VNone.
Proof.
  split; [|intros ->; reflexivity].
  destruct v as [| | |[| | |]| | | |]; simpl; try discriminate; try reflexivity;
    unfold key_eqb; simpl;
    repeat match goal with |- context [if ?c then _ else _] => destruct c end;
    try discriminate.
Qed.

Section AssocFacts.
Context {K V : Type} (eqb : K -> K -> bool).
Hypothesis eqb_sym : forall a b, eqb a b = eqb b a.
Hypothesis eqb_trans : forall a b c, eqb a b = true -> eqb b c = true -> eqb a c = true.

Lemma assoc_get_set (k k0 : K) (v : V) (d : list (K * V)) :
  assoc_get eqb k (assoc_set eqb k0 v d) =
  if eqb k k0 then Some v else assoc_get eqb k d.
Proof.
  induction d as [|[k' v'] d IH]; simpl.
  - reflexivity.
  - destruct (eqb k0 k') eqn:E0; simpl.
    + destruct (eqb k k') eqn:E1.
      * rewrite (eqb_trans k k' k0); [reflexivity|exact E1|]. by rewrite eqb_sym.
      * destruct (eqb k k0) eqn:E2; [|reflexivity].
        rewrite (eqb_trans k k0 k') in E1; [discriminate|exact E2|exact E0].
    + rewrite IH. destruct (eqb k k') eqn:E1; [|reflexivity].
      destruct (eqb k k0) eqn:E2; [|reflexivity].
      rewrite (eqb_trans k0 k k') in E0; [discriminate| |exact E1]. by rewrite eqb_sym.
Qed.

Lemma assoc_set_keys (k0 : K) (v : V) (d : list (K * V)) :
  map fst (assoc_set eqb k0 v d) =
  if assoc_mem eqb k0 d then map fst d else (map fst d ++ [k0])%list.
Proof.
  unfold assoc_mem. induction d as [|[k' v'] d IH]; simpl; [reflexivity|].
  destruct (eqb k0 k') eqn:E0; simpl; [reflexivity|].
  rewrite IH. destruct (assoc_get eqb k0 d); reflexivity.
Qed.

End AssocFacts.

Lemma dict_find_set (k k0 : string) (v : pyval) (d : list (string * pyval)) :
  dict_find k (dict_set k0 v d) = if String.eqb k k0 then Some v else dict_find k d.
Proof.
  unfold dict_find, dict_set. apply assoc_get_set.
  - apply String.eqb_sym.
  - intros a b c H1 H2. apply String.eqb_eq in H1, H2. apply String.eqb_eq. congruence.
Qed.

Lemma scores_get_set (k k0 : pyval) {V} (v : V) (d : list (pyval * V)) :
  assoc_get key_eqb k (assoc_set key_eqb k0 v d) =
  if key_eqb k k0 then Some v else assoc_get key_eqb k d.
Proof. apply assoc_get_set; [apply key_eqb_sym|apply key_eqb_trans]. Qed.

(** ** The merge *)

Lemma build_scores_dict_lookup (processed_items : list processed_item) acc sd :
  build_scores_dict processed_items acc = inr sd ->
  forall k, assoc_get key_eqb k sd =
            match last_with_key k processed_items with
            | Some item => Some item
            | None => assoc_get key_eqb k acc
            end.
Proof.
  revert acc. induction processed_items as [|item rest IH]; intros acc; simpl.
  - intros [= <-] k. reflexivity.
  - destruct (hashable (Scopus_ID item)); [|discriminate].
    intros H k. rewrite (IH _ H k).
    destruct (last_with_key k rest); [reflexivity|].
    rewrite scores_get_set. by destruct (key_eqb k (Scopus_ID item)).
Qed.

Lemma last_with_key_In k l item :
  last_with_key k l = Some item -> In item l /\ key_eqb k (Scopus_ID item) = true.
Proof.
  induction l as [|x l IH]; simpl; [discriminate|].
  destruct (last_with_key k l).
  - intros [= <-]. destruct (IH eq_refl); auto.
  - destruct (key_eqb k (Scopus_ID x)) eqn:E; [|discriminate].
    intros [= <-]. auto.
Qed.

Lemma set_scores_find (scores : processed_item) (d : list (string * pyval)) :
  dict_find "Binoculars_Score" (set_scores scores d) = Some (VFloat (Binoculars_Score scores)) /\
  dict_find "Accuracy_Prediction" (set_scores scores d) = Some (VInt (Accuracy_Prediction scores)) /\
  dict_find "FPR_Prediction" (set_scores scores d) = Some (VInt (FPR_Prediction scores)) /\
  (forall k, score_field k = false -> dict_find k (set_scores scores d) = dict_find k d) /\
  exists added, map fst (set_scores scores d) = (map fst d ++ added)%list.
Proof.
  unfold set_scores. split_and!; rewrite ?dict_find_set; simpl; try reflexivity.
  - intros k Hk. unfold score_field in Hk.
    apply orb_false_iff in Hk as [Hk H3]. apply orb_false_iff in Hk as [H1 H2].
    rewrite !dict_find_set, H1, H2, H3. reflexivity.
  - unfold dict_set. rewrite !assoc_set_keys.
    repeat match goal with |- context [if ?c then _ else _] => destruct c end;
      rewrite <- ?app_assoc; eexists; try reflexivity.
    by rewrite app_nil_r.
Qed.

Lemma update_article_inv sd article article' :
  update_article sd article = inr article' ->
  exists d, article = VDict d /\
  match assoc_get key_eqb (dict_get "Scopus_ID" VNone d) sd with
  | Some scores => article' = VDict (set_scores scores d)
                   /\ dict_find "Scopus_ID" d <> None
  | None => article' = article
  end.
Proof.
  destruct article; simpl; try discriminate.
  intros H. exists d. split; [reflexivity|].
  destruct (hashable (dict_get "Scopus_ID" VNone d)); [|discriminate].
  unfold assoc_mem, dict_get, ret, raise in *.
  destruct (dict_find "Scopus_ID" d) as [key|] eqn:Ek.
  - destruct (assoc_get key_eqb key sd) eqn:Eg; [|congruence].
    injection H as <-. split; congruence.
  - destruct (assoc_get key_eqb VNone sd) eqn:Eg; [discriminate|congruence].
Qed.

Lemma update_article_merged sd article article' :
  update_article sd article = inr article' -> merged_record sd article article'.
Proof.
  intros H. apply update_article_inv in H as (d & -> & H). exists d. split; [reflexivity|].
  destruct (assoc_get key_eqb (dict_get "Scopus_ID" VNone d) sd) as [scores|]; [|exact H].
  destruct H as [-> _]. exists (set_scores scores d). split; [reflexivity|].
  apply set_scores_find.
Qed.

Lemma update_articles_inv sd articles articles' :
  update_articles sd articles = inr articles' ->
  Forall2 (fun a a' => update_article sd a = inr a') articles articles'.
Proof.
  revert articles'. induction articles as [|a l IH]; simpl; intros articles'.
  - intros [= <-]. constructor.
  - unfold rbind. destruct (update_article sd a) as [|a'] eqn:Ea; [discriminate|].
    destruct (update_articles sd l) as [|l'] eqn:El; [discriminate|].
    intros [= <-]. constructor; auto.
Qed.

Lemma merge_scores_inv sd data data' :
  merge_scores sd data = inr data' ->
  match data with
  | VList articles =>
      exists articles', data' = VList articles' /\
        Forall2 (fun a a' => update_article sd a = inr a') articles articles'
  | _ => data' = data
  end.
Proof.
  destruct data; simpl; try discriminate; unfold rbind.
  - destruct (update_articles sd _); [discriminate|]. by intros [= <-].
  - destruct (update_articles sd l) as [|l'] eqn:El; [discriminate|].
    intros [= <-]. exists l'. split; [reflexivity|]. by apply update_articles_inv.
  - destruct (update_articles sd _); [discriminate|]. by intros [= <-].
Qed.

Section Process.
Context `{JL : JsonLib} `{SC : Scorer}.

Lemma for_each_fs (items : list pyval) processed (w : world) :
  fs (snd (for_each score_article items processed w)) = fs w.
Proof.
  revert processed w. induction items as [|a items IH]; intros processed w; simpl.
  - reflexivity.
  - unfold mbind, M_bind. destruct a; try (raising_item; reflexivity).
    destruct (passes_checks d) eqn:E.
    + rewrite (score_article_call d processed w E). cbv zeta. by rewrite IH.
    + rewrite (score_article_skip d processed w E). by rewrite IH.
Qed.

Lemma for_each_trace (items : list pyval) processed (w : world) :
  exists new, trace (snd (for_each score_article items processed w)) = (trace w ++ new)%list
              /\ forallb streaming_event new = true.
Proof.
  revert processed w. induction items as [|a items IH]; intros processed w; simpl.
  - exists []. by rewrite app_nil_r.
  - unfold mbind, M_bind.
    destruct a;
      try (raising_item; exists []; by rewrite app_nil_r).
    destruct (passes_checks d) eqn:E.
    + rewrite (score_article_call d processed w E). cbv zeta.
      match goal with |- context [for_each _ _ ?p ?w'] =>
        destruct (IH p w') as (new & Hn & Hs) end.
      rewrite Hn. simpl. eexists (_ :: new). split; [by rewrite <- app_assoc|]. simpl. exact Hs.
    + rewrite (score_article_skip d processed w E). apply IH.
Qed.

Lemma first_pass_frame (input_file : path) (w : world) :
  fs (snd (first_pass input_file w)) = fs w /\
  exists new, trace (snd (first_pass input_file w)) = (trace w ++ EvOpenStream input_file :: new)%list
              /\ forallb streaming_event new = true.
Proof.
  unfold first_pass, open_stream, log. unfold_eff. simpl.
  destruct (read_file (fs w) input_file) as [e|t]; simpl.
  - split; [reflexivity|]. exists []. done.
  - destruct (ijson_items t) as [items complete].
    match goal with |- context [for_each _ _ ?p ?w'] =>
      pose proof (for_each_fs items p w') as Hf;
      destruct (for_each_trace items p w') as (new & Hn & Hs);
      destruct (for_each score_article items p w') as [[e|processed] w2] end;
    simpl in *.
    + split; [exact Hf|]. exists new. split; [|exact Hs]. rewrite Hn. by rewrite <- app_assoc.
    + destruct complete; simpl; (split; [exact Hf|]); exists new; (split; [|exact Hs]);
        rewrite Hn; by rewrite <- app_assoc.
Qed.

End Process.

(** ** The file system, and what a successful run did *)

Section FSFacts.
Context {T : Type}.
Implicit Types fs : gmap path (node T).

Lemma makedirs_from_keeps (done rest : path) fs r fs' :
  makedirs_from done rest fs = (r, fs') ->
  forall p, is_Some (fs !! p) -> fs' !! p = fs !! p.
Proof.
  revert done fs. induction rest as [|c rest IH]; intros done fs; simpl.
  - intros [= _ <-]. reflexivity.
  - destruct (fs !! (done ++ [c])%list) as [[|t]|] eqn:E.
    + apply IH.
    + intros [= _ <-]. reflexivity.
    + intros H p Hp. rewrite (IH _ _ H).
      * apply lookup_insert_ne. intros Heq. destruct Hp as [x Hx]. congruence.
      * rewrite lookup_insert_ne; [done|]. intros Heq. destruct Hp as [x Hx]. congruence.
Qed.

Lemma makedirs_from_dirs (done rest : path) fs fs' :
  makedirs_from done rest fs = (inr tt, fs') ->
  forall n, (0 < n <= length rest)%nat -> fs' !! (done ++ take n rest)%list = Some Dir.
Proof.
  revert done fs. induction rest as [|c rest IH]; intros done fs; simpl.
  - intros _ n Hn. lia.
  - intros H n Hn.
    assert (Hq : forall fs0, makedirs_from (done ++ [c]) rest fs0 = (inr tt, fs') ->
                 fs0 !! (done ++ [c])%list = Some Dir ->
                 fs' !! (done ++ take n (c :: rest))%list = Some Dir).
    { intros fs0 H0 Hd. destruct n as [|n]; [lia|]. simpl.
      destruct n as [|n].
      - rewrite take_0. rewrite (makedirs_from_keeps _ _ _ _ _ H0); [exact Hd|]. by rewrite Hd.
      - replace (done ++ c :: take (S n) rest)%list with ((done ++ [c]) ++ take (S n) rest)%list
          by (by rewrite <- app_assoc).
        apply (IH _ _ H0). simpl in Hn. lia. }
    destruct (fs !! (done ++ [c])%list) as [[|t]|] eqn:E.
    + by apply (Hq fs).
    + discriminate.
    + apply (Hq _ H). apply lookup_insert_eq.
Qed.

Lemma makedirs_stat (p : path) fs fs' :
  makedirs p fs = (inr tt, fs') -> stat fs' p = Some Dir.
Proof.
  unfold makedirs. intros H.
  pose proof (makedirs_from_dirs [] p fs fs' H) as Hd. simpl in Hd.
  assert (Hr : forall q, (length q <= length p)%nat -> q = take (length q) p ->
                         is_dir_at fs' q = true).
  { intros q Hl Hq. unfold is_dir_at. destruct q as [|a q]; [reflexivity|].
    rewrite Hq. rewrite Hd; [reflexivity|]. simpl in *. lia. }
  unfold stat, reachable.
  assert (Ha : forallb (is_dir_at fs') (ancestors p) = true).
  { apply forallb_forall. intros q Hq. unfold ancestors in Hq.
    apply in_map_iff in Hq as (n & <- & Hn). apply in_seq in Hn.
    apply Hr.
    - rewrite length_take. lia.
    - rewrite length_take. rewrite Nat.min_l by lia. reflexivity. }
  rewrite Ha. destruct p as [|a p]; [reflexivity|].
  specialize (Hd (length (a :: p))). rewrite firstn_all in Hd.
  apply Hd. simpl. lia.
Qed.

Lemma write_file_inv fs (p : path) (t : T) fs' :
  write_file fs p t = inr fs' ->
  fs' = <[p := File t]> fs /\ reachable fs p = true /\ p <> [].
Proof.
  unfold write_file. destruct (reachable fs p); [|discriminate].
  destruct p; [discriminate|].
  destruct (fs !! (s :: p)) as [[|]|]; try discriminate; intros [= <-]; done.
Qed.

Lemma read_file_exists fs (p : path) (t : T) :
  read_file fs p = inr t -> exists_ fs p = true /\ p <> [] /\ fs !! p = Some (File t).
Proof.
  unfold read_file, exists_, stat.
  destruct (reachable fs p); [|discriminate].
  destruct p; [discriminate|].
  destruct (fs !! (s :: p)) as [[|t']|]; try discriminate.
  intros [= <-]. done.
Qed.

End FSFacts.

Section Process.
Context `{JL : JsonLib} `{SC : Scorer}.

Lemma getsize_inv (p : path) (w w0 : world) r :
  getsize p w = (r, w0) ->
  w0 = logged [EvGetSize p] w /\
  r = if exists_ (fs w) p then inr tt else inl OSError.
Proof.
  unfold getsize, log. unfold_eff. simpl.
  destruct (exists_ (fs w) p); intros [= <- <-]; done.
Qed.

Lemma for_each_all_skipped (items : list pyval) processed (w : world) :
  Forall (fun a => exists d, a = VDict d /\ passes_checks d = false) items ->
  for_each score_article items processed w = (inr processed, w).
Proof.
  induction 1 as [|a items (d & -> & Hd) _ IH]; [reflexivity|].
  cbn [for_each]. unfold mbind, M_bind. rewrite (score_article_skip d processed w Hd). exact IH.
Qed.

Lemma reload_and_merge_inv (input_file : path) processed (w1 w2 : world) data :
  reload_and_merge input_file processed w1 = (inr data, w2) ->
  exists t loaded scores_dict,
    read_file (fs w1) input_file = inr t /\ json_load t = Some loaded /\
    build_scores_dict processed [] = inr scores_dict /\
    merge_scores scores_dict loaded = inr data /\
    w2 = logged [EvJsonLoad input_file] w1.
Proof.
  unfold reload_and_merge, json_load_file, log. unfold_eff. simpl.
  destruct (read_file (fs w1) input_file) as [|t] eqn:Er; [discriminate|].
  simpl. destruct (json_load t) as [loaded|] eqn:El; [|discriminate].
  destruct (build_scores_dict processed []) as [|sd] eqn:Eb; [discriminate|].
  destruct (merge_scores sd loaded) as [|data'] eqn:Em; [discriminate|].
  intros [= <- <-]. exists t, loaded, sd. done.
Qed.

Lemma first_pass_inv (input_file : path) (w0 w1 : world) processed :
  first_pass input_file w0 = (inr processed, w1) ->
  exists t items,
    read_file (fs w0) input_file = inr t /\ ijson_items t = (items, true) /\
    for_each score_article items [] (logged [EvOpenStream input_file] w0)
      = (inr processed, w1).
Proof.
  unfold first_pass, open_stream, log. unfold_eff. simpl.
  destruct (read_file (fs w0) input_file) as [|t] eqn:Er; [discriminate|].
  simpl. destruct (ijson_items t) as [items complete] eqn:Ei. fold (logged [EvOpenStream input_file] w0).
  destruct (for_each score_article items [] _) as [[|p] w'] eqn:E; [discriminate|].
  destruct complete; [|discriminate]. intros [= <- <-]. exists t, items. done.
Qed.

Lemma process_file_streaming_inv (input_file output_file : path) (w w' : world) :
  process_file_streaming input_file output_file w = (inr true, w') ->
  exists t loaded processed_items scores_dict data w2 fs1,
    merged_run input_file w t loaded processed_items scores_dict data w2 /\
    makedirs (parent output_file) (fs w) = (inr tt, fs1) /\
    write_file fs1 output_file (json_dump data 4 false) = inr (fs w') /\
    bino w' = bino w2 /\
    trace w' = (trace w2 ++ [EvMkdir (parent output_file);
                             EvJsonDump output_file data 4 false])%list.
Proof.
  unfold process_file_streaming, try_except.
  unfold mbind at 1. unfold M_bind at 1.
  destruct (getsize input_file w) as [[|[]] w0] eqn:Eg; [intros [=]|].
  apply getsize_inv in Eg as [-> Hex].
  unfold mbind at 1. unfold M_bind at 1.
  destruct (first_pass input_file _) as [[|processed] w1] eqn:Ef; [intros [=]|].
  pose proof (first_pass_frame input_file (logged [EvGetSize input_file] w)) as [Hfs1 _].
  rewrite Ef in Hfs1. simpl in Hfs1.
  apply first_pass_inv in Ef as (t & items & Hr & Hi & Hfe).
  destruct processed as [|item processed]; [intros [=]|].
  unfold mbind at 1. unfold M_bind at 1.
  destruct (reload_and_merge input_file _ w1) as [[|data] w2] eqn:Er; [intros [=]|].
  apply reload_and_merge_inv in Er as (t' & loaded & sd & Hr' & Hl & Hb & Hm & ->).
  rewrite Hfs1 in Hr'. simpl in Hr. rewrite Hr in Hr'. injection Hr' as <-.
  unfold mkdir_parents, json_dump_file, on_fs, log. unfold_eff. simpl.
  rewrite Hfs1.
  destruct (makedirs (parent output_file) (fs w)) as [[|[]] fs1] eqn:Em; [intros [=]|].
  simpl.
  destruct (json_dump_partial data 4 false) as [written|];
    [destruct (write_file fs1 output_file written); intros [=]|].
  destruct (write_file fs1 output_file _) as [|fs2] eqn:Ew; simpl; [intros [=]|].
  intros [= <-]. simpl.
  exists t, loaded, (item :: processed), sd, data,
    (logged [EvJsonLoad input_file] w1), fs1.
  split; [|by rewrite <- app_assoc].
  exists items, w1. simpl.
  replace (logged [EvGetSize input_file; EvOpenStream input_file] w)
    with (logged [EvOpenStream input_file] (logged [EvGetSize input_file] w))
    by (unfold logged; simpl; by rewrite <- app_assoc).
  done.
Qed.

End Process.

(** ** Thresholds, the skip rule and the run without new scores *)

Lemma SFcompare_antisym (x y : spec_float) :
  SFcompare y x = option_map CompOpp (SFcompare x y).
Proof.
  destruct x as [sx|sx| |sx mx ex], y as [sy|sy| |sy my ey]; simpl;
    try reflexivity; try (destruct sx; reflexivity); try (destruct sy; reflexivity);
    try (destruct sx, sy; reflexivity).
  destruct sx, sy; simpl; try reflexivity;
  rewrite (Z.compare_antisym ex ey); destruct (ex ?= ey)%Z; simpl; try reflexivity;
  rewrite (ZC4 my mx); destruct (Pos.compare_cont Eq mx my); reflexivity.
Qed.

Lemma float_below_not_ge (s t : spec_float) : SFltb s t = true -> float_ge s t = false.
Proof.
  unfold SFltb, float_ge, SFleb. rewrite (SFcompare_antisym s t).
  destruct (SFcompare s t) as [[]|]; simpl; congruence.
Qed.

Section Theorems.
Context `{JL : JsonLib} `{SC : Scorer}.

Lemma score_article_thresholded (a : pyval) processed (w : world) processed' w' :
  score_article a processed w = (inr processed', w') ->
  Forall thresholded processed -> Forall thresholded processed'.
Proof.
  destruct a; try (raising_item; discriminate).
  destruct (passes_checks d) eqn:E.
  - rewrite (score_article_call d processed w E). cbv zeta.
    destruct (compute_score (bino w) (abstract_of d)) as [[score|] b]; simpl;
      intros [= <- <-] H; [|exact H].
    apply Forall_app. split; [exact H|]. repeat constructor.
  - rewrite (score_article_skip d processed w E). by intros [= <- <-].
Qed.

Lemma for_each_thresholded (items : list pyval) processed (w : world) processed' w' :
  for_each score_article items processed w = (inr processed', w') ->
  Forall thresholded processed -> Forall thresholded processed'.
Proof.
  revert processed w. induction items as [|a items IH]; intros processed w.
  - by intros [= <- <-].
  - cbn [for_each]. unfold mbind, M_bind.
    destruct (score_article a processed w) as [[|p1] w1] eqn:E; [discriminate|].
    intros H Hp. eapply IH; [exact H|]. eapply score_article_thresholded; eauto.
Qed.

(** Claim C3 (threshold classification). Each prediction is a function
    of the score alone: a score below a threshold gives class 1, a score at
    or above it gives class 0, so two scores on the two sides of a
    threshold get different predictions and the prediction is constant on
    each side; this holds for the accuracy threshold and for the low-FPR
    threshold, and every item that the first pass stores carries the two
    predictions that these functions give for its score. *)
Theorem threshold_classification (s1 s2 : spec_float) (input_file : path)
  (w w' : world) (processed_items : list processed_item) :
  first_pass input_file w = (inr processed_items, w') ->
  (SFltb s1 BINOCULARS_ACCURACY_THRESHOLD = true ->
   float_ge s2 BINOCULARS_ACCURACY_THRESHOLD = true ->
   accuracy_prediction s1 = 1 /\ accuracy_prediction s2 = 0 /\
   accuracy_prediction s1 <> accuracy_prediction s2) /\
  (SFltb s1 BINOCULARS_FPR_THRESHOLD = true ->
   float_ge s2 BINOCULARS_FPR_THRESHOLD = true ->
   fpr_prediction s1 = 1 /\ fpr_prediction s2 = 0 /\
   fpr_prediction s1 <> fpr_prediction s2) /\
  Forall thresholded processed_items.
Proof.
  intros Hf. repeat split.
  - unfold accuracy_prediction. by rewrite (float_below_not_ge _ _ H).
  - unfold accuracy_prediction. by rewrite H0.
  - unfold accuracy_prediction. rewrite (float_below_not_ge _ _ H), H0. discriminate.
  - unfold fpr_prediction. by rewrite (float_below_not_ge _ _ H).
  - unfold fpr_prediction. by rewrite H0.
  - unfold fpr_prediction. rewrite (float_below_not_ge _ _ H), H0. discriminate.
  - apply first_pass_inv in Hf as (t & items & _ & _ & Hfe).
    eapply for_each_thresholded; [exact Hfe|constructor].
Qed.

Lemma passes_checks_iff (d : list (string * pyval)) :
  passes_checks d = true <->
  ~ already_scored d /\ truthy (abstract_of d) = true /\ abstract_of d <> VStr "N/A".
Proof.
  unfold passes_checks, already_scored, dict_has, assoc_mem, dict_get.
  unfold dict_find. split.
  - intros H. apply andb_true_iff in H as [H1 H2].
    apply negb_true_iff in H1, H2. apply orb_false_iff in H2 as [H2 H3].
    apply negb_false_iff in H2. repeat split.
    + intros (v & Hv & Hn). rewrite Hv in H1. destruct v; simpl in H1; congruence.
    + exact H2.
    + intros Heq. rewrite Heq in H3. discriminate.
  - intros (H1 & H2 & H3). apply andb_true_iff. split.
    + apply negb_true_iff.
      destruct (assoc_get String.eqb "Binoculars_Score" d) as [v|] eqn:E; [|reflexivity].
      destruct v; try (exfalso; apply H1; eexists; split; [reflexivity|discriminate]).
      reflexivity.
    + rewrite H2. simpl. apply negb_true_iff.
      destruct (abstract_of d) eqn:E; try reflexivity. simpl.
      apply String.eqb_neq. congruence.
Qed.

(** Claim C2 (skip rule). A record that already carries a non-null score,
    and a record whose text is missing, empty or the sentinel "N/A", goes
    through the loop body without any effect: nothing is passed to the
    scorer and nothing is stored. A record is handed to the scorer exactly
    when it passes both checks, and over a whole stream the texts that reach
    the scorer are those of the records that pass both checks, in order. *)
Theorem annotator_skip_rule (d : list (string * pyval))
  (processed_items : list processed_item) (w : world) (items : list pyval) :
  (already_scored d \/ text_unavailable d ->
   score_article (VDict d) processed_items w = (inr processed_items, w)) /\
  (passes_checks d = false ->
   score_article (VDict d) processed_items w = (inr processed_items, w)) /\
  (passes_checks d = true ->
   trace (snd (score_article (VDict d) processed_items w))
   = (trace w ++ [EvScore (abstract_of d)])%list) /\
  (passes_checks d = true <->
   ~ already_scored d /\ truthy (abstract_of d) = true
   /\ abstract_of d <> VStr "N/A") /\
  scorer_inputs (trace (snd (for_each score_article items processed_items w))) =
  (scorer_inputs (trace w) ++
   map abstract_of (filter (fun r => passes_checks r = true)
                           (leading_records items)))%list.
Proof.
  split_and!.
  - intros [H|H]; apply score_article_skip;
      [by apply already_scored_fails|by apply text_unavailable_fails].
  - apply score_article_skip.
  - intros H. by rewrite (score_article_call d processed_items w H).
  - apply passes_checks_iff.
  - apply first_pass_loop_inputs.
Qed.

Lemma process_without_items (input_file output_file : path) (w w0 w1 : world) :
  getsize input_file w = (inr tt, w0) ->
  first_pass input_file w0 = (inr [], w1) ->
  process_file_streaming input_file output_file w = (inr false, w1).
Proof.
  intros Hg Hf. unfold process_file_streaming, try_except.
  unfold mbind at 1. unfold M_bind at 1. rewrite Hg.
  unfold mbind at 1. unfold M_bind at 1. rewrite Hf. reflexivity.
Qed.

Lemma first_pass_fully_scored (input_file : path) (w : world) t items :
  read_file (fs w) input_file = inr t ->
  ijson_items t = (items, true) ->
  Forall (fun a => exists r, a = VDict r /\ already_scored r) items ->
  first_pass input_file w = (inr [], logged [EvOpenStream input_file] w).
Proof.
  intros Hr Hi Hall. unfold first_pass, open_stream, log. unfold_eff. simpl.
  rewrite Hr. simpl. rewrite Hi. fold (logged [EvOpenStream input_file] w).
  rewrite for_each_all_skipped; [reflexivity|].
  eapply Forall_impl; [exact Hall|]. intros a (r & -> & Hs).
  exists r. split; [reflexivity|]. by apply already_scored_fails.
Qed.

(** Claim C4 (no new score, no write). When the first pass computes no
    annotation, [process_file_streaming] returns [False], the file system
    is as before and after the size query nothing happened but streaming:
    no reload, no merge, no directory creation, no write. In particular this
    is what happens when every streamed record already has a non-null
    score; then the scorer is not called either. *)
Theorem no_new_scores_no_write (input_file output_file : path)
  (w w0 w1 : world) (t : file_text) (items : list pyval) :
  (getsize input_file w = (inr tt, w0) ->
   first_pass input_file w0 = (inr [], w1) ->
   process_file_streaming input_file output_file w = (inr false, w1) /\
   fs w1 = fs w /\
   exists new, trace w1 = (trace w ++ new)%list /\
               forallb streaming_event new = true) /\
  (read_file (fs w) input_file = inr t ->
   ijson_items t = (items, true) ->
   Forall (fun a => exists r, a = VDict r /\ already_scored r) items ->
   process_file_streaming input_file output_file w =
   (inr false, logged [EvGetSize input_file; EvOpenStream input_file] w)).
Proof.
  split.
  - intros Hg Hf.
    pose proof (first_pass_frame input_file w0) as (Hfs & new & Htr & Hnew).
    rewrite Hf in Hfs, Htr. simpl in Hfs, Htr.
    pose proof Hg as Hg'. apply getsize_inv in Hg' as [-> _].
    split_and!.
    + by apply (process_without_items _ _ _ _ _ Hg Hf).
    + exact Hfs.
    + exists (EvGetSize input_file :: EvOpenStream input_file :: new). split.
      * rewrite Htr. simpl. by rewrite <- app_assoc.
      * exact Hnew.
  - intros Hr Hi Hall.
    assert (Hg : getsize input_file w = (inr tt, logged [EvGetSize input_file] w)).
    { unfold getsize, log. unfold_eff. simpl.
      apply read_file_exists in Hr as (-> & _). reflexivity. }
    rewrite (process_without_items _ _ _ _ _ Hg
               (first_pass_fully_scored input_file
                  (logged [EvGetSize input_file] w) t items Hr Hi Hall)).
    unfold logged. simpl. by rewrite <- app_assoc.
Qed.

End Theorems.

(** ** Merge correctness and identifier semantics *)

Section FSFrame.
Context {T : Type}.
Implicit Types fs : gmap (list string) (node T).

Lemma makedirs_from_only_below (done rest : path) fs r fs' :
  makedirs_from done rest fs = (r, fs') ->
  forall q, ~ (exists k, (done ++ rest)%list = (q ++ k)%list) -> fs' !! q = fs !! q.
Proof.
  revert done fs. induction rest as [|c rest IH]; intros done fs; simpl.
  - intros [= _ <-]. reflexivity.
  - assert (Hstep : forall q, ~ (exists k, (done ++ c :: rest)%list = (q ++ k)%list) ->
                      ~ (exists k, ((done ++ [c]) ++ rest)%list = (q ++ k)%list)).
    { intros q Hq. by rewrite <- app_assoc. }
    destruct (fs !! (done ++ [c])%list) as [[|t]|] eqn:E.
    + intros H q Hq. apply (IH _ _ H). by apply Hstep.
    + intros [= _ <-]. reflexivity.
    + intros H q Hq. rewrite (IH _ _ H q (Hstep q Hq)).
      apply lookup_insert_ne. intros <-. apply Hq. exists rest.
      by rewrite <- app_assoc.
Qed.

Lemma makedirs_only_prefixes (p : path) fs r fs' :
  makedirs p fs = (r, fs') ->
  forall q, ~ q `prefix_of` p -> fs' !! q = fs !! q.
Proof.
  unfold makedirs. intros H q Hq. apply (makedirs_from_only_below _ _ _ _ _ H).
  intros [k Hk]. apply Hq. exists k. exact Hk.
Qed.

End FSFrame.

Lemma removelast_prefix {A} (p : list A) : removelast p `prefix_of` p.
Proof.
  induction p as [|a p IH]; simpl.
  - by exists [].
  - destruct p as [|b p].
    + by exists [a].
    + destruct IH as [k Hk]. exists k. simpl in *. by rewrite <- Hk.
Qed.

Lemma length_substring (s : string) (n m : nat) :
  (n + m <= String.length s)%nat -> String.length (String.substring n m s) = m.
Proof.
  revert n m. induction s as [|c s IH]; intros n m; simpl.
  - intros H. assert (n = 0%nat) as -> by lia. assert (m = 0%nat) as -> by lia. reflexivity.
  - destruct n as [|n].
    + destruct m as [|m]; [reflexivity|]. simpl. intros H. f_equal. apply IH. simpl. lia.
    + intros H. apply IH. lia.
Qed.

Lemma length_append (s t : string) :
  String.length (s ++ t) = (String.length s + String.length t)%nat.
Proof. induction s as [|c s IH]; simpl; [reflexivity|]. by rewrite IH. Qed.

Lemma rfind_lt (c : ascii) (s : string) i :
  BinocularsPatch.rfind c s = Some i -> (i < String.length s)%nat.
Proof.
  revert i. induction s as [|a s IH]; simpl; [discriminate|].
  intros i. destruct (BinocularsPatch.rfind c s) as [j|].
  - intros [= <-]. specialize (IH j eq_refl). lia.
  - destruct (Ascii.eqb a c); [|discriminate]. intros [= <-]. lia.
Qed.

Lemma patched_name_length (p : path) :
  String.length (BinocularsPatch.stem p ++ "_patched" ++ BinocularsPatch.suffix p)
  = (String.length (name p) + 8)%nat.
Proof.
  unfold BinocularsPatch.stem, BinocularsPatch.suffix, BinocularsPatch.suffix_start.
  destruct (BinocularsPatch.rfind "." (name p)) as [i|] eqn:E.
  - apply rfind_lt in E.
    destruct ((0 <? i)%nat && (i <? String.length (name p) - 1)%nat).
    + rewrite !length_append, !length_substring by lia. simpl. lia.
    + rewrite !length_append. simpl. lia.
  - rewrite !length_append. simpl. lia.
Qed.

Lemma patched_filename_fresh (input_file : path) :
  BinocularsPatch.patched_filename input_file <> input_file.
Proof.
  unfold BinocularsPatch.patched_filename. intros H.
  pose proof (patched_name_length input_file) as Hl.
  destruct input_file as [|a [|b l]]; try discriminate.
  injection H as H. rewrite H in Hl. unfold name in Hl. simpl in Hl. lia.
Qed.

Section Theorems.
Context `{JL : JsonLib} `{SC : Scorer}.

(** The first pass, when it completes, has seen dicts only and has
    collected the annotations of [computed_annotations]. *)
Lemma for_each_computed (items : list pyval) (processed processed' : list processed_item)
  (w w1 : world) :
  for_each score_article items processed w = (inr processed', w1) ->
  exists records, items = map VDict records /\
    processed' = (processed ++ computed_annotations records (bino w))%list.
Proof.
  revert processed w. induction items as [|a items IH]; intros processed w.
  - simpl. intros [= <- <-]. exists []. by rewrite app_nil_r.
  - cbn [for_each]. unfold mbind at 1. unfold M_bind at 1.
    destruct a; try (raising_item; discriminate).
    destruct (passes_checks d) eqn:E.
    + rewrite (score_article_call d processed w E). cbv zeta.
      intros H. apply IH in H as (records & -> & ->). exists (d :: records).
      split; [reflexivity|]. cbn [computed_annotations bino]. rewrite E.
      destruct (compute_score (bino w) (abstract_of d)) as [[score|] b];
        cbn [fst snd]; [by rewrite <- app_assoc|reflexivity].
    + rewrite (score_article_skip d processed w E).
      intros H. apply IH in H as (records & -> & ->). exists (d :: records).
      split; [reflexivity|]. cbn [computed_annotations]. by rewrite E.
Qed.

(** Claim C1 (merge correctness). When [process_file_streaming] succeeds,
    the destination holds the dump of a document that relates to the
    reloaded one record by record: a record whose identifier is in the
    lookup built from the new annotations has the score and both
    predictions of its lookup entry, every other field as before and its
    keys in the old order; a record whose identifier is not in the lookup
    is unchanged. The new annotations are those that the scorer computed
    on the streamed records that pass both checks, and the lookup gives,
    for an identifier, the last of them whose identifier equals it, and
    nothing when there is none. *)
Theorem merge_correctness (input_file output_file : path) (w w' : world) :
  process_file_streaming input_file output_file w = (inr true, w') ->
  exists t loaded processed_items scores_dict data w2,
    merged_run input_file w t loaded processed_items scores_dict data w2 /\
    fs w' !! output_file = Some (File (json_dump data 4 false)) /\
    match loaded with
    | VList articles =>
        exists articles', data = VList articles' /\
          Forall2 (merged_record scores_dict) articles articles'
    | _ => data = loaded
    end /\
    (exists records, ijson_items t = (map VDict records, true) /\
       processed_items = computed_annotations records (bino w)) /\
    (forall k, assoc_get key_eqb k scores_dict = last_with_key k processed_items).
Proof.
  intros H. apply process_file_streaming_inv in H
    as (t & loaded & processed & sd & data & w2 & fs1 & Hrun & Hmk & Hw & _).
  exists t, loaded, processed, sd, data, w2. split; [exact Hrun|].
  apply write_file_inv in Hw as [-> _]. split; [apply lookup_insert_eq|].
  destruct Hrun as (items & w1 & _ & Hi & Hfe & _ & _ & Hb & Hm & _).
  split_and!.
  - apply merge_scores_inv in Hm. destruct loaded; try exact Hm.
    destruct Hm as (articles' & -> & HF). exists articles'. split; [reflexivity|].
    eapply Forall2_impl; [exact HF|]. intros a a'. apply update_article_merged.
  - apply for_each_computed in Hfe as (records & -> & ->). by exists records.
  - intros k. rewrite (build_scores_dict_lookup _ _ _ Hb k).
    by destruct (last_with_key k processed).
Qed.

(** Claim C10 (identifier semantics of the merge). Among several new
    annotations with equal identifiers the lookup keeps the last one, and
    that one is written onto every record of the document with that
    identifier: the record's score and both predictions are those of the
    last annotation, and its other fields are as they were. A scored record
    without an identifier field is stored under the empty string; only the
    empty string equals that key, and a record without the field is left as
    it is by a merge that completes. *)
Theorem merge_identifier_semantics (processed_items : list processed_item)
  (scores_dict : list (pyval * processed_item)) (articles articles' : list pyval)
  (r : list (string * pyval)) (processed0 : list processed_item) (w : world)
  (score : spec_float) :
  build_scores_dict processed_items [] = inr scores_dict ->
  merge_scores scores_dict (VList articles) = inr (VList articles') ->
  dict_find "Scopus_ID" r = None ->
  passes_checks r = true ->
  fst (compute_score (bino w) (abstract_of r)) = Some score ->
  (forall k, assoc_get key_eqb k scores_dict = last_with_key k processed_items) /\
  (forall i d key item,
     articles !! i = Some (VDict d) ->
     dict_find "Scopus_ID" d = Some key ->
     last_with_key key processed_items = Some item ->
     exists d',
       articles' !! i = Some (VDict d') /\ d' = set_scores item d /\
       dict_find "Binoculars_Score" d' = Some (VFloat (Binoculars_Score item)) /\
       dict_find "Accuracy_Prediction" d' = Some (VInt (Accuracy_Prediction item)) /\
       dict_find "FPR_Prediction" d' = Some (VInt (FPR_Prediction item)) /\
       (forall k, score_field k = false -> dict_find k d' = dict_find k d)) /\
  (exists item,
     fst (score_article (VDict r) processed0 w) = inr (processed0 ++ [item])%list /\
     Scopus_ID item = VStr "" /\ Binoculars_Score item = score) /\
  (forall v, key_eqb v (VStr "") = true <-> v = VStr "") /\
  (forall i d,
     articles !! i = Some (VDict d) ->
     dict_find "Scopus_ID" d = None ->
     articles' !! i = Some (VDict d)).
Proof.
  intros Hb Hm Hr Hp Hs.
  assert (Hl : forall k, assoc_get key_eqb k scores_dict = last_with_key k processed_items).
  { intros k. rewrite (build_scores_dict_lookup _ _ _ Hb k).
    by destruct (last_with_key k processed_items). }
  apply merge_scores_inv in Hm as (l & [= <-] & HF).
  split_and!.
  - exact Hl.
  - intros i d key item Hi Hk Hit.
    destruct (Forall2_lookup_l _ _ _ _ _ HF Hi) as (a' & Ha' & Hu).
    apply update_article_inv in Hu as (d0 & [= <-] & Hu).
    unfold dict_get in Hu. rewrite Hk, Hl, Hit in Hu. destruct Hu as [-> _].
    exists (set_scores item d).
    destruct (set_scores_find item d) as (H1 & H2 & H3 & H4 & _). done.
  - rewrite (score_article_call r processed0 w Hp). cbv zeta. rewrite Hs.
    eexists. split; [reflexivity|]. simpl. unfold dict_get. rewrite Hr. done.
  - apply key_eqb_empty_str.
  - intros i d Hi Hk.
    destruct (Forall2_lookup_l _ _ _ _ _ HF Hi) as (a' & Ha' & Hu).
    rewrite Ha'. f_equal.
    apply update_article_inv in Hu as (d0 & [= <-] & Hu).
    unfold dict_get in Hu. rewrite Hk in Hu.
    destruct (assoc_get key_eqb VNone scores_dict); [|exact Hu].
    destruct Hu as [_ Hu]. congruence.
Qed.

(** What the main annotator can have done to the file system. *)
Lemma process_file_streaming_fs (input_file output_file : path) (w : world) :
  exists ok w', process_file_streaming input_file output_file w = (inr ok, w') /\
  exists r fs1, makedirs (parent output_file) (fs w) = (r, fs1) /\
    ((ok = false /\ (fs w' = fs w \/ fs w' = fs1)) \/
     (exists data, ok = true /\ json_dump_partial data 4 false = None /\
        fs w' = <[output_file := File (json_dump data 4 false)]> fs1) \/
     (exists data written, ok = false /\
        json_dump_partial data 4 false = Some written /\
        fs w' = <[output_file := File written]> fs1)).
Proof.
  destruct (makedirs (parent output_file) (fs w)) as [r fs1] eqn:Em.
  unfold process_file_streaming, try_except.
  unfold mbind at 1. unfold M_bind at 1.
  destruct (getsize input_file w) as [[|[]] w0] eqn:Eg;
    apply getsize_inv in Eg as [-> Hex].
  { do 2 eexists. split; [reflexivity|]. exists r, fs1. auto. }
  unfold mbind at 1. unfold M_bind at 1.
  pose proof (first_pass_frame input_file (logged [EvGetSize input_file] w)) as [Hfs1 _].
  destruct (first_pass input_file _) as [[|processed] w1] eqn:Ef; simpl in Hfs1.
  { do 2 eexists. split; [reflexivity|]. exists r, fs1. auto. }
  destruct processed as [|item processed].
  { do 2 eexists. split; [reflexivity|]. exists r, fs1. auto. }
  unfold mbind at 1. unfold M_bind at 1.
  assert (Hrm : fs (snd (reload_and_merge input_file (item :: processed) w1)) = fs w).
  { generalize (item :: processed). intros l.
    unfold reload_and_merge, json_load_file, log. unfold_eff. simpl.
    destruct (read_file (fs w1) input_file); simpl; [exact Hfs1|].
    destruct (json_load _); simpl; [|exact Hfs1].
    destruct (build_scores_dict l []); simpl; exact Hfs1. }
  destruct (reload_and_merge input_file _ w1) as [[|data] w2] eqn:Er; simpl in Hrm.
  { do 2 eexists. split; [reflexivity|]. exists r, fs1. auto. }
  unfold mkdir_parents, json_dump_file, on_fs, log. unfold_eff. simpl.
  rewrite Hrm, Em. destruct r as [|[]]; simpl.
  { do 2 eexists. split; [reflexivity|]. exists (inl e), fs1. simpl. auto. }
  destruct (json_dump_partial data 4 false) as [written|] eqn:Ep.
  { destruct (write_file fs1 output_file written) as [|fs2] eqn:Ew; simpl.
    { do 2 eexists. split; [reflexivity|]. exists (inr tt), fs1. simpl. auto. }
    do 2 eexists. split; [reflexivity|]. exists (inr tt), fs1. simpl.
    apply write_file_inv in Ew as [-> _]. split; [reflexivity|].
    right. right. by exists data, written. }
  destruct (write_file fs1 output_file _) as [|fs2] eqn:Ew; simpl.
  { do 2 eexists. split; [reflexivity|]. exists (inr tt), fs1. simpl. auto. }
  do 2 eexists. split; [reflexivity|]. exists (inr tt), fs1. simpl.
  apply write_file_inv in Ew as [-> _]. split; [reflexivity|]. right. left. by exists data.
Qed.

Lemma process_file_streaming_frame (input_file output_file : path) (w : world) :
  let w' := snd (process_file_streaming input_file output_file w) in
  (forall p, p <> output_file -> is_Some (fs w !! p) -> fs w' !! p = fs w !! p) /\
  (forall p, ~ p `prefix_of` output_file -> fs w' !! p = fs w !! p).
Proof.
  destruct (process_file_streaming_fs input_file output_file w)
    as (ok & w' & -> & r & fs1 & Hmk & Hfs). simpl.
  assert (Hpre : forall p, ~ p `prefix_of` output_file -> ~ p `prefix_of` parent output_file).
  { intros p Hp Hq. apply Hp. etrans; [exact Hq|]. apply removelast_prefix. }
  assert (Hfs' : fs w' = fs w \/ fs w' = fs1 \/
                 exists t, fs w' = <[output_file := File t]> fs1).
  { destruct Hfs as [[_ [H|H]]|[(data & _ & _ & H)|(data & written & _ & _ & H)]];
      eauto. }
  clear Hfs. split.
  - intros p Hne Hp. destruct Hfs' as [->|[->|(t & ->)]].
    + reflexivity.
    + by apply (makedirs_from_keeps _ _ _ _ _ Hmk).
    + rewrite lookup_insert_ne by done. by apply (makedirs_from_keeps _ _ _ _ _ Hmk).
  - intros p Hp. destruct Hfs' as [->|[->|(t & ->)]].
    + reflexivity.
    + apply (makedirs_only_prefixes _ _ _ _ Hmk). by apply Hpre.
    + rewrite lookup_insert_ne.
      * apply (makedirs_only_prefixes _ _ _ _ Hmk). by apply Hpre.
      * intros <-. apply Hp. done.
Qed.

End Theorems.

(** ** Where the annotator writes *)

Section FSStat.
Context {T : Type}.
Implicit Types fs : gmap (list string) (node T).

Lemma stat_ext fs fs' (p : path) :
  (forall q, q `prefix_of` p -> fs' !! q = fs !! q) -> stat fs' p = stat fs p.
Proof.
  intros H. unfold stat, reachable.
  assert (Ha : forallb (is_dir_at fs') (ancestors p) = forallb (is_dir_at fs) (ancestors p)).
  { unfold ancestors. induction (seq 0 (length p)) as [|n l IH]; simpl; [reflexivity|].
    rewrite IH. f_equal. unfold is_dir_at.
    destruct (take n p) eqn:E; [reflexivity|]. rewrite <- E.
    rewrite H; [reflexivity|]. apply prefix_take. }
  rewrite Ha. destruct p as [|a p]; [reflexivity|]. by rewrite (H (a :: p)).
Qed.

End FSStat.

Lemma removelast_length {A} (p : list A) : p <> [] -> length (removelast p) = pred (length p).
Proof.
  induction p as [|a p IH]; [done|]. intros _. destruct p as [|b p]; [reflexivity|].
  simpl in *. rewrite IH; done.
Qed.

Section Theorems.
Context `{JL : JsonLib} `{SC : Scorer}.

Lemma patch_process_inv (input_file output_file : path) (w w' : world) :
  BinocularsPatch.process_file_streaming input_file output_file w = (inr true, w') ->
  exists t loaded processed_items scores_dict data w2,
    merged_run input_file w t loaded processed_items scores_dict data w2 /\
    write_file (fs w) (BinocularsPatch.patched_filename input_file)
      (json_dump data 4 false) = inr (fs w').
Proof.
  unfold BinocularsPatch.process_file_streaming, try_except.
  unfold mbind at 1. unfold M_bind at 1.
  destruct (getsize input_file w) as [[|[]] w0] eqn:Eg; [intros [=]|].
  apply getsize_inv in Eg as [-> Hex].
  unfold mbind at 1. unfold M_bind at 1.
  destruct (first_pass input_file _) as [[|processed] w1] eqn:Ef; [intros [=]|].
  pose proof (first_pass_frame input_file (logged [EvGetSize input_file] w)) as [Hfs1 _].
  rewrite Ef in Hfs1. simpl in Hfs1.
  apply first_pass_inv in Ef as (t & items & Hr & Hi & Hfe).
  destruct processed as [|item processed]; [intros [=]|].
  unfold mbind at 1. unfold M_bind at 1.
  destruct (reload_and_merge input_file _ w1) as [[|data] w2] eqn:Er; [intros [=]|].
  apply reload_and_merge_inv in Er as (t' & loaded & sd & Hr' & Hl & Hb & Hm & ->).
  rewrite Hfs1 in Hr'. simpl in Hr. rewrite Hr in Hr'. injection Hr' as <-.
  unfold json_dump_file, log. unfold_eff. simpl. rewrite Hfs1.
  destruct (json_dump_partial data 4 false) as [written|];
    [destruct (write_file (fs w) _ written); intros [=]|].
  destruct (write_file (fs w) _ _) as [|fs2] eqn:Ew; simpl; [intros [=]|].
  intros [= <-]. simpl.
  exists t, loaded, (item :: processed), sd, data, (logged [EvJsonLoad input_file] w1).
  split; [|exact Ew].
  exists items, w1. simpl.
  replace (logged [EvGetSize input_file; EvOpenStream input_file] w)
    with (logged [EvOpenStream input_file] (logged [EvGetSize input_file] w))
    by (unfold logged; simpl; by rewrite <- app_assoc).
  done.
Qed.

Lemma patch_process_fs (input_file output_file : path) (w : world) :
  exists ok w',
    BinocularsPatch.process_file_streaming input_file output_file w = (inr ok, w') /\
    ((ok = false /\ fs w' = fs w) \/
     (exists data, ok = true /\ json_dump_partial data 4 false = None /\
        fs w' = <[BinocularsPatch.patched_filename input_file
                    := File (json_dump data 4 false)]> (fs w)) \/
     (exists data written, ok = false /\
        json_dump_partial data 4 false = Some written /\
        fs w' = <[BinocularsPatch.patched_filename input_file
                    := File written]> (fs w))).
Proof.
  unfold BinocularsPatch.process_file_streaming, try_except.
  unfold mbind at 1. unfold M_bind at 1.
  destruct (getsize input_file w) as [[|[]] w0] eqn:Eg;
    apply getsize_inv in Eg as [-> Hex].
  { do 2 eexists. split; [reflexivity|]. auto. }
  unfold mbind at 1. unfold M_bind at 1.
  pose proof (first_pass_frame input_file (logged [EvGetSize input_file] w)) as [Hfs1 _].
  destruct (first_pass input_file _) as [[|processed] w1] eqn:Ef; simpl in Hfs1.
  { do 2 eexists. split; [reflexivity|]. auto. }
  destruct processed as [|item processed].
  { do 2 eexists. split; [reflexivity|]. auto. }
  unfold mbind at 1. unfold M_bind at 1.
  assert (Hrm : fs (snd (reload_and_merge input_file (item :: processed) w1)) = fs w).
  { generalize (item :: processed). intros l.
    unfold reload_and_merge, json_load_file, log. unfold_eff. simpl.
    destruct (read_file (fs w1) input_file); simpl; [exact Hfs1|].
    destruct (json_load _); simpl; [|exact Hfs1].
    destruct (build_scores_dict l []); simpl; exact Hfs1. }
  destruct (reload_and_merge input_file _ w1) as [[|data] w2] eqn:Er; simpl in Hrm.
  { do 2 eexists. split; [reflexivity|]. auto. }
  unfold json_dump_file, log. unfold_eff. simpl. rewrite Hrm.
  destruct (json_dump_partial data 4 false) as [written|] eqn:Ep.
  { destruct (write_file (fs w) _ written) as [|fs2] eqn:Ew; simpl.
    { do 2 eexists. split; [reflexivity|]. auto. }
    do 2 eexists. split; [reflexivity|]. simpl.
    apply write_file_inv in Ew as [-> _]. right. right. by exists data, written. }
  destruct (write_file (fs w) _ _) as [|fs2] eqn:Ew; simpl.
  { do 2 eexists. split; [reflexivity|]. auto. }
  do 2 eexists. split; [reflexivity|]. simpl.
  apply write_file_inv in Ew as [-> _]. right. left. by exists data.
Qed.

Lemma analyze_file_frame (file_path : path) (n : Z) (w : world) (p : path) :
  ~ p `prefix_of` (output_dir ++ file_path)%list ->
  fs (snd (analyze_file file_path n w)) !! p = fs w !! p.
Proof.
  intros Hp. unfold analyze_file. unfold_eff.
  destruct (negb (exists_ (fs w) _)); [reflexivity|].
  pose proof (process_file_streaming_frame (input_dir ++ file_path)%list
                (output_dir ++ file_path)%list w) as [_ H].
  specialize (H p Hp).
  destruct (process_file_streaming _ _ w) as [[|ok] w']; exact H.
Qed.

Lemma for_each_analyze_frame (files : list path) (n : Z) (w : world) (p : path) :
  (forall f, In f files -> ~ p `prefix_of` (output_dir ++ f)%list) ->
  fs (snd (for_each analyze_file files n w)) !! p = fs w !! p.
Proof.
  revert n w. induction files as [|f files IH]; intros n w Hp; [reflexivity|].
  cbn [for_each]. unfold mbind, M_bind.
  pose proof (analyze_file_frame f n w p (Hp f (or_introl eq_refl))) as Hf.
  destruct (analyze_file f n w) as [[|n'] w1]; simpl in *; [exact Hf|].
  rewrite IH; [exact Hf|]. intros g Hg. apply Hp. by right.
Qed.

Lemma patch_analyze_file_frame (file_path : path) (n : Z) (w : world) (p : path) :
  p <> BinocularsPatch.patched_filename (BinocularsPatch.input_dir ++ file_path)%list ->
  fs (snd (BinocularsPatch.analyze_file file_path n w)) !! p = fs w !! p.
Proof.
  intros Hp. unfold BinocularsPatch.analyze_file. unfold_eff.
  destruct (negb (exists_ (fs w) _)); [reflexivity|].
  destruct (patch_process_fs (BinocularsPatch.input_dir ++ file_path)%list
              (BinocularsPatch.output_dir ++ file_path)%list w)
    as (ok & w' & -> & Hfs). simpl.
  destruct Hfs as [[_ ->]|[(data & _ & _ & ->)|(data & written & _ & _ & ->)]];
    [reflexivity| |]; by rewrite lookup_insert_ne.
Qed.

Lemma process_unreadable (input_file output_file : path) (w : world) e :
  read_file (fs w) input_file = inl e ->
  fs (snd (process_file_streaming input_file output_file w)) = fs w.
Proof.
  intros Hr. unfold process_file_streaming, try_except.
  unfold mbind at 1. unfold M_bind at 1.
  destruct (getsize input_file w) as [[|[]] w0] eqn:Eg;
    apply getsize_inv in Eg as [-> Hex]; [reflexivity|].
  unfold mbind at 1. unfold M_bind at 1.
  unfold first_pass, open_stream, log. unfold_eff. simpl. rewrite Hr. reflexivity.
Qed.

(** Claim C9, as amended (where the annotator writes). The main annotator
    puts the dump of the merged document (indent 4, non-ASCII kept) at the
    destination it is given, under a directory that then exists; it changes
    nothing that existed elsewhere, touches no path that is not a prefix of
    the destination, and leaves the input as it is when the destination is
    another path, as for every file of its driver. The patch annotator
    writes the dump to [<stem>_patched<suffix>] in the working directory,
    whatever destination it is given, changes no other path, and that path
    is never the input. *)
Theorem annotator_write_location (input_file output_file : path) (w : world) :
  let main := Binoculars.process_file_streaming input_file output_file w in
  let patch := BinocularsPatch.process_file_streaming input_file output_file w in
  (fst main = inr true ->
   exists t loaded processed_items scores_dict data w2,
     merged_run input_file w t loaded processed_items scores_dict data w2 /\
     fs (snd main) !! output_file = Some (File (json_dump data 4 false)) /\
     stat (fs (snd main)) (parent output_file) = Some Dir) /\
  (forall p, p <> output_file -> is_Some (fs w !! p) ->
             fs (snd main) !! p = fs w !! p) /\
  (forall p, ~ p `prefix_of` output_file -> fs (snd main) !! p = fs w !! p) /\
  (input_file <> output_file ->
   fs (snd main) !! input_file = fs w !! input_file) /\
  (fst patch = inr true ->
   exists t loaded processed_items scores_dict data w2,
     merged_run input_file w t loaded processed_items scores_dict data w2 /\
     fs (snd patch) !! BinocularsPatch.patched_filename input_file
     = Some (File (json_dump data 4 false))) /\
  (forall p, p <> BinocularsPatch.patched_filename input_file ->
             fs (snd patch) !! p = fs w !! p) /\
  fs (snd patch) !! input_file = fs w !! input_file /\
  (forall p, input_dir `prefix_of` p ->
             fs (snd (Binoculars.analyze_abstracts w)) !! p = fs w !! p) /\
  (forall f, In f BinocularsPatch.target_files ->
             fs (snd (BinocularsPatch.analyze_abstracts w))
               !! (BinocularsPatch.input_dir ++ f)%list
             = fs w !! (BinocularsPatch.input_dir ++ f)%list).
Proof.
  cbv zeta.
  pose proof (process_file_streaming_frame input_file output_file w) as [Hk Hpre].
  assert (Hpatch : forall p, p <> BinocularsPatch.patched_filename input_file ->
             fs (snd (BinocularsPatch.process_file_streaming input_file output_file w)) !! p
             = fs w !! p).
  { intros p Hp. destruct (patch_process_fs input_file output_file w)
      as (ok & w' & -> & Hfs). simpl.
    destruct Hfs as [[_ ->]|[(data & _ & _ & ->)|(data & written & _ & _ & ->)]];
      [reflexivity| |]; by rewrite lookup_insert_ne. }
  split_and!.
  - destruct (process_file_streaming input_file output_file w) as [r w'] eqn:E.
    simpl. intros ->.
    apply process_file_streaming_inv in E
      as (t & loaded & processed & sd & data & w2 & fs1 & Hrun & Hmk & Hw & _).
    exists t, loaded, processed, sd, data, w2. split; [exact Hrun|].
    apply write_file_inv in Hw as (Hw & Hreach & Hne). rewrite Hw.
    split; [apply lookup_insert_eq|].
    rewrite (stat_ext fs1); [by apply (makedirs_stat _ _ _ Hmk)|].
    intros q Hq. apply lookup_insert_ne. intros <-.
    apply prefix_length in Hq. unfold parent in Hq.
    rewrite removelast_length in Hq by done.
    destruct output_file; [done|]. simpl in Hq. lia.
  - exact Hk.
  - exact Hpre.
  - intros Hne.
    destruct (read_file (fs w) input_file) as [e|t] eqn:Er.
    + by rewrite (process_unreadable _ _ _ _ Er).
    + apply read_file_exists in Er as (_ & _ & Er). apply Hk; [done|by rewrite Er].
  - destruct (BinocularsPatch.process_file_streaming input_file output_file w) as [r w'] eqn:E.
    simpl. intros ->.
    apply patch_process_inv in E as (t & loaded & processed & sd & data & w2 & Hrun & Hw).
    exists t, loaded, processed, sd, data, w2. split; [exact Hrun|].
    apply write_file_inv in Hw as [-> _]. apply lookup_insert_eq.
  - exact Hpatch.
  - apply Hpatch. intros H. by apply (patched_filename_fresh input_file).
  - intros p Hp. unfold analyze_abstracts. apply for_each_analyze_frame.
    intros f Hf [k Hk']. destruct Hp as [k' ->].
    unfold input_dir, output_dir in Hk'.
    unfold target_files in Hf. simpl in Hf.
    repeat (destruct Hf as [<-|Hf]; [simpl in Hk'; discriminate|]). done.
  - intros f Hf. unfold BinocularsPatch.analyze_abstracts, BinocularsPatch.target_files in *.
    cbn [for_each]. unfold mbind, M_bind.
    pose proof (patch_analyze_file_frame ["MAY_comp_2023.json"] 0 w) as H1.
    destruct (BinocularsPatch.analyze_file ["MAY_comp_2023.json"] 0 w) as [[|n1] w1];
      simpl in *.
    + apply H1. destruct Hf as [<-|[<-|[]]]; vm_compute; discriminate.
    + pose proof (patch_analyze_file_frame ["JULY_comp_2023.json"] n1 w1) as H2.
      destruct (BinocularsPatch.analyze_file ["JULY_comp_2023.json"] n1 w1) as [[|n2] w2];
        simpl in *; rewrite H2, H1; try reflexivity;
        destruct Hf as [<-|[<-|[]]]; vm_compute; discriminate.
Qed.

End Theorems.

Import Scopus HarvestSpec.

(** ** The harvester: skipping a finished bucket *)

Section FSMore.
Context {T : Type}.
Implicit Types fs : gmap (list string) (node T).

Lemma makedirs_from_existing (done rest : list string) fs :
  (forall n, (0 < n <= length rest)%nat -> fs !! (done ++ take n rest)%list = Some Dir) ->
  makedirs_from done rest fs = (inr tt, fs).
Proof.
  revert done. induction rest as [|c rest IH]; intros done H; simpl; [reflexivity|].
  pose proof (H 1%nat) as H1. simpl in H1. rewrite take_0 in H1.
  rewrite H1 by lia. apply IH. intros n Hn.
  rewrite <- app_assoc. simpl. apply (H (S n)). simpl. lia.
Qed.

Lemma reachable_dirs fs (p : list string) :
  reachable fs p = true ->
  forall n, (0 < n < length p)%nat -> fs !! take n p = Some Dir.
Proof.
  unfold reachable. rewrite forallb_forall. intros H n Hn.
  specialize (H (take n p)).
  assert (Hin : In (take n p) (ancestors p)).
  { unfold ancestors. apply in_map_iff. exists n. split; [reflexivity|].
    apply in_seq. lia. }
  specialize (H Hin). unfold is_dir_at in H.
  destruct (take n p) eqn:E.
  - apply (f_equal length) in E. rewrite length_take in E. simpl in E. lia.
  - destruct (fs !! (s :: l)) as [[|]|]; done.
Qed.

Lemma exists_parent_made fs (d : list string) (name : string) :
  exists_ fs (d ++ [name])%list = true -> makedirs d fs = (inr tt, fs).
Proof.
  unfold exists_, stat. destruct (reachable fs (d ++ [name])) eqn:Hr; [|discriminate].
  intros _. apply makedirs_from_existing. intros n Hn. simpl.
  pose proof (reachable_dirs _ _ Hr n) as H. rewrite length_app in H. simpl in H.
  rewrite take_app_le in H by lia. apply H. lia.
Qed.

End FSMore.

Section HarvesterFacts.
Context `{JL : JsonLib} `{OUT : Outside}.

Lemma set_fs_same (w : world) : set_fs (fs w) w = w.
Proof. by destruct w. Qed.

(** C6, main harvester *)
Lemma collect_month_skip (fuel : nat) (year month : Z) (w : world) :
  exists_ (fs w)
    (output_file_of (base_backup_dir ++ [str_of_int year])%list
       (nth (Z.to_nat (month - 1)) month_list "")) = true ->
  collect_month fuel (year, month) w = (inr tt, w).
Proof.
  intros Hex. unfold collect_month, get_year_folder, on_fs. unfold_eff.
  unfold output_file_of in *.
  rewrite (exists_parent_made _ _ _ Hex). rewrite set_fs_same.
  match goal with |- context [if ?c then _ else _] =>
    assert (c = true) as -> by exact Hex end.
  reflexivity.
Qed.

End HarvesterFacts.

(** ** The harvester: the retry loop *)

Section HarvesterFacts.
Context `{JL : JsonLib} `{OUT : Outside}.

Lemma nth_error_nonempty {A} (l : list A) i x : nth_error l i = Some x -> l <> [].
Proof. destruct l; [by destruct i|done]. Qed.

Lemma get_headers_ok (w : world) key :
  nth_error (API_KEYS w) (current_api_key_index w) = Some key ->
  get_headers w = (inr key, w).
Proof. intros H. unfold get_headers. unfold_eff. by rewrite H. Qed.

Lemma requests_get_ok (url : string) params (w : world) key :
  nth_error (API_KEYS w) (current_api_key_index w) = Some key ->
  let req := {| url := url; api_key := key; params := params |} in
  requests_get url params w = (inr (respond (requests_made w) req), sent req w).
Proof.
  intros H. unfold requests_get. unfold mbind at 1. unfold M_bind at 1.
  rewrite (get_headers_ok w key H). reflexivity.
Qed.

Lemma cycle_then_sleep {A} (k : M halt world A) (w : world) :
  API_KEYS w <> [] ->
  (cycle_api_key;; sleep 2;; k) w =
  k (slept 2 (set_index ((current_api_key_index w + 1) mod length (API_KEYS w))%nat w)).
Proof.
  intros H. unfold cycle_api_key, sleep. unfold_eff.
  destruct (API_KEYS w) eqn:E; [done|]. reflexivity.
Qed.

Lemma fetch_retry_step url params top_key extract fallback n (w : world) key :
  nth_error (API_KEYS w) (current_api_key_index w) = Some key ->
  let req := {| url := url; api_key := key; params := params |} in
  retried top_key (respond (requests_made w) req) = true ->
  fetch_with_retries url params top_key extract fallback (S n) w =
  fetch_with_retries url params top_key extract fallback n (rotated req w).
Proof.
  intros Hk req Hr. cbn [fetch_with_retries].
  unfold mbind at 1. unfold M_bind at 1.
  rewrite (requests_get_ok url params w key Hk). fold req.
  assert (Hne : API_KEYS (sent req w) <> []) by (simpl; by eapply nth_error_nonempty).
  unfold retried in Hr.
  destruct (Z.eqb (status_code (respond (requests_made w) req)) 429) eqn:E429.
  - by rewrite cycle_then_sleep.
  - simpl in Hr. destruct (json_body (respond (requests_made w) req)) as [j|].
    + destruct (lacks_key top_key j) as [|[]] eqn:El; try discriminate.
      unfold mbind at 1. unfold M_bind at 1. unfold lift_py, lift. simpl.
      by rewrite cycle_then_sleep.
    + by rewrite cycle_then_sleep.
Qed.

Lemma fetch_exhausted url params top_key extract fallback n (w : world) :
  all_retried top_key
    (fun key => {| url := url; api_key := key; params := params |}) n w = true ->
  fetch_with_retries url params top_key extract fallback n w =
  (inr fallback,
   after_retries (fun key => {| url := url; api_key := key; params := params |}) n w).
Proof.
  revert w. induction n as [|n IH]; intros w H; [reflexivity|].
  cbn [all_retried after_retries] in *.
  destruct (nth_error (API_KEYS w) (current_api_key_index w)) as [key|] eqn:Ek;
    [|discriminate].
  apply andb_true_iff in H as [Hr Hrest].
  rewrite (fetch_retry_step _ _ _ _ _ _ _ _ Ek Hr). by apply IH.
Qed.

Lemma after_retries_counts mk n (w : world) :
  (requests_made (after_retries mk n w) <= requests_made w + n)%nat /\
  fs (after_retries mk n w) = fs w /\
  API_KEYS (after_retries mk n w) = API_KEYS w.
Proof.
  revert w. induction n as [|n IH]; intros w; simpl; [split_and!; done || lia|].
  destruct (nth_error (API_KEYS w) (current_api_key_index w)) as [key|];
    [|split_and!; done || lia].
  destruct (IH (rotated (mk key) w)) as (H1 & H2 & H3). simpl in *.
  split_and!; [lia|done|done].
Qed.

(** Whatever the replies, a fetch sends at most [retries] requests, leaves
    the files alone and is never cut short by the fuel. *)
Lemma fetch_bounded url params top_key extract fallback n (w : world) :
  let out := fetch_with_retries url params top_key extract fallback n w in
  (requests_made (snd out) <= requests_made w + n)%nat /\
  (requests_made w <= requests_made (snd out))%nat /\
  fs (snd out) = fs w /\
  fst out <> inl OutOfFuel.
Proof.
  revert w. induction n as [|n IH]; intros w; cbn [fetch_with_retries].
  - simpl. split_and!; done || lia.
  - unfold mbind at 1. unfold M_bind at 1. unfold requests_get.
    unfold mbind at 1. unfold M_bind at 1. unfold get_headers. unfold_eff.
    destruct (nth_error (API_KEYS w) (current_api_key_index w)) as [key|] eqn:Ek;
      simpl; [|split_and!; done || lia].
    set (req := {| url := url; api_key := key; params := params |}).
    assert (Hcyc : forall w1 : world,
      requests_made w1 = S (requests_made w) -> fs w1 = fs w ->
      let out := (cycle_api_key;; sleep 2;;
                  fetch_with_retries url params top_key extract fallback n) w1 in
      (requests_made (snd out) <= requests_made w + S n)%nat /\
      (requests_made w <= requests_made (snd out))%nat /\
      fs (snd out) = fs w /\ fst out <> inl OutOfFuel).
    { intros w1 Hw1 Hf1. unfold cycle_api_key, sleep. unfold_eff.
      destruct (API_KEYS w1) eqn:E; simpl.
      - split_and!; try done; lia.
      - match goal with |- context [fetch_with_retries _ _ _ _ _ n ?w2] =>
          destruct (IH w2) as (H1 & H2 & H3 & H4) end.
        simpl in *. split_and!; try done; try lia. by rewrite H3. }
    destruct (Z.eqb (status_code (respond (requests_made w) req)) 429).
    + apply Hcyc; reflexivity.
    + destruct (json_body (respond (requests_made w) req)) as [j|].
      * unfold lift_py, lift.
        destruct (lacks_key top_key j) as [e|[]]; simpl.
        -- split_and!; try done; lia.
        -- apply Hcyc; reflexivity.
        -- destruct (extract j); simpl; split_and!; try done; lia.
      * apply Hcyc; reflexivity.
Qed.

End HarvesterFacts.

(** ** The harvester: rate limits on page requests *)

Section HarvesterFacts.
Context `{JL : JsonLib} `{OUT : Outside}.

Lemma pause_point_quiet (fuel : nat) (w : world) :
  no_pause_signal (stdin_poll (polls_made w)) = true ->
  pause_point fuel w = (inr tt, polled w).
Proof.
  intros H. unfold pause_point, check_for_pause. unfold_eff. simpl.
  unfold no_pause_signal in H.
  destruct (stdin_poll (polls_made w)) as [l|]; [|reflexivity].
  apply negb_true_iff in H. simpl. by rewrite H.
Qed.

(** One rate-limited page request of the patch harvester. *)
Lemma patch_page_rate_limited (fuel : nat) query year_dir month start articles
  (w : world) key :
  no_pause_signal (stdin_poll (polls_made w)) = true ->
  nth_error (API_KEYS w) (current_api_key_index w) = Some key ->
  status_code (respond (requests_made w) (patch_page_request query start key)) = 429 ->
  ScopusPatch.page_loop (S fuel) query year_dir month (start, articles) w =
  ScopusPatch.page_loop fuel query year_dir month (start, articles)
    (rotated (patch_page_request query start key) (polled w)).
Proof.
  intros Hp Hk Hs. cbn [ScopusPatch.page_loop].
  unfold mbind at 1. unfold M_bind at 1. rewrite (pause_point_quiet _ _ Hp).
  unfold mbind at 1. unfold M_bind at 1.
  pose proof (requests_get_ok SEARCH_URL
                (params (patch_page_request query start key)) (polled w) key Hk)
    as Hreq.
  cbv zeta in Hreq. simpl params in Hreq. rewrite Hreq.
  change (requests_made (polled w)) with (requests_made w).
  change {| url := SEARCH_URL; api_key := key;
            params := [("query", VStr query); ("count", VInt COUNT);
                       ("start", VInt start); ("view", VStr "STANDARD")] |}
    with (patch_page_request query start key).
  rewrite Hs. rewrite Z.eqb_refl.
  rewrite cycle_then_sleep; [reflexivity|]. simpl. by eapply nth_error_nonempty.
Qed.

Lemma patch_page_loop_rate_limited (n fuel : nat) query year_dir month start
  articles (w : world) :
  rate_limited (patch_page_request query start) n w = true ->
  ScopusPatch.page_loop (n + fuel) query year_dir month (start, articles) w =
  ScopusPatch.page_loop fuel query year_dir month (start, articles)
    (after_rate_limits (patch_page_request query start) n w).
Proof.
  revert w. induction n as [|n IH]; intros w H; [reflexivity|].
  cbn [rate_limited after_rate_limits] in *.
  apply andb_true_iff in H as [Hp H].
  destruct (nth_error (API_KEYS w) (current_api_key_index w)) as [key|] eqn:Ek;
    [|discriminate].
  apply andb_true_iff in H as [Hs H]. apply Z.eqb_eq in Hs.
  change (S n + fuel)%nat with (S (n + fuel)).
  rewrite (patch_page_rate_limited _ _ _ _ _ _ _ _ Hp Ek Hs). by apply IH.
Qed.

Lemma rotated_index (req : request) (w : world) :
  current_api_key_index (rotated req w)
  = ((current_api_key_index w + 1) mod length (API_KEYS w))%nat.
Proof. reflexivity. Qed.

Lemma after_rate_limits_state mk (n : nat) (w : world) :
  rate_limited mk (S n) w = true ->
  let w' := after_rate_limits mk (S n) w in
  API_KEYS w' = API_KEYS w /\
  current_api_key_index w' =
    ((current_api_key_index w + S n) mod length (API_KEYS w))%nat /\
  requests_made w' = (requests_made w + S n)%nat /\
  polls_made w' = (polls_made w + S n)%nat /\
  fs w' = fs w.
Proof.
  revert w. induction n as [|n IH]; intros w H.
  - cbn [rate_limited after_rate_limits] in *.
    destruct (nth_error (API_KEYS w) (current_api_key_index w)) as [key|];
      [|by rewrite andb_false_r in H].
    simpl. split_and!; try done; lia.
  - remember (S n) as m. cbn [rate_limited after_rate_limits] in *.
    apply andb_true_iff in H as [Hp H].
    destruct (nth_error (API_KEYS w) (current_api_key_index w)) as [key|] eqn:Ek;
      [|discriminate].
    apply andb_true_iff in H as [Hs H]. subst m.
    destruct (IH _ H) as (H1 & H2 & H3 & H4 & H5). cbv zeta in *.
    rewrite H1, H2, H3, H4, H5. simpl.
    split_and!; try done; try lia.
    assert (Hl : length (API_KEYS w) <> 0%nat).
    { apply nth_error_nonempty in Ek. by destruct (API_KEYS w). }
    rewrite Nat.Div0.add_mod_idemp_l. f_equal. lia.
Qed.

End HarvesterFacts.

(** ** The harvester: one entry *)

Section HarvesterFacts.
Context `{JL : JsonLib} `{OUT : Outside}.

Lemma main_page_not_200 (fuel : nat) query year_dir month_name
  current_offset total_processed monthly_articles (w : world) key json_data :
  current_offset < 5000 ->
  no_pause_signal (stdin_poll (polls_made w)) = true ->
  nth_error (API_KEYS w) (current_api_key_index w) = Some key ->
  let reply := respond (requests_made w) (page_request query current_offset key) in
  status_code reply <> 200 ->
  json_body reply = Some json_data ->
  Scopus.page_loop (S fuel) query year_dir month_name
    (current_offset, total_processed, monthly_articles) w =
  (inr (current_offset, total_processed, monthly_articles),
   sent (page_request query current_offset key) (polled w)).
Proof.
  intros Hlt Hp Hk reply Hs Hj. cbn [Scopus.page_loop].
  apply Z.ltb_lt in Hlt. rewrite Hlt.
  unfold mbind at 1. unfold M_bind at 1. rewrite (pause_point_quiet _ _ Hp).
  unfold mbind at 1. unfold M_bind at 1.
  pose proof (requests_get_ok SEARCH_URL
                (params (page_request query current_offset key)) (polled w) key Hk)
    as Hreq.
  cbv zeta in Hreq. simpl params in Hreq. rewrite Hreq.
  change (requests_made (polled w)) with (requests_made w).
  change {| url := SEARCH_URL; api_key := key;
            params := [("query", VStr query); ("count", VInt COUNT);
                       ("start", VInt current_offset)] |}
    with (page_request query current_offset key).
  fold reply. apply Z.eqb_neq in Hs. rewrite Hs. simpl negb. cbv iota.
  unfold response_json. rewrite Hj. reflexivity.
Qed.

Lemma process_entry_skips year_dir month_name entry scopus_id st (w w' : world)
  metadata :
  entry_scopus_id entry = inr scopus_id ->
  fetch_metadata scopus_id 3 w = (inr metadata, w') ->
  truthy metadata = false ->
  Scopus.process_entry year_dir month_name entry st w = (inr st, w').
Proof.
  intros He Hf Ht. unfold Scopus.process_entry. destruct st as [total articles].
  unfold mbind at 1. unfold M_bind at 1. unfold lift_py, lift. rewrite He.
  unfold mbind at 1. unfold M_bind at 1. rewrite Hf. rewrite Ht. reflexivity.
Qed.

Lemma patch_process_entry_skips year_dir month entry scopus_id articles
  (w w' : world) metadata :
  entry_scopus_id entry = inr scopus_id ->
  scopus_id <> "" ->
  fetch_metadata scopus_id 3 w = (inr metadata, w') ->
  truthy metadata = false ->
  ScopusPatch.process_entry year_dir month entry articles w = (inr articles, w').
Proof.
  intros He Hne Hf Ht. unfold ScopusPatch.process_entry.
  unfold mbind at 1. unfold M_bind at 1. unfold lift_py, lift. rewrite He.
  apply String.eqb_neq in Hne. rewrite Hne.
  unfold mbind at 1. unfold M_bind at 1. rewrite Hf. rewrite Ht. reflexivity.
Qed.

Lemma process_entry_appends year_dir month_name entry scopus_id
  (total_processed : Z) (l : list pyval) (w w1 w2 w3 : world)
  (d : list (string * pyval)) (abstract citations : pyval) (c : Z) :
  entry_scopus_id entry = inr scopus_id ->
  fetch_metadata scopus_id 3 w = (inr (VDict d), w1) ->
  d <> [] ->
  fetch_abstract scopus_id 3 w1 = (inr abstract, w2) ->
  dict_find "Cited_By_Count" d = Some (VInt c) ->
  (if Z.ltb 0 c
   then fetch_citations scopus_id 200 3 w2
        = (inr (VDict [("citations", citations)]), w3)
   else citations = VList [] /\ w3 = w2) ->
  (total_processed + 1) mod BACKUP_INTERVAL <> 0 ->
  Scopus.process_entry year_dir month_name entry (total_processed, VList l) w =
  (inr (total_processed + 1,
        VList (l ++ [VDict (dict_set "Citations" citations
                              (dict_set "Abstract" abstract d))])%list),
   w3).
Proof.
  intros He Hm Hd Ha Hc Hcit Hmod. unfold Scopus.process_entry.
  unfold mbind at 1. unfold M_bind at 1. unfold lift_py at 1. unfold lift. rewrite He.
  unfold mbind at 1. unfold M_bind at 1. rewrite Hm.
  assert (Ht : truthy (VDict d) = true) by (by destruct d).
  rewrite Ht.
  unfold mbind at 1. unfold M_bind at 1. rewrite Ha.
  unfold mbind at 1. unfold M_bind at 1. unfold lift_py at 1. unfold lift.
  cbn [py_setitem ret].
  unfold mbind at 1. unfold M_bind at 1. unfold lift_py at 1. unfold lift.
  cbn [py_getitem]. rewrite dict_find_set. simpl String.eqb. cbv iota. rewrite Hc.
  cbn [ret].
  unfold mbind at 1. unfold M_bind at 1. unfold lift_py at 1. unfold lift.
  cbn [py_positive ret].
  apply Z.eqb_neq in Hmod.
  destruct (Z.ltb 0 c).
  - unfold mbind at 1. unfold M_bind at 1.
    unfold mbind at 1. unfold M_bind at 1. rewrite Hcit.
    unfold_eff. unfold lift_py. simpl. rewrite Hmod. reflexivity.
  - destruct Hcit as [-> ->].
    unfold_eff. unfold lift_py. simpl. rewrite Hmod. reflexivity.
Qed.

End HarvesterFacts.

(** ** Counts in checkpoint names *)

Lemma append_cons (c : ascii) (s t : string) :
  String c s ++ t = String c (s ++ t).
Proof. reflexivity. Qed.

Lemma append_empty (t : string) : "" ++ t = t.
Proof. reflexivity. Qed.

Lemma all_chars_app P (s t : string) :
  all_chars P (s ++ t) = all_chars P s && all_chars P t.
Proof.
  induction s as [|c s IH]; [reflexivity|].
  rewrite append_cons. simpl. by rewrite IH, andb_assoc.
Qed.

Lemma all_chars_impl (P Q : ascii -> bool) (s : string) :
  (forall c, P c = true -> Q c = true) -> all_chars P s = true -> all_chars Q s = true.
Proof.
  intros H. induction s as [|c s IH]; simpl; [done|].
  intros [H1 H2]%andb_true_iff. by rewrite (H c H1), IH.
Qed.

Lemma horner_app acc (s t : string) : horner acc (s ++ t) = horner (horner acc s) t.
Proof.
  revert acc. induction s as [|c s IH]; intros acc; [reflexivity|].
  rewrite append_cons. simpl. apply IH.
Qed.

Lemma digits_val_horner acc after_digit (s : string) :
  all_chars is_digit s = true -> s <> "" ->
  digits_val acc after_digit s = Some (horner acc s).
Proof.
  revert acc after_digit. induction s as [|c s IH]; intros acc ad Hd Hne; [done|].
  simpl in *. apply andb_true_iff in Hd as [Hc Hs]. rewrite Hc.
  destruct s as [|c' s']; [reflexivity|]. by apply IH.
Qed.

Lemma string_app_assoc (s t u : string) : (s ++ t) ++ u = s ++ (t ++ u).
Proof.
  induction s as [|c s IH]; [reflexivity|]. rewrite !append_cons. by rewrite IH.
Qed.

Lemma pretty_N_go_app (x : N) (s : string) :
  pretty_N_go x s = pretty_N_go x "" ++ s.
Proof.
  revert s. induction (N.lt_wf_0 x) as [x _ IH]; intros s.
  assert (x = 0 \/ 0 < x)%N as [->|Hx] by lia.
  - by rewrite !pretty_N_go_0.
  - rewrite !(pretty_N_go_step x) by done.
    assert (Hlt : (x `div` 10 < x)%N) by (by apply N.div_lt).
    rewrite (IH (x `div` 10)%N Hlt (String (pretty_N_char (x `mod` 10)) s)).
    rewrite (IH (x `div` 10)%N Hlt (String (pretty_N_char (x `mod` 10)) "")).
    rewrite string_app_assoc. reflexivity.
Qed.

Lemma pretty_N_char_digit (d : N) :
  (d < 10)%N ->
  is_digit (pretty_N_char d) = true /\
  Z.of_nat (nat_of_ascii (pretty_N_char d)) - 48 = Z.of_N d.
Proof.
  intros H.
  assert (d = 0 \/ d = 1 \/ d = 2 \/ d = 3 \/ d = 4 \/ d = 5 \/ d = 6 \/ d = 7
          \/ d = 8 \/ d = 9)%N as Hd by lia.
  repeat (destruct Hd as [->|Hd]; [by vm_compute|]). subst. by vm_compute.
Qed.

Lemma pretty_N_go_digits (x : N) :
  all_chars is_digit (pretty_N_go x "") = true /\
  horner 0 (pretty_N_go x "") = Z.of_N x /\
  ((0 < x)%N -> pretty_N_go x "" <> "").
Proof.
  induction (N.lt_wf_0 x) as [x _ IH].
  assert (x = 0 \/ 0 < x)%N as [->|Hx] by lia.
  - rewrite pretty_N_go_0. split_and!; [done|done|lia].
  - rewrite (pretty_N_go_step x) by done. rewrite pretty_N_go_app.
    destruct (IH (x `div` 10)%N) as (H1 & H2 & _); [by apply N.div_lt|].
    destruct (pretty_N_char_digit (x `mod` 10)%N) as [Hd Hv]; [by apply N.mod_lt|].
    split_and!.
    + rewrite all_chars_app, H1. simpl. by rewrite Hd.
    + rewrite horner_app, H2. simpl. rewrite Hv.
      rewrite (N.div_mod x 10) at 3 by done. lia.
    + intros _. by destruct (pretty_N_go (x `div` 10) "").
Qed.

Lemma rstrip_solid (s : string) :
  all_chars (fun c => negb (is_space c)) s = true -> rstrip s = s.
Proof.
  induction s as [|c s IH]; simpl; [done|].
  intros [Hc Hs]%andb_true_iff. rewrite (IH Hs).
  apply negb_true_iff in Hc. by rewrite Hc, andb_false_r.
Qed.

Lemma strip_solid (s : string) :
  all_chars (fun c => negb (is_space c)) s = true -> strip s = s.
Proof.
  intros H. unfold strip.
  assert (lstrip s = s) as ->.
  { destruct s as [|c s]; [done|]. simpl in *.
    apply andb_true_iff in H as [Hc _]. apply negb_true_iff in Hc. by rewrite Hc. }
  by apply rstrip_solid.
Qed.

Lemma digit_facts (c : ascii) :
  is_digit c = true ->
  is_space c = false /\ Ascii.eqb c "_" = false /\ c <> "-"%char /\ c <> "+"%char.
Proof.
  unfold is_digit, is_space. intros H.
  apply andb_true_iff in H as [H1 H2].
  apply Nat.leb_le in H1, H2.
  split_and!.
  - apply orb_false_iff. split; apply andb_false_iff.
    + right. apply Nat.leb_gt. lia.
    + right. apply Nat.leb_gt. lia.
  - apply Ascii.eqb_neq. intros ->. vm_compute in H2. lia.
  - intros ->. vm_compute in H1. lia.
  - intros ->. vm_compute in H1. lia.
Qed.

Lemma int_of_digits (s : string) :
  all_chars is_digit s = true -> s <> "" ->
  int_of_string s = inr (horner 0 s) /\
  int_of_string ("-" ++ s) = inr (- horner 0 s).
Proof.
  intros Hd Hne.
  assert (Hsolid : all_chars (fun c => negb (is_space c)) s = true).
  { eapply all_chars_impl; [|exact Hd]. intros c Hc.
    by destruct (digit_facts c Hc) as (-> & _). }
  split.
  - unfold int_of_string. rewrite (strip_solid s Hsolid).
    destruct s as [|c t]; [done|].
    assert (Hc : is_digit c = true) by (simpl in Hd; by apply andb_true_iff in Hd as [? _]).
    destruct (digit_facts c Hc) as (_ & _ & Hm & Hp).
    rewrite (digits_val_horner 0 false (String c t) Hd Hne).
    destruct c as [[] [] [] [] [] [] [] []]; try reflexivity; done.
  - unfold int_of_string. rewrite append_cons, append_empty.
    rewrite (strip_solid (String "-" s)) by (simpl; exact Hsolid).
    simpl. by rewrite (digits_val_horner 0 false s Hd Hne).
Qed.

Lemma pretty_Z_chars (z : Z) :
  all_chars (fun c => negb (Ascii.eqb c "_")) (str_of_int z) = true.
Proof.
  assert (Hdig : forall s, all_chars is_digit s = true ->
                 all_chars (fun c => negb (Ascii.eqb c "_")) s = true).
  { intros s. apply all_chars_impl. intros c Hc.
    by destruct (digit_facts c Hc) as (_ & -> & _). }
  unfold str_of_int, pretty, pretty_Z.
  destruct z as [|p|p]; [done| |].
  - unfold pretty, pretty_positive, pretty, pretty_N. simpl.
    apply Hdig. apply (pretty_N_go_digits (N.pos p)).
  - unfold pretty, pretty_positive, pretty, pretty_N. simpl.
    apply Hdig. apply (pretty_N_go_digits (N.pos p)).
Qed.

Lemma int_of_str_of_int (z : Z) : int_of_string (str_of_int z) = inr z.
Proof.
  unfold str_of_int, pretty, pretty_Z.
  destruct z as [|p|p]; [done| |].
  - unfold pretty, pretty_positive, pretty, pretty_N. simpl.
    destruct (pretty_N_go_digits (N.pos p)) as (H1 & H2 & H3).
    destruct (int_of_digits _ H1 (H3 eq_refl)) as [-> _]. by rewrite H2.
  - unfold pretty, pretty_positive, pretty, pretty_N. simpl.
    destruct (pretty_N_go_digits (N.pos p)) as (H1 & H2 & H3).
    destruct (int_of_digits _ H1 (H3 eq_refl)) as [_ H].
    rewrite H, H2. reflexivity.
Qed.

Lemma split_head (sep : ascii) (s t : string) :
  all_chars (fun c => negb (Ascii.eqb c sep)) s = true ->
  split sep (s ++ String sep t) = s :: split sep t.
Proof.
  induction s as [|c s IH].
  - intros _. rewrite append_empty. simpl. by rewrite Ascii.eqb_refl.
  - intros [Hc Hs]%andb_true_iff. apply negb_true_iff in Hc.
    rewrite append_cons. simpl. rewrite Hc, (IH Hs). reflexivity.
Qed.

Lemma backup_index_name (month : string) (n : Z) :
  In month month_list -> backup_index (backup_name month n) = inr n.
Proof.
  intros Hm. unfold backup_index, backup_name.
  assert (Hmonth : all_chars (fun c => negb (Ascii.eqb c "_")) month = true).
  { unfold month_list in Hm. simpl in Hm.
    repeat (destruct Hm as [<-|Hm]; [by vm_compute|]). done. }
  change (month ++ "_" ++ str_of_int n ++ "_comp_23_25.json")
    with (month ++ String "_" (str_of_int n ++ String "_" "comp_23_25.json")).
  rewrite (split_head "_" month _ Hmonth).
  rewrite (split_head "_" (str_of_int n) _ (pretty_Z_chars n)).
  simpl. apply int_of_str_of_int.
Qed.

(** ** Resuming from a checkpoint *)

Lemma max_index_spec (first : Z) (others : list Z) :
  In (max_index first others) (first :: others) /\
  forall n, In n (first :: others) -> n <= max_index first others.
Proof.
  unfold max_index. revert first. induction others as [|x l IH]; intros first; simpl.
  - split; [by left|]. intros n [->|[]]. lia.
  - destruct (IH (Z.max first x)) as [Hin Hub]. split.
    + destruct Hin as [Hin|Hin]; [|by right; right].
      rewrite <- Hin. destruct (Z.max_spec first x) as [[_ ->]|[_ ->]]; auto.
    + intros n Hn. 
      assert (Hm : Z.max first x <= fold_left Z.max l (Z.max first x))
        by (apply Hub; by left).
      destruct Hn as [->|[->|Hn]]; [lia|lia|]. apply Hub. by right.
Qed.

Lemma backup_indices_names (month : string) (counts : list Z) :
  In month month_list ->
  backup_indices (map (backup_name month) counts) = counts.
Proof.
  intros Hm. unfold backup_indices. induction counts as [|n l IH]; [reflexivity|].
  simpl. rewrite (backup_index_name month n Hm). simpl. f_equal. exact IH.
Qed.

Section Resume.
Context `{JL : JsonLib} `{OUT : Outside}.

(** Claim C5 (resume correctness). When the files of the year directory
    that the resume pattern matches are the checkpoints of the month at the
    counts [counts], [resume_backup] returns the largest count as the
    starting offset together with the record list of the checkpoint at that
    count, which has as many entries as the count says; without any
    checkpoint it returns offset zero and the empty list. The world is not
    changed. *)
Theorem resume_correctness (year_dir : list string) (month : string)
  (counts : list Z) (w : world) :
  In month month_list ->
  backup_files_in w year_dir month ≡ₚ map (backup_name month) counts ->
  (forall n, In n counts -> exists l, checkpoint_at w year_dir month n l) ->
  match counts with
  | [] => resume_backup year_dir month w = (inr (0, VList []), w)
  | _ :: _ =>
      exists m l,
        resume_backup year_dir month w = (inr (m, VList l), w) /\
        In m counts /\ (forall n, In n counts -> n <= m) /\
        checkpoint_at w year_dir month m l
  end.
Proof.
  intros Hm Hperm Hcp. unfold resume_backup. unfold_eff.
  fold (backup_files_in w year_dir month).
  assert (Hidx : backup_indices (backup_files_in w year_dir month) ≡ₚ counts).
  { unfold backup_indices. rewrite Hperm. fold (backup_indices (map (backup_name month) counts)).
    by rewrite backup_indices_names. }
  destruct counts as [|c cs].
  - apply Permutation_nil_r in Hidx. by rewrite Hidx.
  - destruct (backup_indices (backup_files_in w year_dir month)) as [|first others] eqn:E.
    { symmetry in Hidx. by apply Permutation_nil_r in Hidx. }
    destruct (max_index_spec first others) as [Hin Hub].
    set (m := max_index first others) in *.
    assert (Hmc : In m (c :: cs)).
    { apply list_elem_of_In. rewrite <- Hidx. by apply list_elem_of_In. }
    destruct (Hcp m Hmc) as (l & t & Hr & Hl & Hlen).
    exists m, l. unfold lift_py, lift. rewrite Hr. simpl. rewrite Hl.
    split_and!; [reflexivity|exact Hmc| |by exists t].
    intros n Hn. apply Hub. apply list_elem_of_In. rewrite Hidx. by apply list_elem_of_In.
Qed.

End Resume.

(** ** The harvester: bucket skip, rotation and retry exhaustion *)

Section HarvesterTheorems.
Context `{JL : JsonLib} `{OUT : Outside}.

Lemma after_rate_limits_trace mk (n : nat) (w : world) :
  exists new, trace (after_rate_limits mk n w) = (trace w ++ new)%list /\
              Forall (retry_event mk) new.
Proof.
  revert w. induction n as [|n IH]; intros w; cbn [after_rate_limits].
  - exists []. by rewrite app_nil_r.
  - destruct (nth_error (API_KEYS w) (current_api_key_index w)) as [key|].
    + destruct (IH (rotated (mk key) (polled w))) as (new & Hn & HF).
      exists (EvRequest (mk key) :: EvSleep 2 :: new). split.
      * rewrite Hn. simpl. by rewrite <- !app_assoc.
      * repeat constructor; [by exists key|done].
    + exists []. by rewrite app_nil_r.
Qed.


(** Claim C7, as amended (rate limits on page requests). In the patch
    harvester every page request answered by a 429 moves the key pointer on
    by one modulo the pool size and the loop asks for the same page again:
    after any number of such replies in a row, with no pause asked for, the
    loop is still running in the same state, the pointer has advanced by
    that number modulo the pool size, and all requests sent were for the
    same offset; there is no retry budget. In the main harvester a page
    reply with a status other than 200, a 429 included, ends the pagination
    of the month after that one request, and the pointer stays. *)
Theorem rate_limit_rotation (n fuel : nat) (query : string)
  (year_dir : list string) (month : string) (start : Z) (articles : pyval)
  (total_processed : Z) (key : option string) (json_data : pyval) (w : world) :
  (rate_limited (patch_page_request query start) (S n) w = true ->
   let w' := after_rate_limits (patch_page_request query start) (S n) w in
   ScopusPatch.page_loop (S n + fuel) query year_dir month (start, articles) w
   = ScopusPatch.page_loop fuel query year_dir month (start, articles) w' /\
   API_KEYS w' = API_KEYS w /\
   current_api_key_index w'
   = ((current_api_key_index w + S n) mod length (API_KEYS w))%nat /\
   requests_made w' = (requests_made w + S n)%nat /\
   fs w' = fs w /\
   exists new, trace w' = (trace w ++ new)%list /\
               Forall (retry_event (patch_page_request query start)) new) /\
  (start < 5000 ->
   no_pause_signal (stdin_poll (polls_made w)) = true ->
   nth_error (API_KEYS w) (current_api_key_index w) = Some key ->
   status_code (respond (requests_made w) (page_request query start key)) <> 200 ->
   json_body (respond (requests_made w) (page_request query start key))
   = Some json_data ->
   Scopus.page_loop (S fuel) query year_dir month
     (start, total_processed, articles) w
   = (inr (start, total_processed, articles),
      sent (page_request query start key) (polled w))).
Proof.
  split.
  - intros H. cbv zeta.
    destruct (after_rate_limits_state _ _ _ H) as (H1 & H2 & H3 & _ & H5).
    split_and!; try done.
    + by apply patch_page_loop_rate_limited.
    + apply after_rate_limits_trace.
  - intros. by eapply main_page_not_200.
Qed.

(** Claim C8, as amended (retry exhaustion stays local). Each fetch sends
    at most [retries] requests. When every attempt is answered by a reply
    that is tried again, [fetch_metadata] returns [None], [fetch_abstract]
    the sentinel "N/A" and [fetch_citations] an empty citation list, none
    of them raising. A record whose metadata is [None] is skipped by both
    harvesters, and the loop over the entries goes on with the next entry.
    A record whose abstract call, or citation call, ran out of attempts is
    kept by the main harvester, with "N/A" as its abstract and an empty
    citation list. *)
Theorem retry_exhaustion_is_local (scopus_id : string) (count : Z)
  (retries : nat) (year_dir : list string) (month : string)
  (entry : pyval) (rest : list pyval) (st : Z * pyval) (articles : pyval)
  (d : list (string * pyval)) (c total_processed : Z) (l : list pyval)
  (w w1 : world) :
  let meta := abstract_request scopus_id in
  let cites := citations_request scopus_id 200 in
  ((requests_made (snd (fetch_metadata scopus_id retries w))
    <= requests_made w + retries)%nat /\
   (requests_made (snd (fetch_abstract scopus_id retries w))
    <= requests_made w + retries)%nat /\
   (requests_made (snd (fetch_citations scopus_id count retries w))
    <= requests_made w + retries)%nat) /\
  (all_retried "abstracts-retrieval-response" meta retries w = true ->
   fetch_metadata scopus_id retries w
   = (inr VNone, after_retries meta retries w) /\
   fetch_abstract scopus_id retries w
   = (inr (VStr "N/A"), after_retries meta retries w)) /\
  (all_retried "search-results" (citations_request scopus_id count) retries w
   = true ->
   fetch_citations scopus_id count retries w
   = (inr (VDict [("citations", VList [])]),
      after_retries (citations_request scopus_id count) retries w)) /\
  (entry_scopus_id entry = inr scopus_id ->
   all_retried "abstracts-retrieval-response" meta 3 w = true ->
   Scopus.process_entry year_dir month entry st w
   = (inr st, after_retries meta 3 w) /\
   for_each (Scopus.process_entry year_dir month) (entry :: rest) st w
   = for_each (Scopus.process_entry year_dir month) rest st
       (after_retries meta 3 w) /\
   (scopus_id <> "" ->
    ScopusPatch.process_entry year_dir month entry articles w
    = (inr articles, after_retries meta 3 w) /\
    for_each (ScopusPatch.process_entry year_dir month) (entry :: rest)
      articles w
    = for_each (ScopusPatch.process_entry year_dir month) rest articles
        (after_retries meta 3 w))) /\
  (entry_scopus_id entry = inr scopus_id ->
   fetch_metadata scopus_id 3 w = (inr (VDict d), w1) ->
   d <> [] ->
   all_retried "abstracts-retrieval-response" meta 3 w1 = true ->
   dict_find "Cited_By_Count" d = Some (VInt c) ->
   (Z.ltb 0 c = true ->
    all_retried "search-results" cites 3 (after_retries meta 3 w1) = true) ->
   (total_processed + 1) mod BACKUP_INTERVAL <> 0 ->
   Scopus.process_entry year_dir month entry (total_processed, VList l) w
   = (inr (total_processed + 1,
           VList (l ++ [VDict (dict_set "Citations" (VList [])
                                 (dict_set "Abstract" (VStr "N/A") d))])%list),
      if Z.ltb 0 c then after_retries cites 3 (after_retries meta 3 w1)
      else after_retries meta 3 w1)).
Proof.
  cbv zeta. split_and!.
  - apply (fetch_bounded _ _ _ _ _ retries w).
  - apply (fetch_bounded _ _ _ _ _ retries w).
  - apply (fetch_bounded _ _ _ _ _ retries w).
  - intros H. split; by apply fetch_exhausted.
  - intros H. by apply fetch_exhausted.
  - intros He H.
    assert (Hf : fetch_metadata scopus_id 3 w
                 = (inr VNone, after_retries (abstract_request scopus_id) 3 w))
      by (by apply fetch_exhausted).
    assert (Hm : Scopus.process_entry year_dir month entry st w
                 = (inr st, after_retries (abstract_request scopus_id) 3 w))
      by (by eapply process_entry_skips).
    split_and!.
    + exact Hm.
    + cbn [for_each]. unfold mbind, M_bind. by rewrite Hm.
    + intros Hne.
      assert (Hp : ScopusPatch.process_entry year_dir month entry articles w
                   = (inr articles, after_retries (abstract_request scopus_id) 3 w))
        by (by eapply patch_process_entry_skips).
      split; [exact Hp|]. cbn [for_each]. unfold mbind, M_bind. by rewrite Hp.
  - intros He Hm Hd Ha Hc Hcit Hmod.
    eapply process_entry_appends; eauto.
    + by apply fetch_exhausted.
    + destruct (Z.ltb 0 c); [|done]. apply fetch_exhausted. by apply Hcit.
Qed.

End HarvesterTheorems.

Import Examples.

(** ** The annotator on three records *)

(** The three records of April 2021: the run succeeds and the destination
    holds the merged document. *)
Lemma merge_correctness_witness :
  (exists t loaded processed_items scores_dict data w2,
     merged_run april_in april_world t loaded processed_items scores_dict data w2 /\
     Binoculars.fs april_done !! april_out = Some (File (json_dump data 4 false)) /\
     match loaded with
     | VList articles =>
         exists articles', data = VList articles' /\
           Forall2 (merged_record scores_dict) articles articles'
     | _ => data = loaded
     end /\
     (exists records, ijson_items t = (map VDict records, true) /\
        processed_items = computed_annotations records (Binoculars.bino april_world)) /\
     (forall k, assoc_get key_eqb k scores_dict = last_with_key k processed_items)) /\
  computed_annotations [scored_record; empty_record; fresh_record]
    (Binoculars.bino april_world)
  = [ {| Scopus_ID := VStr "3"; Binoculars_Score := one;
         Accuracy_Prediction := 0; FPR_Prediction := 0 |} ] /\
  Binoculars.fs april_done !! april_out
  = Some (File (VList
      [ VDict scored_record; VDict empty_record;
        VDict [ ("Scopus_ID", VStr "3"); ("Title", VStr "Third");
                ("Abstract", VStr "third text");
                ("Binoculars_Score", VFloat one);
                ("Accuracy_Prediction", VInt 0); ("FPR_Prediction", VInt 0) ] ])).
Proof.
  split; [|split; vm_compute; reflexivity].
  apply (merge_correctness april_in april_out april_world april_done).
  vm_compute. reflexivity.
Defined.

(** The scored record and the record with an empty text are skipped; the
    third record's text is the one call of the scorer. *)
Lemma annotator_skip_rule_witness :
  score_article (VDict scored_record) [] april_world = (inr [], april_world) /\
  score_article (VDict empty_record) [] april_world = (inr [], april_world) /\
  Binoculars.trace (snd (score_article (VDict fresh_record) [] april_world))
  = [EvScore (VStr "third text")].
Proof.
  split; [|split].
  - apply (proj1 (annotator_skip_rule scored_record [] april_world [])).
    left. exists (VFloat half). split; [reflexivity|discriminate].
  - apply (proj1 (annotator_skip_rule empty_record [] april_world [])).
    right. right. left. reflexivity.
  - apply (proj1 (proj2 (proj2 (annotator_skip_rule fresh_record [] april_world [])))).
    reflexivity.
Defined.

(** 0.5 lies below both thresholds and 1.0 above them. *)
Lemma threshold_classification_witness :
  (accuracy_prediction half = 1 /\ accuracy_prediction one = 0 /\
   accuracy_prediction half <> accuracy_prediction one) /\
  (fpr_prediction half = 1 /\ fpr_prediction one = 0 /\
   fpr_prediction half <> fpr_prediction one) /\
  Forall thresholded
    [ {| Scopus_ID := VStr "3"; Binoculars_Score := one;
         Accuracy_Prediction := 0; FPR_Prediction := 0 |} ].
Proof.
  destruct (threshold_classification half one april_in april_world
              (snd (first_pass april_in april_world))
              [ {| Scopus_ID := VStr "3"; Binoculars_Score := one;
                   Accuracy_Prediction := 0; FPR_Prediction := 0 |} ])
    as (H1 & H2 & H3).
  - vm_compute. reflexivity.
  - split; [apply H1; reflexivity|].
    split; [apply H2; reflexivity|exact H3].
Defined.

(** A document whose only record is scored: failure, and the file system
    is untouched. *)
Lemma no_new_scores_no_write_witness :
  process_file_streaming april_in april_out scored_world
  = (inr false, logged [EvGetSize april_in; EvOpenStream april_in] scored_world) /\
  Binoculars.fs (logged [EvGetSize april_in; EvOpenStream april_in] scored_world)
  = Binoculars.fs scored_world.
Proof.
  destruct (no_new_scores_no_write april_in april_out scored_world
              (logged [EvGetSize april_in] scored_world)
              (logged [EvGetSize april_in; EvOpenStream april_in] scored_world)
              (VList [VDict scored_record]) [VDict scored_record]) as [H1 H2].
  destruct H1 as (Hp & Hfs & _); [vm_compute; reflexivity|vm_compute; reflexivity|].
  split; [|exact Hfs].
  apply H2; [vm_compute; reflexivity|reflexivity|].
  constructor; [|constructor]. exists scored_record. split; [reflexivity|].
  exists (VFloat half). split; [reflexivity|discriminate].
Defined.

(** ** The harvester and the patch scripts on small runs *)

(** Checkpoints of May at counts 500 and 1000: the resume starts from 1000
    with a list of 1000 records. *)
Lemma resume_correctness_witness :
  exists l, resume_backup year_2023 "MAY" resume_world
            = (inr (1000, VList l), resume_world) /\
            length l = 1000%nat.
Proof.
  destruct (resume_correctness year_2023 "MAY" [500; 1000] resume_world)
    as (m & l & Hr & Hin & Hmax & Hcp).
  - vm_compute. tauto.
  - vm_compute. reflexivity.
  - intros n [<-|[<-|[]]]; eexists; eexists; (split; [|split]);
      vm_compute; reflexivity.
  - assert (m = 1000) as ->.
    { specialize (Hmax 1000). simpl in Hin, Hmax.
      destruct Hin as [<-|[<-|[]]]; [|reflexivity]. lia. }
    exists l. split; [exact Hr|].
    destruct Hcp as (t & _ & _ & Hlen). lia.
Defined.



(** Two 429 replies to the patch harvester with three keys: the pointer is
    on the third key and the loop still asks for offset 0; one 429 reply to
    the main harvester: the loop is over. *)
Lemma rate_limit_rotation_witness :
  (ScopusPatch.page_loop (OUT:=limited_twice) 5 "q" year_2023 "MAY" (0, VList [])
     finished_world
   = ScopusPatch.page_loop (OUT:=limited_twice) 3 "q" year_2023 "MAY" (0, VList [])
       (after_rate_limits (patch_page_request "q" 0) 2
          finished_world) /\
   current_api_key_index
     (after_rate_limits (patch_page_request "q" 0) 2
        finished_world) = 2%nat) /\
  Scopus.page_loop (OUT:=limited) 4 "q" year_2023 "MAY" (0, 0, VList [])
    finished_world
  = (inr (0, 0, VList []),
     sent (page_request "q" 0 (Some "k1")) (polled finished_world)).
Proof.
  destruct (rate_limit_rotation (OUT:=limited_twice) 1 3 "q" year_2023 "MAY" 0
              (VList []) 0 (Some "k1") (VDict []) finished_world) as [H1 _].
  destruct (rate_limit_rotation (OUT:=limited) 1 3 "q" year_2023 "MAY" 0
              (VList []) 0 (Some "k1") (VDict []) finished_world) as [_ H2].
  destruct H1 as (Hl & _ & Hi & _); [vm_compute; reflexivity|].
  split; [split; [exact Hl|exact Hi]|].
  apply H2; [lia|reflexivity|reflexivity|vm_compute; discriminate|reflexivity].
Defined.

(** C7, counterexample: a 429 on the first page request of the main
    harvester ends the month: one request, the pointer where it was, and
    the final output written with what was collected. *)
Lemma main_stops_on_rate_limit :
  fst (collect_month (OUT:=limited) 5 (2023, 1) finished_world) = inr tt /\
  requests_made (snd (collect_month (OUT:=limited) 5 (2023, 1) finished_world))
  = 1%nat /\
  current_api_key_index
    (snd (collect_month (OUT:=limited) 5 (2023, 1) finished_world)) = 0%nat /\
  Scopus.fs (snd (collect_month (OUT:=limited) 5 (2023, 1) finished_world))
    !! (year_2023 ++ ["JANUARY_comp_23_25.json"])%list
  = Some (File (VList [] : @file_text plain_json)).
Proof. vm_compute. repeat split. Qed.

(** A service that answers every request with a 429: no metadata for
    record 42, which is skipped. *)
Lemma retry_exhaustion_is_local_witness :
  fetch_metadata (OUT:=limited) "42" 3 finished_world
  = (inr VNone, after_retries (abstract_request "42") 3 finished_world) /\
  Scopus.process_entry (OUT:=limited) year_2023 "MAY" entry_42 (0, VList [])
    finished_world
  = (inr (0, VList []), after_retries (abstract_request "42") 3 finished_world) /\
  (requests_made (snd (fetch_citations (OUT:=limited) "42" 200 3 finished_world))
   <= 0 + 3)%nat.
Proof.
  destruct (retry_exhaustion_is_local (OUT:=limited) "42" 200 3 year_2023 "MAY"
              entry_42 [] (0, VList []) (VList []) [] 0 0 [] finished_world
              finished_world) as (Hb & Hm & _ & Hs & _).
  split; [apply Hm; reflexivity|].
  split; [apply Hs; reflexivity|]. apply Hb.
Defined.

(** C8, counterexample: the abstract call of record 42 runs out of
    attempts, and the record is kept, with the sentinel as its abstract. *)
Lemma failed_abstract_record_is_kept :
  fst (Scopus.process_entry (OUT:=abstract_fails) year_2023 "MAY" entry_42
         (0, VList []) finished_world)
  = inr (1, VList [VDict [ ("Scopus_ID", VStr "42"); ("Title", VStr "A title");
                           ("Abstract", VStr "N/A"); ("Authors", VList []);
                           ("Affiliation_Name", VStr "N/A");
                           ("Affiliation_Country", VStr "N/A");
                           ("Publication_Date", VStr "N/A");
                           ("DOI", VStr "N/A"); ("Keywords", VStr "N/A");
                           ("Cited_By_Count", VInt 0); ("Source", VStr "N/A");
                           ("Citations", VList []) ]]) /\
  fetch_abstract (OUT:=abstract_fails) "42" 3
    (snd (fetch_metadata (OUT:=abstract_fails) "42" 3 finished_world))
  = (inr (VStr "N/A"),
     after_retries (abstract_request "42") 3
       (snd (fetch_metadata (OUT:=abstract_fails) "42" 3 finished_world))).
Proof. vm_compute. repeat split. Qed.

(** The main annotator on April 2021 and the patch annotator on May 2023. *)
Lemma annotator_write_location_witness :
  (exists t loaded processed_items scores_dict data w2,
     merged_run april_in april_world t loaded processed_items scores_dict data w2 /\
     Binoculars.fs april_done !! april_out = Some (File (json_dump data 4 false)) /\
     stat (Binoculars.fs april_done) (parent april_out) = Some Dir) /\
  Binoculars.fs april_done !! april_in = Binoculars.fs april_world !! april_in /\
  (exists t loaded processed_items scores_dict data w2,
     merged_run may_in may_world t loaded processed_items scores_dict data w2 /\
     Binoculars.fs may_patched !! BinocularsPatch.patched_filename may_in
     = Some (File (json_dump data 4 false))).
Proof.
  destruct (annotator_write_location april_in april_out april_world)
    as (H1 & _ & _ & H4 & _).
  destruct (annotator_write_location may_in may_out may_world)
    as (_ & _ & _ & _ & H5 & _).
  split; [apply H1; vm_compute; reflexivity|].
  split; [apply H4; discriminate|].
  apply H5. vm_compute. reflexivity.
Defined.

(** C9, counterexample: the patch annotator returns success, and there is
    nothing at the destination it was given, nor a directory for it; the
    merged document is in the working directory. *)
Lemma patch_ignores_destination :
  fst (BinocularsPatch.process_file_streaming may_in may_out may_world) = inr true /\
  Binoculars.fs may_patched !! may_out = None /\
  exists_ (Binoculars.fs may_patched) (parent may_out) = false /\
  Binoculars.fs may_patched !! ["MAY_comp_2023_patched.json"]
  = Some (File (VList [ VDict scored_record; VDict empty_record;
                        VDict (set_scores
                                 {| Scopus_ID := VStr "3"; Binoculars_Score := one;
                                    Accuracy_Prediction := 0;
                                    FPR_Prediction := 0 |} fresh_record) ]
                : @file_text plain_json)).
Proof. vm_compute. repeat split. Qed.

(** Two annotations for identifier "7", with scores 0.5 and 1.0: the
    lookup holds the second, both records "7" get its score 1.0 and its
    predictions 0 and 0, the record without identifier is untouched, and
    scoring it stores its annotation under the empty string. *)
Lemma merge_identifier_semantics_witness :
  build_scores_dict [seven_first; seven_last] [] = inr [(VStr "7", seven_last)] /\
  merge_scores [(VStr "7", seven_last)] (VList sevens) = inr (VList sevens_written) /\
  assoc_get key_eqb (VStr "7") [(VStr "7", seven_last)] = Some seven_last /\
  (exists d', sevens_written !! 0%nat = Some (VDict d') /\
     dict_find "Binoculars_Score" d' = Some (VFloat one) /\
     dict_find "Accuracy_Prediction" d' = Some (VInt 0) /\
     dict_find "FPR_Prediction" d' = Some (VInt 0) /\
     dict_find "Abstract" d' = Some (VStr "a")) /\
  (exists d', sevens_written !! 2%nat = Some (VDict d') /\
     dict_find "Binoculars_Score" d' = Some (VFloat one) /\
     dict_find "Accuracy_Prediction" d' = Some (VInt 0) /\
     dict_find "FPR_Prediction" d' = Some (VInt 0) /\
     dict_find "Abstract" d' = Some (VStr "b")) /\
  sevens_written !! 1%nat = Some (VDict nameless) /\
  exists item,
    fst (score_article (VDict nameless) [] april_world) = inr [item] /\
    Scopus_ID item = VStr "" /\ Binoculars_Score item = one.
Proof.
  destruct (merge_identifier_semantics (JL:=plain_json) (SC:=counting_scorer)
              [seven_first; seven_last] [(VStr "7", seven_last)] sevens
              sevens_written nameless [] april_world one)
    as (H1 & H2 & H3 & H4 & H5); try reflexivity.
  split_and!; [reflexivity|reflexivity|by rewrite H1| | |
               exact (H5 1%nat nameless eq_refl eq_refl)|exact H3].
  - destruct (H2 0%nat _ (VStr "7") seven_last eq_refl eq_refl eq_refl)
      as (d' & Hd' & _ & Hs & Ha & Hf & Hk).
    exists d'. split_and!; try done. by rewrite Hk.
  - destruct (H2 2%nat _ (VStr "7") seven_last eq_refl eq_refl eq_refl)
      as (d' & Hd' & _ & Hs & Ha & Hf & Hk).
    exists d'. split_and!; try done. by rewrite Hk.
Defined.

(** * Further properties of the annotator *)

Section MakedirsFiles.
Import Binoculars AnnotSpec AnnotMore.
Context {T : Type}.


End MakedirsFiles.

Section AnnotatorMore.
Import Binoculars AnnotSpec AnnotMore.
Context `{JL : JsonLib} `{SC : Scorer}.

Lemma reload_and_merge_fs (input_file : path) processed (w1 : world) :
  fs (snd (reload_and_merge input_file processed w1)) = fs w1.
Proof.
  unfold reload_and_merge, json_load_file, log. unfold_eff. simpl.
  destruct (read_file (fs w1) input_file); simpl; [reflexivity|].
  destruct (json_load _); simpl; [|reflexivity].
  destruct (build_scores_dict processed []); simpl; reflexivity.
Qed.


(** What the first pass returns, given the stream. *)
Lemma first_pass_run (input_file : path) (w0 : world) t items complete :
  read_file (fs w0) input_file = inr t ->
  ijson_items t = (items, complete) ->
  first_pass input_file w0 =
  match for_each score_article items [] (logged [EvOpenStream input_file] w0) with
  | (inl e, w1) => (inl e, w1)
  | (inr processed, w1) =>
      if complete then (inr processed, w1) else (inl JSONDecodeError, w1)
  end.
Proof.
  intros Hr Hi. unfold first_pass, open_stream, log. unfold_eff. simpl.
  rewrite Hr. simpl. rewrite Hi. fold (logged [EvOpenStream input_file] w0).
  destruct (for_each score_article items [] _) as [[e|p] w1]; [reflexivity|].
  destruct complete; reflexivity.
Qed.

Lemma logged_logged (a b : list event) (w : world) :
  logged b (logged a w) = logged (a ++ b) w.
Proof. unfold logged. simpl. by rewrite <- app_assoc. Qed.

(** A run whose first pass raises returns [False] in the world the pass
    left. *)
Lemma process_first_pass_raises (input_file output_file : path) (w w1 : world) e :
  exists_ (fs w) input_file = true ->
  first_pass input_file (logged [EvGetSize input_file] w) = (inl e, w1) ->
  process_file_streaming input_file output_file w = (inr false, w1).
Proof.
  intros Hex Hf. unfold process_file_streaming, try_except.
  unfold mbind at 1. unfold M_bind at 1.
  destruct (getsize input_file w) as [r w0] eqn:Eg.
  apply getsize_inv in Eg as [-> ->]. rewrite Hex.
  unfold mbind at 1. unfold M_bind at 1. rewrite Hf. reflexivity.
Qed.

(** A run whose merge raises returns [False] after the reload. *)
Lemma process_merge_raises (input_file output_file : path) (w w1 w2 : world)
  processed e :
  exists_ (fs w) input_file = true ->
  first_pass input_file (logged [EvGetSize input_file] w) = (inr processed, w1) ->
  processed <> [] ->
  reload_and_merge input_file processed w1 = (inl e, w2) ->
  process_file_streaming input_file output_file w = (inr false, w2).
Proof.
  intros Hex Hf Hne Hr. unfold process_file_streaming, try_except.
  unfold mbind at 1. unfold M_bind at 1.
  destruct (getsize input_file w) as [r w0] eqn:Eg.
  apply getsize_inv in Eg as [-> ->]. rewrite Hex.
  unfold mbind at 1. unfold M_bind at 1. rewrite Hf.
  destruct processed as [|item processed]; [done|].
  unfold mbind at 1. unfold M_bind at 1. rewrite Hr. reflexivity.
Qed.

(** Extra X2: an exception of the scorer on one record does not stop the
    stream: the record gets no annotation and the pass goes on with the
    next record, in the world the failed call left. *)
Theorem scorer_failure_skips_record (d : list (string * pyval))
  (rest : list pyval) (processed : list processed_item) (w : world) :
  passes_checks d = true ->
  fst (compute_score (bino w) (abstract_of d)) = None ->
  for_each score_article (VDict d :: rest) processed w =
  for_each score_article rest processed
    {| fs := fs w; bino := snd (compute_score (bino w) (abstract_of d));
       trace := (trace w ++ [EvScore (abstract_of d)])%list |}.
Proof.
  intros Hp Hs. cbn [for_each]. unfold mbind, M_bind.
  rewrite (score_article_call d processed w Hp). cbv zeta. rewrite Hs. reflexivity.
Qed.

Lemma for_each_non_dict (items : list pyval) processed (w : world) :
  Exists (fun a => is_dict a = false) items ->
  exists e w1, for_each score_article items processed w = (inl e, w1).
Proof.
  intros H. revert processed w.
  induction H as [a items Ha|a items _ IH]; intros processed w; cbn [for_each];
    unfold mbind, M_bind.
  - destruct a; try discriminate; raising_item; simpl; eauto.
  - destruct (score_article a processed w) as [[e|p] w1]; [eauto|]. apply IH.
Qed.

(** Extra X3: a stream that holds an item that is not an object, or that
    breaks off, makes the run return [False] without any change to the
    file system, after the scorer has been called on every eligible record
    that comes before the bad item: those scores are dropped. *)
Theorem malformed_stream_aborts_without_write (input_file output_file : path)
  (w : world) (t : file_text) (items : list pyval) (complete : bool) :
  read_file (fs w) input_file = inr t ->
  ijson_items t = (items, complete) ->
  complete = false \/ Exists (fun a => is_dict a = false) items ->
  exists w',
    process_file_streaming input_file output_file w = (inr false, w') /\
    fs w' = fs w /\
    scorer_inputs (trace w') =
    (scorer_inputs (trace w) ++
     map abstract_of (filter (fun d => passes_checks d = true)
                             (leading_records items)))%list.
Proof.
  intros Hr Hi Hbad.
  pose proof (read_file_exists _ _ _ Hr) as (Hex & _ & _).
  pose proof (first_pass_run input_file (logged [EvGetSize input_file] w) t items
                complete Hr Hi) as Hf.
  pose proof (for_each_fs items []
                (logged [EvOpenStream input_file] (logged [EvGetSize input_file] w))) as Hfs.
  pose proof (first_pass_loop_inputs items []
                (logged [EvOpenStream input_file] (logged [EvGetSize input_file] w))) as Hin.
  assert (Hraise : exists e w1,
             first_pass input_file (logged [EvGetSize input_file] w) = (inl e, w1) /\
             w1 = snd (for_each score_article items []
                         (logged [EvOpenStream input_file]
                            (logged [EvGetSize input_file] w)))).
  { destruct (for_each score_article items [] _) as [[e|p] w1] eqn:E.
    - exists e, w1. done.
    - destruct Hbad as [->|Hbad].
      + exists JSONDecodeError, w1. done.
      + apply (for_each_non_dict items []
                 (logged [EvOpenStream input_file] (logged [EvGetSize input_file] w)))
          in Hbad as (e & w2 & Hbad). rewrite E in Hbad. discriminate. }
  destruct Hraise as (e & w1 & Hf' & ->).
  eexists. split; [exact (process_first_pass_raises _ output_file _ _ _ Hex Hf')|].
  split; [exact Hfs|]. rewrite Hin. simpl. rewrite !scorer_inputs_app. simpl.
  by rewrite !app_nil_r.
Qed.

Lemma last_with_key_some k (l : list processed_item) item :
  In item l -> key_eqb k (Scopus_ID item) = true ->
  exists item', last_with_key k l = Some item'.
Proof.
  induction l as [|x l IH]; [intros []|]. intros [->|Hin] Hk; simpl.
  - destruct (last_with_key k l); [eauto|]. rewrite Hk. eauto.
  - destruct (IH Hin Hk) as (item' & ->). eauto.
Qed.

(** Extra X4: the score that the first pass computes for a streamed record
    reaches the records of the reloaded document through the identifier
    alone. A reloaded record whose identifier equals, as Python's [==] has
    it, the identifier stored for the streamed record comes out of the
    merge with a non-null score, and a record with these fields fails the
    checks of the first pass and is skipped by it. A reloaded record whose
    identifier equals none of the stored identifiers comes out as it was
    reloaded, without a score: so does the streamed record itself when the
    second parser reads its identifier as an unequal value. *)
Theorem score_reaches_an_equal_identifier (d : list (string * pyval))
  (score : spec_float) (processed0 : list processed_item) (w : world) :
  passes_checks d = true ->
  fst (compute_score (bino w) (abstract_of d)) = Some score ->
  exists item,
    fst (score_article (VDict d) processed0 w) = inr (processed0 ++ [item])%list /\
    Scopus_ID item = stored_id d /\ Binoculars_Score item = score /\
    forall processed_items scores_dict articles articles' i d2 key2,
      In item processed_items ->
      build_scores_dict processed_items [] = inr scores_dict ->
      merge_scores scores_dict (VList articles) = inr (VList articles') ->
      articles !! i = Some (VDict d2) ->
      dict_find "Scopus_ID" d2 = Some key2 ->
      (key_eqb key2 (stored_id d) = true ->
       exists d', articles' !! i = Some (VDict d') /\ already_scored d' /\
         passes_checks d' = false /\
         forall processed (w2 : world),
           score_article (VDict d') processed w2 = (inr processed, w2)) /\
      (last_with_key key2 processed_items = None ->
       articles' !! i = Some (VDict d2)).
Proof.
  intros Hp Hs.
  eexists. split.
  { rewrite (score_article_call d processed0 w Hp). cbv zeta. simpl. rewrite Hs.
    reflexivity. }
  split; [reflexivity|]. split; [reflexivity|].
  intros processed_items sd articles articles' i d2 key2 Hin Hb Hm Hi Hid.
  assert (Hkey : dict_get "Scopus_ID" VNone d2 = key2) by (unfold dict_get; by rewrite Hid).
  apply merge_scores_inv in Hm as (articles'' & [= <-] & Hall).
  destruct (Forall2_lookup_l _ _ _ _ _ Hall Hi) as (a' & Hi' & Hu).
  apply update_article_inv in Hu as (d0 & [= <-] & Hu).
  rewrite Hkey in Hu.
  pose proof (build_scores_dict_lookup _ _ _ Hb key2) as Hlook.
  split.
  - intros Heq.
    destruct (last_with_key_some key2 processed_items _ Hin Heq) as (item' & Hl).
    rewrite Hl in Hlook. rewrite Hlook in Hu. destruct Hu as [-> _].
    exists (set_scores item' d2). split; [exact Hi'|].
    assert (Hsc : already_scored (set_scores item' d2)).
    { destruct (set_scores_find item' d2) as (H1 & _). eexists. split; [exact H1|done]. }
    split; [exact Hsc|]. split; [by apply already_scored_fails|].
    intros processed w2. apply score_article_skip. by apply already_scored_fails.
  - intros Hl. rewrite Hl in Hlook. simpl in Hlook. rewrite Hlook in Hu. by rewrite Hu in Hi'.
Qed.

Lemma build_unhashable (processed : list processed_item) acc :
  Exists (fun item => hashable (Scopus_ID item) = false) processed ->
  build_scores_dict processed acc = inl TypeError.
Proof.
  intros H. revert acc. induction H as [x l Hx|x l _ IH]; intros acc; simpl.
  - by rewrite Hx.
  - destruct (hashable (Scopus_ID x)); [apply IH|reflexivity].
Qed.

(** Extra X5: when one of the scored records has a list or an object as its
    identifier, building the lookup raises, and the run returns [False]
    with the file system as it was: the scores of the whole file are
    dropped. *)
Theorem unhashable_identifier_fails_the_run (input_file output_file : path)
  (w w1 : world) (t : file_text) (items : list pyval)
  (processed_items : list processed_item) :
  read_file (fs w) input_file = inr t ->
  ijson_items t = (items, true) ->
  for_each score_article items []
    (logged [EvGetSize input_file; EvOpenStream input_file] w)
  = (inr processed_items, w1) ->
  Exists (fun item => hashable (Scopus_ID item) = false) processed_items ->
  exists w',
    process_file_streaming input_file output_file w = (inr false, w') /\
    fs w' = fs w.
Proof.
  intros Hr Hi Hfe Hbad.
  pose proof (read_file_exists _ _ _ Hr) as (Hex & _ & _).
  pose proof (first_pass_run input_file (logged [EvGetSize input_file] w) t items
                true Hr Hi) as Hf.
  rewrite logged_logged in Hf. simpl in Hf. rewrite Hfe in Hf.
  pose proof (for_each_fs items []
                (logged [EvGetSize input_file; EvOpenStream input_file] w)) as Hfs.
  rewrite Hfe in Hfs. simpl in Hfs.
  pose proof (reload_and_merge_fs input_file processed_items w1) as Hrm.
  destruct (reload_and_merge input_file processed_items w1) as [[e|data] w2] eqn:Er.
  - exists w2. split.
    + apply (process_merge_raises _ _ _ w1 _ processed_items e); try done.
      intros ->. by apply Exists_nil in Hbad.
    + simpl in Hrm. by rewrite Hrm.
  - apply reload_and_merge_inv in Er as (_ & _ & sd & _ & _ & Hb & _).
    by rewrite (build_unhashable _ [] Hbad) in Hb.
Qed.

Lemma update_articles_raises sd (articles : list pyval) a e :
  In a articles -> update_article sd a = inl e ->
  exists e', update_articles sd articles = inl e'.
Proof.
  induction articles as [|x l IH]; [intros []|]. intros [->|Hin] Hu; simpl.
  - rewrite Hu. simpl. eauto.
  - destruct (update_article sd x); simpl; [eauto|].
    destruct (IH Hin Hu) as (e' & ->). simpl. eauto.
Qed.

(** Extra X6: when a scored record carries a null identifier and the document
    holds a record without the identifier field, the merge raises at that
    record ([None] is found in the lookup, the subscript then fails), and
    the run returns [False] with the file system as it was. *)
Theorem null_identifier_fails_the_run (input_file output_file : path)
  (w w1 : world) (t : file_text) (items articles : list pyval)
  (processed_items : list processed_item) (item : processed_item)
  (d : list (string * pyval)) :
  read_file (fs w) input_file = inr t ->
  ijson_items t = (items, true) ->
  json_load t = Some (VList articles) ->
  for_each score_article items []
    (logged [EvGetSize input_file; EvOpenStream input_file] w)
  = (inr processed_items, w1) ->
  In item processed_items -> Scopus_ID item = VNone ->
  In (VDict d) articles -> dict_find "Scopus_ID" d = None ->
  (forall scores_dict,
     build_scores_dict processed_items [] = inr scores_dict ->
     update_article scores_dict (VDict d) = inl KeyError) /\
  exists w',
    process_file_streaming input_file output_file w = (inr false, w') /\
    fs w' = fs w.
Proof.
  intros Hr Hi Hl Hfe Hin Hnone Hd Hmiss.
  destruct (last_with_key_some VNone processed_items item Hin) as (item' & Hlast).
  { by rewrite Hnone. }
  assert (Hkey : forall sd, build_scores_dict processed_items [] = inr sd ->
                            update_article sd (VDict d) = inl KeyError).
  { intros sd Hb.
    pose proof (build_scores_dict_lookup _ _ _ Hb VNone) as Hlook. rewrite Hlast in Hlook.
    unfold update_article, dict_get, assoc_mem. rewrite Hmiss. simpl. by rewrite Hlook. }
  split; [exact Hkey|].
  pose proof (read_file_exists _ _ _ Hr) as (Hex & _ & _).
  pose proof (first_pass_run input_file (logged [EvGetSize input_file] w) t items
                true Hr Hi) as Hf.
  rewrite logged_logged in Hf. simpl in Hf. rewrite Hfe in Hf.
  pose proof (for_each_fs items []
                (logged [EvGetSize input_file; EvOpenStream input_file] w)) as Hfs.
  rewrite Hfe in Hfs. simpl in Hfs.
  pose proof (reload_and_merge_fs input_file processed_items w1) as Hrm.
  destruct (reload_and_merge input_file processed_items w1) as [[e|data] w2] eqn:Er.
  - exists w2. split.
    + apply (process_merge_raises _ _ _ w1 _ processed_items e); try done.
      intros ->. destruct Hin.
    + simpl in Hrm. by rewrite Hrm.
  - exfalso.
    apply reload_and_merge_inv in Er as (t' & loaded & sd & Hr' & Hl' & Hb & Hm & _).
    rewrite Hfs, Hr in Hr'. injection Hr' as <-. rewrite Hl in Hl'. injection Hl' as <-.
    destruct (update_articles_raises sd articles _ _ Hd (Hkey sd Hb)) as (e' & He').
    simpl in Hm. rewrite He' in Hm. discriminate.
Qed.

Lemma for_each_analyze_tally (files : list path) (k : Z) (w : world) :
  exists n w', for_each analyze_file files k w = (inr n, w') /\
               k <= n <= k + Z.of_nat (length files).
Proof.
  revert k w. induction files as [|f files IH]; intros k w.
  - exists k, w. simpl. split; [reflexivity|lia].
  - cbn [for_each]. unfold mbind at 1. unfold M_bind at 1.
    assert (Hstep : exists k' w1, analyze_file f k w = (inr k', w1) /\ k <= k' <= k + 1).
    { unfold analyze_file. unfold_eff.
      destruct (negb (exists_ (fs w) _)).
      - do 2 eexists. split; [reflexivity|lia].
      - destruct (process_file_streaming_fs (input_dir ++ f)%list (output_dir ++ f)%list w)
          as (ok & w1 & -> & _).
        destruct ok; do 2 eexists; (split; [reflexivity|lia]). }
    destruct Hstep as (k' & w1 & -> & Hk).
    destruct (IH k' w1) as (n & w' & -> & Hn).
    exists n, w'. split; [reflexivity|]. cbn [length]. lia.
Qed.

Lemma patch_for_each_analyze_tally (files : list path) (k : Z) (w : world) :
  exists n w', for_each BinocularsPatch.analyze_file files k w = (inr n, w') /\
               k <= n <= k + Z.of_nat (length files).
Proof.
  revert k w. induction files as [|f files IH]; intros k w.
  - exists k, w. simpl. split; [reflexivity|lia].
  - cbn [for_each]. unfold mbind at 1. unfold M_bind at 1.
    assert (Hstep : exists k' w1, BinocularsPatch.analyze_file f k w = (inr k', w1)
                                  /\ k <= k' <= k + 1).
    { unfold BinocularsPatch.analyze_file. unfold_eff.
      destruct (negb (exists_ (fs w) _)).
      - do 2 eexists. split; [reflexivity|lia].
      - destruct (patch_process_fs (BinocularsPatch.input_dir ++ f)%list
                    (BinocularsPatch.output_dir ++ f)%list w)
          as (ok & w1 & -> & _).
        destruct ok; do 2 eexists; (split; [reflexivity|lia]). }
    destruct Hstep as (k' & w1 & -> & Hk).
    destruct (IH k' w1) as (n & w' & -> & Hn).
    exists n, w'. split; [reflexivity|]. cbn [length]. lia.
Qed.

Lemma size_queries_app (a b : list event) :
  size_queries (a ++ b) = (size_queries a ++ size_queries b)%list.
Proof. unfold size_queries. apply omap_app. Qed.

Lemma for_each_size_queries (items : list pyval) processed (w : world) :
  size_queries (trace (snd (for_each score_article items processed w)))
  = size_queries (trace w).
Proof.
  revert processed w. induction items as [|a items IH]; intros processed w; simpl.
  - reflexivity.
  - unfold mbind, M_bind. destruct a; try (raising_item; reflexivity).
    destruct (passes_checks d) eqn:E.
    + rewrite (score_article_call d processed w E). cbv zeta.
      rewrite IH. simpl. rewrite size_queries_app. simpl. by rewrite app_nil_r.
    + rewrite (score_article_skip d processed w E). by rewrite IH.
Qed.

Lemma first_pass_size_queries (input_file : path) (w : world) :
  size_queries (trace (snd (first_pass input_file w))) = size_queries (trace w).
Proof.
  unfold first_pass, open_stream, log. unfold_eff. simpl.
  destruct (read_file (fs w) input_file) as [|t]; simpl.
  { rewrite size_queries_app. simpl. by rewrite app_nil_r. }
  destruct (ijson_items t) as [items complete].
  fold (logged [EvOpenStream input_file] w).
  pose proof (for_each_size_queries items [] (logged [EvOpenStream input_file] w)) as H.
  destruct (for_each score_article items [] _) as [[|p] w']; simpl in *;
    [|destruct complete; simpl];
    rewrite H, size_queries_app; simpl; by rewrite app_nil_r.
Qed.

Lemma reload_size_queries (input_file : path) processed (w : world) :
  size_queries (trace (snd (reload_and_merge input_file processed w)))
  = size_queries (trace w).
Proof.
  unfold reload_and_merge, json_load_file, log. unfold_eff. simpl.
  destruct (read_file (fs w) input_file) as [|t]; simpl.
  { rewrite size_queries_app. simpl. by rewrite app_nil_r. }
  destruct (json_load t) as [loaded|]; simpl.
  2: { rewrite size_queries_app. simpl. by rewrite app_nil_r. }
  destruct (build_scores_dict processed []) as [|sd]; simpl.
  { rewrite size_queries_app. simpl. by rewrite app_nil_r. }
  destruct (merge_scores sd loaded); simpl;
    rewrite size_queries_app; simpl; by rewrite app_nil_r.
Qed.

(** A call of [process_file_streaming] asks for one size, that of its
    input, whatever becomes of the run. *)
Lemma process_size_queries (input_file output_file : path) (w : world) :
  size_queries (trace (snd (process_file_streaming input_file output_file w)))
  = (size_queries (trace w) ++ [input_file])%list.
Proof.
  assert (H0 : size_queries (trace (logged [EvGetSize input_file] w))
               = (size_queries (trace w) ++ [input_file])%list).
  { simpl. by rewrite size_queries_app. }
  unfold process_file_streaming, try_except.
  unfold mbind at 1. unfold M_bind at 1.
  destruct (getsize input_file w) as [[|[]] w0] eqn:Eg;
    apply getsize_inv in Eg as [-> Hex]; [exact H0|].
  unfold mbind at 1. unfold M_bind at 1.
  pose proof (first_pass_size_queries input_file (logged [EvGetSize input_file] w)) as H1.
  rewrite H0 in H1.
  destruct (first_pass input_file _) as [[|processed] w1]; simpl in H1; [exact H1|].
  destruct processed as [|item processed]; [exact H1|].
  unfold mbind at 1. unfold M_bind at 1.
  pose proof (reload_size_queries input_file (item :: processed) w1) as H2.
  rewrite H1 in H2.
  destruct (reload_and_merge input_file _ w1) as [[|data] w2]; simpl in H2; [exact H2|].
  unfold mkdir_parents, json_dump_file, on_fs, log. unfold_eff. simpl.
  destruct (makedirs (parent output_file) (fs w2)) as [[|[]] fs1]; simpl.
  { rewrite size_queries_app, H2. simpl. by rewrite app_nil_r. }
  destruct (json_dump_partial data 4 false) as [written|];
    destruct (write_file fs1 output_file _); simpl;
    rewrite !size_queries_app, H2; simpl; by rewrite !app_nil_r.
Qed.

Lemma patch_process_size_queries (input_file output_file : path) (w : world) :
  size_queries
    (trace (snd (BinocularsPatch.process_file_streaming input_file output_file w)))
  = (size_queries (trace w) ++ [input_file])%list.
Proof.
  assert (H0 : size_queries (trace (logged [EvGetSize input_file] w))
               = (size_queries (trace w) ++ [input_file])%list).
  { simpl. by rewrite size_queries_app. }
  unfold BinocularsPatch.process_file_streaming, try_except.
  unfold mbind at 1. unfold M_bind at 1.
  destruct (getsize input_file w) as [[|[]] w0] eqn:Eg;
    apply getsize_inv in Eg as [-> Hex]; [exact H0|].
  unfold mbind at 1. unfold M_bind at 1.
  pose proof (first_pass_size_queries input_file (logged [EvGetSize input_file] w)) as H1.
  rewrite H0 in H1.
  destruct (first_pass input_file _) as [[|processed] w1]; simpl in H1; [exact H1|].
  destruct processed as [|item processed]; [exact H1|].
  unfold mbind at 1. unfold M_bind at 1.
  pose proof (reload_size_queries input_file (item :: processed) w1) as H2.
  rewrite H1 in H2.
  destruct (reload_and_merge input_file _ w1) as [[|data] w2]; simpl in H2; [exact H2|].
  unfold json_dump_file, log. unfold_eff. simpl.
  destruct (json_dump_partial data 4 false) as [written|];
    destruct (write_file (fs w2) _ _); simpl;
    rewrite !size_queries_app, H2; simpl; by rewrite !app_nil_r.
Qed.

(** What exists keeps existing when nothing on the way to it changes. *)
Lemma exists_kept {T} (f f' : gmap path (node T)) (p : path) :
  exists_ f p = true ->
  (forall q, q <> [] -> q `prefix_of` p -> is_Some (f !! q) -> f' !! q = f !! q) ->
  exists_ f' p = true.
Proof.
  unfold exists_, stat, reachable. intros H Hk.
  destruct (forallb (is_dir_at f) (ancestors p)) eqn:Hr; [|discriminate].
  assert (Hr' : forallb (is_dir_at f') (ancestors p) = true).
  { apply forallb_forall. intros q Hq.
    pose proof (proj1 (forallb_forall _ _) Hr q Hq) as Hd.
    unfold ancestors in Hq. apply in_map_iff in Hq as (n & <- & _).
    unfold is_dir_at in *. destruct (take n p) eqn:E; [done|]. rewrite <- E in *.
    rewrite Hk; [exact Hd| by rewrite E | apply prefix_take |].
    destruct (f !! take n p); [eauto|discriminate]. }
  rewrite Hr'. destruct p as [|a p]; [done|].
  rewrite Hk; [exact H|done|done|]. destruct (f !! (a :: p)); [eauto|discriminate].
Qed.

(** No prefix of an input of the main annotator is one of its outputs. *)
Lemma input_prefix_not_output (q f g : path) :
  q `prefix_of` (input_dir ++ f)%list -> q <> (output_dir ++ g)%list.
Proof. intros [k Hk] ->. simpl in Hk. discriminate. Qed.

Lemma analyze_file_keeps (f : path) (k : Z) (w : world) (q : path) :
  q <> (output_dir ++ f)%list -> is_Some (fs w !! q) ->
  fs (snd (analyze_file f k w)) !! q = fs w !! q.
Proof.
  intros Hne Hq. unfold analyze_file. unfold_eff.
  destruct (negb (exists_ (fs w) _)); [reflexivity|].
  pose proof (process_file_streaming_frame (input_dir ++ f)%list
                (output_dir ++ f)%list w) as [H _].
  specialize (H q Hne Hq).
  destruct (process_file_streaming _ _ w) as [[|ok] w']; exact H.
Qed.

Lemma patch_analyze_file_keeps (f : path) (k : Z) (w : world) (q : path) :
  q <> BinocularsPatch.patched_filename (BinocularsPatch.input_dir ++ f)%list ->
  fs (snd (BinocularsPatch.analyze_file f k w)) !! q = fs w !! q.
Proof. intros Hne. by apply patch_analyze_file_frame. Qed.

(** The sizes that a run over [files] asks for: of inputs only, in the
    order of [files], and of every input that exists at the start. *)
Lemma for_each_analyze_queries (files : list path) (k : Z) (w : world) :
  exists sized,
    size_queries (trace (snd (for_each analyze_file files k w)))
    = (size_queries (trace w) ++ sized)%list /\
    sized `sublist_of` map (app input_dir) files /\
    forall f, In f files -> exists_ (fs w) (input_dir ++ f)%list = true ->
              In (input_dir ++ f)%list sized.
Proof.
  revert k w. induction files as [|f files IH]; intros k w.
  - exists []. simpl. rewrite app_nil_r. split; [reflexivity|]. split; [done|]. intros f [].
  - cbn [for_each]. unfold mbind at 1. unfold M_bind at 1.
    assert (Hkeep : forall g, exists_ (fs w) (input_dir ++ g)%list = true ->
               exists_ (fs (snd (analyze_file f k w))) (input_dir ++ g)%list = true).
    { intros g Hg. apply (exists_kept (fs w)); [exact Hg|].
      intros q _ Hpre Hq. apply analyze_file_keeps; [|exact Hq].
      by apply (input_prefix_not_output q g f). }
    assert (Hstep : exists k' w1, analyze_file f k w = (inr k', w1) /\
              size_queries (trace w1) =
              (size_queries (trace w) ++
               (if exists_ (fs w) (input_dir ++ f)%list then [(input_dir ++ f)%list]
                else []))%list).
    { unfold analyze_file. unfold_eff.
      destruct (exists_ (fs w) (input_dir ++ f)%list) eqn:Ex; cbn [negb].
      - pose proof (process_size_queries (input_dir ++ f)%list (output_dir ++ f)%list w) as Hs.
        destruct (process_file_streaming_fs (input_dir ++ f)%list (output_dir ++ f)%list w)
          as (ok & w1 & E & _).
        rewrite E in *. simpl in Hs. do 2 eexists. split; [reflexivity|exact Hs].
      - do 2 eexists. split; [reflexivity|]. by rewrite app_nil_r. }
    destruct Hstep as (k' & w1 & E & Hs). rewrite E in *. simpl in Hkeep.
    destruct (IH k' w1) as (sized & Hq & Hsub & Hall).
    eexists. split; [rewrite Hq, Hs, <- app_assoc; reflexivity|]. split.
    + cbn [map]. destruct (exists_ (fs w) (input_dir ++ f)%list).
      * by apply sublist_skip.
      * by apply sublist_cons.
    + intros g [<-|Hg] Hex.
      * rewrite Hex. by left.
      * apply in_or_app. right. apply Hall; [exact Hg|]. by apply Hkeep.
Qed.

Lemma patch_for_each_analyze_queries (files : list path) (k : Z) (w : world) :
  (forall f g, In f files -> In g files ->
     BinocularsPatch.patched_filename (BinocularsPatch.input_dir ++ g)%list
     <> (BinocularsPatch.input_dir ++ f)%list) ->
  Forall (fun f => length (BinocularsPatch.input_dir ++ f)%list = 1%nat) files ->
  exists sized,
    size_queries (trace (snd (for_each BinocularsPatch.analyze_file files k w)))
    = (size_queries (trace w) ++ sized)%list /\
    sized `sublist_of` map (app BinocularsPatch.input_dir) files /\
    forall f, In f files ->
              exists_ (fs w) (BinocularsPatch.input_dir ++ f)%list = true ->
              In (BinocularsPatch.input_dir ++ f)%list sized.
Proof.
  revert k w. induction files as [|f files IH]; intros k w Hne Hlen.
  - exists []. simpl. rewrite app_nil_r. split; [reflexivity|]. split; [done|]. intros f [].
  - cbn [for_each]. unfold mbind at 1. unfold M_bind at 1.
    assert (Hkeep : forall g, In g (f :: files) ->
               exists_ (fs w) (BinocularsPatch.input_dir ++ g)%list = true ->
               exists_ (fs (snd (BinocularsPatch.analyze_file f k w)))
                 (BinocularsPatch.input_dir ++ g)%list = true).
    { intros g Hin Hg. apply (exists_kept (fs w)); [exact Hg|].
      intros q Hq0 Hpre Hq. apply patch_analyze_file_keeps.
      assert (q = (BinocularsPatch.input_dir ++ g)%list) as ->.
      { pose proof (proj1 (List.Forall_forall _ _) Hlen g Hin) as Hl. cbv beta in Hl.
        destruct Hpre as [r Hr]. clear Hg Hq.
        remember (BinocularsPatch.input_dir ++ g)%list as p eqn:Ep. clear Ep.
        destruct p as [|x [|y l]]; try discriminate.
        destruct q as [|x' q]; [done|]. simpl in Hr. injection Hr as -> Hr.
        destruct q; [done|discriminate]. }
      intros Heq. apply (Hne g f Hin); [by left|]. by rewrite Heq. }
    assert (Hstep : exists k' w1, BinocularsPatch.analyze_file f k w = (inr k', w1) /\
              size_queries (trace w1) =
              (size_queries (trace w) ++
               (if exists_ (fs w) (BinocularsPatch.input_dir ++ f)%list
                then [(BinocularsPatch.input_dir ++ f)%list] else []))%list).
    { unfold BinocularsPatch.analyze_file. unfold_eff.
      destruct (exists_ (fs w) (BinocularsPatch.input_dir ++ f)%list) eqn:Ex; cbn [negb].
      - pose proof (patch_process_size_queries (BinocularsPatch.input_dir ++ f)%list
                      (BinocularsPatch.output_dir ++ f)%list w) as Hs.
        destruct (patch_process_fs (BinocularsPatch.input_dir ++ f)%list
                    (BinocularsPatch.output_dir ++ f)%list w) as (ok & w1 & E & _).
        rewrite E in *. simpl in Hs. do 2 eexists. split; [reflexivity|exact Hs].
      - do 2 eexists. split; [reflexivity|]. by rewrite app_nil_r. }
    destruct Hstep as (k' & w1 & E & Hs). rewrite E in *. simpl in Hkeep.
    destruct (IH k' w1) as (sized & Hq & Hsub & Hall).
    { intros a b Ha Hb. apply Hne; by right. }
    { by inversion Hlen. }
    eexists. split; [rewrite Hq, Hs, <- app_assoc; reflexivity|]. split.
    + cbn [map]. destruct (exists_ (fs w) (BinocularsPatch.input_dir ++ f)%list).
      * by apply sublist_skip.
      * by apply sublist_cons.
    + intros g [<-|Hg] Hex.
      * rewrite Hex. by left.
      * apply in_or_app. right. apply Hall; [exact Hg|]. apply Hkeep; [by right|exact Hex].
Qed.

(** Extra X7: once the detector is constructed, [analyze_abstracts] never
    raises, and whatever happens to one file, the following files are
    still processed: [process_file_streaming] is called, in the order of
    the target list and on target inputs only, on every input that exists
    when the run starts (each call begins by asking for the size of its
    input). The tally that the run reports lies between zero and the
    number of target files, fourteen for the main script and two for the
    patch script. *)
Theorem analyze_abstracts_reaches_every_input (w : world) :
  (exists n w', analyze_abstracts w = (inr n, w') /\ 0 <= n <= 14 /\
     exists sized,
       size_queries (trace w') = (size_queries (trace w) ++ sized)%list /\
       sized `sublist_of` map (app input_dir) target_files /\
       forall f, In f target_files ->
                 exists_ (fs w) (input_dir ++ f)%list = true ->
                 In (input_dir ++ f)%list sized) /\
  (exists n w', BinocularsPatch.analyze_abstracts w = (inr n, w') /\ 0 <= n <= 2 /\
     exists sized,
       size_queries (trace w') = (size_queries (trace w) ++ sized)%list /\
       sized `sublist_of`
         map (app BinocularsPatch.input_dir) BinocularsPatch.target_files /\
       forall f, In f BinocularsPatch.target_files ->
                 exists_ (fs w) (BinocularsPatch.input_dir ++ f)%list = true ->
                 In (BinocularsPatch.input_dir ++ f)%list sized).
Proof.
  split.
  - destruct (for_each_analyze_tally target_files 0 w) as (n & w' & H & Hn).
    exists n, w'. split; [exact H|]. split; [simpl in Hn; lia|].
    pose proof (for_each_analyze_queries target_files 0 w) as Hq.
    unfold analyze_abstracts in H. rewrite H in Hq. exact Hq.
  - destruct (patch_for_each_analyze_tally BinocularsPatch.target_files 0 w)
      as (n & w' & H & Hn).
    exists n, w'. split; [exact H|]. split; [simpl in Hn; lia|].
    pose proof (patch_for_each_analyze_queries BinocularsPatch.target_files 0 w) as Hq.
    unfold BinocularsPatch.analyze_abstracts in H. rewrite H in Hq. apply Hq.
    + intros f g Hf Hg. simpl in Hf, Hg.
      destruct Hf as [<-|[<-|[]]], Hg as [<-|[<-|[]]]; vm_compute; discriminate.
    + repeat constructor.
Qed.

(** Extra X8: the annotations that the first pass adds belong, in stream
    order, to records that pass both checks, each stored under its record's
    identifier: at most one annotation per eligible record. *)
Theorem stored_items_follow_the_stream (items : list pyval)
  (processed processed' : list processed_item) (w w' : world) :
  for_each score_article items processed w = (inr processed', w') ->
  exists new,
    processed' = (processed ++ new)%list /\
    map Scopus_ID new `sublist_of`
      map stored_id (filter (fun d => passes_checks d = true) (leading_records items)) /\
    (length new <= length items)%nat.
Proof.
  revert processed w. induction items as [|a items IH]; intros processed w.
  - simpl. intros [= <- <-]. exists []. rewrite app_nil_r. simpl. done.
  - cbn [for_each]. unfold mbind at 1. unfold M_bind at 1.
    destruct a as [| | | | | | |d]; try (raising_item; simpl; discriminate).
    destruct (passes_checks d) eqn:Hp.
    + rewrite (score_article_call d processed w Hp). cbv zeta.
      destruct (fst (compute_score (bino w) (abstract_of d))) as [score|]; intros H;
        apply IH in H as (new & -> & Hsub & Hlen); cbn [leading_records];
        rewrite filter_cons_True by done; cbn [map length].
      * eexists (_ :: new). rewrite <- app_assoc. split; [reflexivity|]. split.
        -- cbn [map Scopus_ID]. by apply sublist_skip.
        -- cbn [length]. lia.
      * exists new. split; [reflexivity|]. split; [by apply sublist_cons|lia].
    + rewrite (score_article_skip d processed w Hp). intros H.
      apply IH in H as (new & -> & Hsub & Hlen). cbn [leading_records].
      rewrite filter_cons_False by (by rewrite Hp).
      exists new. split; [reflexivity|]. split; [exact Hsub|cbn [length]; lia].
Qed.

End AnnotatorMore.

(** ** The name of the patched file *)

Lemma rfind_none (c : ascii) (s : string) :
  all_chars (fun a => negb (Ascii.eqb a c)) s = true -> BinocularsPatch.rfind c s = None.
Proof.
  induction s as [|a s IH]; [reflexivity|]. simpl.
  intros [Ha Hs]%andb_prop. rewrite (IH Hs).
  by destruct (Ascii.eqb a c).
Qed.

Lemma rfind_app (c : ascii) (s t : string) :
  BinocularsPatch.rfind c (s ++ t) =
  match BinocularsPatch.rfind c t with
  | Some i => Some (String.length s + i)%nat
  | None => BinocularsPatch.rfind c s
  end.
Proof.
  induction s as [|a s IH].
  - rewrite append_empty. simpl. by destruct (BinocularsPatch.rfind c t).
  - rewrite append_cons. simpl. rewrite IH.
    by destruct (BinocularsPatch.rfind c t).
Qed.

Lemma substring_app_l (s t : string) :
  String.substring 0 (String.length s) (s ++ t) = s.
Proof.
  induction s as [|a s IH].
  - rewrite append_empty. simpl. by destruct t.
  - rewrite append_cons. simpl. by rewrite IH.
Qed.

Lemma substring_app_r (s t : string) :
  String.substring (String.length s) (String.length t) (s ++ t) = t.
Proof.
  induction s as [|a s IH].
  - rewrite append_empty. simpl. induction t as [|b t IHt]; [reflexivity|].
    simpl. by rewrite IHt.
  - rewrite append_cons. simpl. exact IH.
Qed.

(** Extra X9: for an input [dir/base.ext] whose extension holds no dot, the
    patch annotator's file is [base_patched.ext] in the working directory:
    the directory of the input is dropped and the extension is kept. *)
Theorem patched_name_keeps_extension (dir : path) (base ext : string) :
  base <> "" -> ext <> "" ->
  all_chars (fun c => negb (Ascii.eqb c ".")) ext = true ->
  BinocularsPatch.patched_filename (dir ++ [(base ++ "." ++ ext)%string])%list
  = [base ++ "_patched" ++ "." ++ ext].
Proof.
  intros Hb He Hdots.
  assert (Hname : name (dir ++ [(base ++ "." ++ ext)%string])%list = base ++ "." ++ ext).
  { unfold name. apply last_last. }
  assert (Hr : BinocularsPatch.rfind "." (base ++ "." ++ ext) = Some (String.length base)).
  { rewrite rfind_app.
    change ("." ++ ext) with (String "." ext). simpl.
    rewrite (rfind_none _ _ Hdots). simpl. f_equal. lia. }
  assert (Hs : BinocularsPatch.suffix_start (base ++ "." ++ ext)
               = Some (String.length base)).
  { unfold BinocularsPatch.suffix_start. rewrite Hr.
    rewrite length_append. change ("." ++ ext) with (String "." ext). cbn [String.length].
    destruct base; [done|]. destruct ext; [done|]. cbn [String.length].
    replace (0 <? S _)%nat with true by (symmetry; apply Nat.ltb_lt; lia).
    replace (_ <? _)%nat with true by (symmetry; apply Nat.ltb_lt; lia).
    reflexivity. }
  unfold BinocularsPatch.patched_filename, BinocularsPatch.stem, BinocularsPatch.suffix.
  rewrite Hname, Hs. f_equal.
  rewrite substring_app_l.
  replace (String.length (base ++ "." ++ ext) - String.length base)%nat
    with (String.length ("." ++ ext)) by (rewrite !length_append; lia).
  by rewrite substring_app_r.
Qed.

(** * Further properties of the harvester *)

Import HarvestMore.

(** ** The key pool *)

Lemma split_nonempty (sep : ascii) (s : string) : split sep s <> [].
Proof.
  induction s as [|c s IH]; simpl; [done|].
  destruct (Ascii.eqb c sep); [done|]. by destruct (split sep s).
Qed.

Lemma split_length (sep : ascii) (s : string) :
  length (split sep s) = S (count_char sep s).
Proof.
  induction s as [|c s IH]; simpl; [done|].
  destruct (Ascii.eqb c sep); simpl; [by rewrite IH|].
  pose proof (split_nonempty sep s). by destruct (split sep s).
Qed.

Lemma lstrip_head (s : string) c r : lstrip s = String c r -> is_space c = false.
Proof.
  induction s as [|a s IH]; simpl; [done|].
  destruct (is_space a) eqn:Ea; [exact IH|]. by intros [= <- <-].
Qed.

Lemma rstrip_idem (s : string) : rstrip (rstrip s) = rstrip s.
Proof.
  induction s as [|c s IH]; simpl; [done|].
  destruct (String.eqb (rstrip s) "" && is_space c) eqn:E; [done|].
  simpl. by rewrite IH, E.
Qed.

Lemma strip_idem (s : string) : strip (strip s) = strip s.
Proof.
  unfold strip. destruct (lstrip s) as [|c r] eqn:E; [reflexivity|].
  pose proof (lstrip_head _ _ _ E) as Hc.
  assert (Hr : rstrip (String c r) = String c (rstrip r)).
  { simpl. by rewrite Hc, andb_false_r. }
  rewrite Hr. cbn [lstrip]. rewrite Hc. rewrite <- Hr. apply rstrip_idem.
Qed.

(** Extra X10: a non-empty [SCOPUS_API_KEYS] gives one key per comma-separated
    field, in order, each with its surrounding white space removed; an
    empty field gives an empty key, which stays in the pool. *)
Theorem keys_of_a_comma_list (s : string) (api_key : option string) :
  s <> "" ->
  length (load_api_keys (Some s) api_key) = S (count_char "," s) /\
  Forall (fun k => exists key, k = Some key /\ strip key = key)
         (load_api_keys (Some s) api_key) /\
  load_api_keys (Some (s ++ ",")) api_key
  = (load_api_keys (Some s) api_key ++ [Some ""])%list.
Proof.
  intros Hs. unfold load_api_keys.
  destruct (String.eqb_spec s ""); [done|].
  split; [by rewrite length_map, split_length|]. split.
  - apply List.Forall_forall. intros k [key [<- _]]%in_map_iff.
    exists (strip key). split; [done|apply strip_idem].
  - destruct (String.eqb_spec (s ++ ",") "") as [E|_].
    { destruct s; [done|]. rewrite append_cons in E. discriminate. }
    change [Some ""] with (map (fun key => Some (strip key)) [""]).
    rewrite <- map_app. f_equal. clear.
    induction s as [|c s IH]; [reflexivity|]. rewrite append_cons. simpl.
    rewrite IH. destruct (Ascii.eqb c ","); [reflexivity|].
    pose proof (split_nonempty "," s). by destruct (split "," s).
Qed.

Section KeyPool.
Context `{JL : JsonLib} `{OUT : Outside}.

Lemma check_for_pause_frame (w : world) :
  exists b, check_for_pause w = (inr b, polled w).
Proof.
  unfold check_for_pause. unfold_eff. simpl.
  destruct (stdin_poll (polls_made w)); eauto.
Qed.

(** Waiting for the operator changes neither the pool, nor the pointer,
    nor the file system, and sends nothing. *)
Lemma wait_for_resume_frame (fuel : nat) (w : world) :
  let w' := snd (wait_for_resume fuel w) in
  API_KEYS w' = API_KEYS w /\ current_api_key_index w' = current_api_key_index w /\
  fs w' = fs w /\ requests_made w' = requests_made w /\
  reloads_made w' = reloads_made w.
Proof.
  revert w. induction fuel as [|fuel IH]; intros w; cbv zeta; [done|].
  cbn [wait_for_resume]. unfold mbind, M_bind.
  destruct (check_for_pause_frame w) as (b & ->).
  destruct b; [done|].
  unfold sleep, modify.
  destruct (IH (slept 1 (polled w))) as (H1 & H2 & H3 & H4 & H5). done.
Qed.

Lemma pause_and_reload_frame (fuel : nat) (w : world) :
  let w' := snd (pause_and_reload fuel w) in
  current_api_key_index w' = current_api_key_index w /\
  fs w' = fs w /\ requests_made w' = requests_made w /\
  (API_KEYS w <> [] -> API_KEYS w' <> []).
Proof.
  cbv zeta. unfold pause_and_reload. unfold mbind, M_bind.
  pose proof (wait_for_resume_frame fuel w) as (H1 & H2 & H3 & H4 & H5).
  destruct (wait_for_resume fuel w) as [[e|[]] w1]; simpl in *.
  { rewrite H1. done. }
  unfold get_world, modify, mret, M_ret. simpl.
  destruct (dotenv_keys (reloads_made w1)) as [s|]; simpl; [|rewrite H1; done].
  destruct (String.eqb s ""); simpl; [rewrite H1; done|].
  split_and!; try done. intros _ [=]%map_eq_nil. by apply split_nonempty in H0.
Qed.

Lemma cycle_api_key_run (w : world) :
  API_KEYS w <> [] ->
  cycle_api_key w =
  (inr tt, set_index ((current_api_key_index w + 1) mod length (API_KEYS w))%nat w).
Proof.
  intros Hne. unfold cycle_api_key. unfold_eff. by destruct (API_KEYS w).
Qed.

(** Extra X11: the key pool is never empty, neither as the script loads it nor
    after a reload during a pause, so that [cycle_api_key] never divides by
    zero; and whatever the pointer was, a rotation leaves it inside the
    pool. *)
Theorem key_pool_is_never_empty (api_keys_str api_key : option string)
  (fuel : nat) (w : world) :
  load_api_keys api_keys_str api_key <> [] /\
  (API_KEYS w <> [] ->
   API_KEYS (snd (pause_and_reload fuel w)) <> [] /\
   exists w', cycle_api_key w = (inr tt, w') /\ API_KEYS w' = API_KEYS w /\
              (current_api_key_index w' < length (API_KEYS w'))%nat).
Proof.
  split.
  - unfold load_api_keys. destruct api_keys_str as [s|]; [|done].
    destruct (String.eqb s ""); [done|].
    intros [=]%map_eq_nil. by apply split_nonempty in H0.
  - intros Hne. split; [by apply pause_and_reload_frame|].
    eexists. split; [by apply cycle_api_key_run|]. simpl. split; [done|].
    apply Nat.mod_upper_bound. by destruct (API_KEYS w).
Qed.

Lemma set_index_same (w : world) : set_index (current_api_key_index w) w = w.
Proof. by destruct w. Qed.

Lemma cycle_times_run (n : nat) (w : world) :
  API_KEYS w <> [] ->
  cycle_times n w =
  (inr tt,
   match n with
   | O => w
   | S _ => set_index ((current_api_key_index w + n) mod length (API_KEYS w))%nat w
   end).
Proof.
  revert w. induction n as [|n IH]; intros w Hne; [reflexivity|].
  cbn [cycle_times]. unfold mbind at 1. unfold M_bind at 1.
  rewrite (cycle_api_key_run w Hne). rewrite IH by done.
  destruct n as [|n]; [by rewrite Nat.add_1_r|].
  cbn [set_index API_KEYS current_api_key_index]. unfold set_index. simpl. do 2 f_equal.
  rewrite Nat.Div0.add_mod_idemp_l. f_equal. lia.
Qed.

(** Extra X12: rotation is round robin. From a pointer inside the pool, [n]
    rotations put the pointer at [(index + n) mod len]; as many rotations
    as there are keys bring the script back to the key it started from,
    and every key of the pool is reached on the way. *)
Theorem rotation_is_round_robin (n : nat) (w : world) :
  API_KEYS w <> [] ->
  (current_api_key_index w < length (API_KEYS w))%nat ->
  cycle_times n w
  = (inr tt,
     set_index ((current_api_key_index w + n) mod length (API_KEYS w))%nat w) /\
  cycle_times (length (API_KEYS w)) w = (inr tt, w) /\
  forall j, (j < length (API_KEYS w))%nat ->
    exists k, (k < length (API_KEYS w))%nat /\
              current_api_key_index (snd (cycle_times k w)) = j.
Proof.
  intros Hne Hlt.
  assert (Hgen : forall m, cycle_times m w
            = (inr tt, set_index ((current_api_key_index w + m) mod length (API_KEYS w))%nat w)).
  { intros m. rewrite cycle_times_run by done. destruct m; [|done].
    by rewrite Nat.add_0_r, Nat.mod_small, set_index_same. }
  split; [apply Hgen|]. split.
  - rewrite Hgen. do 2 f_equal.
    rewrite <- (Nat.mul_1_l (length (API_KEYS w))) at 1.
    rewrite Nat.Div0.mod_add, Nat.mod_small by done. apply set_index_same.
  - intros j Hj.
    exists ((j + length (API_KEYS w) - current_api_key_index w) mod length (API_KEYS w))%nat.
    split; [apply Nat.mod_upper_bound; lia|].
    rewrite Hgen. simpl.
    rewrite Nat.Div0.add_mod_idemp_r.
    replace (current_api_key_index w + (j + length (API_KEYS w) - current_api_key_index w))%nat
      with (j + 1 * length (API_KEYS w))%nat by lia.
    by rewrite Nat.Div0.mod_add, Nat.mod_small.
Qed.

(** Extra X13: a reload during a pause replaces the pool and leaves the
    pointer where it was. When the new pool is not longer than the pointer,
    the next request raises [IndexError] before anything is sent; a
    rotation would bring the pointer back inside. *)
Theorem reload_can_strand_the_pointer (fuel : nat) (url : string)
  (params : list (string * pyval)) (w : world) :
  let w' := snd (pause_and_reload fuel w) in
  current_api_key_index w' = current_api_key_index w /\
  ((length (API_KEYS w') <= current_api_key_index w)%nat ->
   requests_get url params w' = (inl (Raised IndexError), w')).
Proof.
  cbv zeta. split; [by apply pause_and_reload_frame|].
  intros Hle. destruct (pause_and_reload_frame fuel w) as (Hi & _).
  unfold requests_get, get_headers. unfold_eff.
  rewrite <- Hi in Hle. apply nth_error_None in Hle. by rewrite Hle.
Qed.

Lemma waited_polls (k : nat) (w : world) :
  polls_made (waited k w) = (polls_made w + k)%nat /\
  reloads_made (waited k w) = reloads_made w.
Proof.
  revert w. induction k as [|k IH]; intros w; simpl; [split; [lia|done]|].
  destruct (IH (slept 1 (polled w))) as [-> ->]. simpl. split; [lia|done].
Qed.

Lemma check_for_pause_quiet (w : world) :
  no_pause_signal (stdin_poll (polls_made w)) = true ->
  check_for_pause w = (inr false, polled w).
Proof.
  unfold check_for_pause, no_pause_signal. unfold_eff. simpl.
  destruct (stdin_poll (polls_made w)); [|done].
  by intros ->%negb_true_iff.
Qed.

Lemma check_for_pause_p (w : world) (line : string) :
  stdin_poll (polls_made w) = Some line -> lower (strip line) = "p" ->
  check_for_pause w = (inr true, polled w).
Proof.
  intros Hp Hl. unfold check_for_pause. unfold_eff. simpl. by rewrite Hp, Hl.
Qed.

Lemma wait_for_resume_run (k fuel : nat) (w : world) (line : string) :
  (forall i, (i < k)%nat -> no_pause_signal (stdin_poll (polls_made w + i)) = true) ->
  stdin_poll (polls_made w + k) = Some line ->
  lower (strip line) = "p" ->
  (k < fuel)%nat ->
  wait_for_resume fuel w = (inr tt, polled (waited k w)).
Proof.
  revert fuel w. induction k as [|k IH]; intros fuel w Hq Hp Hl Hf.
  - destruct fuel as [|fuel]; [lia|]. rewrite Nat.add_0_r in Hp.
    cbn [wait_for_resume]. unfold mbind at 1. unfold M_bind at 1.
    by rewrite (check_for_pause_p w line Hp Hl).
  - destruct fuel as [|fuel]; [lia|].
    cbn [wait_for_resume]. unfold mbind at 1. unfold M_bind at 1.
    pose proof (Hq 0%nat ltac:(lia)) as H0. rewrite Nat.add_0_r in H0.
    rewrite (check_for_pause_quiet w H0).
    unfold sleep. unfold mbind, M_bind, modify. cbn [waited].
    apply IH; [| |done|lia].
    + intros i Hi. specialize (Hq (S i) ltac:(lia)).
      replace (polls_made (slept 1 (polled w)) + i)%nat
        with (polls_made w + S i)%nat by (simpl; lia). exact Hq.
    + replace (polls_made (slept 1 (polled w)) + k)%nat
        with (polls_made w + S k)%nat by (simpl; lia). exact Hp.
Qed.

(** Extra X14: once paused, the script looks at the terminal once a second and
    resumes at the first line that is [p] or [P] (white space around it
    ignored); it then reloads [.env] once, and replaces the key pool
    exactly when [SCOPUS_API_KEYS] is set and not empty. No request is
    sent and the file system is not touched. *)
Theorem pause_ends_at_the_first_p (k fuel : nat) (w : world) (line : string) :
  (forall i, (i < k)%nat -> no_pause_signal (stdin_poll (polls_made w + i)) = true) ->
  stdin_poll (polls_made w + k) = Some line ->
  lower (strip line) = "p" ->
  (k < fuel)%nat ->
  pause_and_reload fuel w
  = (inr tt,
     reloaded_keys (dotenv_keys (reloads_made w)) (reloaded (polled (waited k w)))) /\
  requests_made (snd (pause_and_reload fuel w)) = requests_made w /\
  fs (snd (pause_and_reload fuel w)) = fs w.
Proof.
  intros Hq Hp Hl Hf. split; [|split; by apply pause_and_reload_frame].
  unfold pause_and_reload. unfold mbind at 1. unfold M_bind at 1.
  rewrite (wait_for_resume_run k fuel w line Hq Hp Hl Hf).
  unfold_eff. simpl.
  destruct (waited_polls k w) as [_ ->].
  unfold reloaded_keys.
  destruct (dotenv_keys (reloads_made w)) as [s|]; [|reflexivity].
  destruct (String.eqb s ""); reflexivity.
Qed.

End KeyPool.

(** ** Identifiers and the shape of the records *)

Lemma prefix_app (s t : string) : String.prefix s (s ++ t) = true.
Proof.
  induction s as [|c s IH]; [by destruct t|]. rewrite append_cons. simpl.
  by destruct (ascii_dec c c).
Qed.

Lemma replace_from_skip (old new t s : string) :
  replace_from old new (String.length t) (t ++ s) = replace_from old new 0 s.
Proof.
  induction t as [|c t IH]; [by rewrite append_empty|].
  rewrite append_cons. simpl. exact IH.
Qed.

Lemma replace_absent (old new s : string) :
  contains old s = false -> replace old new s = s.
Proof.
  unfold replace. induction s as [|c s IH]; [reflexivity|].
  cbn [contains replace_from]. intros [Hp Hc]%orb_false_elim.
  rewrite Hp. by rewrite IH.
Qed.

Lemma replace_leading (old new s : string) :
  old <> "" -> replace old new (old ++ s) = new ++ replace old new s.
Proof.
  intros Hne. unfold replace. destruct old as [|c old]; [done|].
  rewrite append_cons. cbn [replace_from].
  rewrite <- append_cons, prefix_app.
  replace (String.length (String c old) - 1)%nat with (String.length old)
    by (cbn [String.length]; lia).
  by rewrite replace_from_skip.
Qed.

(** Extra X15: the identifier of a search entry is its [dc:identifier] with
    the [SCOPUS_ID:] label removed; an entry without the field has the
    empty identifier. *)
Theorem scopus_id_label_is_removed (d : list (string * pyval)) (s : string) :
  contains "SCOPUS_ID:" s = false ->
  (dict_find "dc:identifier" d = Some (VStr ("SCOPUS_ID:" ++ s)) ->
   entry_scopus_id (VDict d) = inr s) /\
  (dict_find "dc:identifier" d = Some (VStr s) ->
   entry_scopus_id (VDict d) = inr s) /\
  (dict_find "dc:identifier" d = None -> entry_scopus_id (VDict d) = inr "").
Proof.
  intros Hc. unfold entry_scopus_id, py_get, dict_get. split_and!; intros ->; simpl.
  - unfold ret. f_equal. rewrite replace_leading by done.
    by rewrite append_empty, replace_absent.
  - unfold ret. f_equal. by apply replace_absent.
  - reflexivity.
Qed.

Lemma rbind_inr {A B} (m : result A) (k : A -> result B) b :
  rbind m k = inr b -> exists a, m = inr a /\ k a = inr b.
Proof. destruct m as [e|a]; simpl; [discriminate|]. eauto. Qed.

Lemma map_result_inr {A B} (f : A -> result B) (l : list A) ys :
  map_result f l = inr ys -> Forall2 (fun x y => f x = inr y) l ys.
Proof.
  revert ys. induction l as [|x l IH]; intros ys; simpl.
  - intros [= <-]. constructor.
  - intros (y & Hy & (ys' & Hys & [= <-])%rbind_inr)%rbind_inr.
    constructor; [done|]. by apply IH.
Qed.

Section Shapes.
Context `{JL : JsonLib} `{OUT : Outside}.

(** A fetch returns the fallback or what [extract] made of a reply. *)
Lemma fetch_result_origin url params top_key extract fallback n (w w' : world) v :
  fetch_with_retries url params top_key extract fallback n w = (inr v, w') ->
  v = fallback \/ exists json_data, extract json_data = inr v.
Proof.
  revert w. induction n as [|n IH]; intros w.
  { simpl. intros [= <- <-]. by left. }
  cbn [fetch_with_retries]. unfold mbind at 1. unfold M_bind at 1.
  destruct (requests_get url params w) as [[e|resp] w1]; [discriminate|].
  assert (Hretry : forall w2,
    (cycle_api_key;; sleep 2;;
     fetch_with_retries url params top_key extract fallback n) w2 = (inr v, w') ->
    v = fallback \/ exists json_data, extract json_data = inr v).
  { intros w2. unfold mbind at 1. unfold M_bind at 1.
    destruct (cycle_api_key w2) as [[e|[]] w3]; [discriminate|].
    unfold sleep. unfold mbind at 1. unfold M_bind at 1. unfold modify at 1.
    apply IH. }
  destruct (Z.eqb (status_code resp) 429); [apply Hretry|].
  destruct (json_body resp) as [json_data|]; [|apply Hretry].
  unfold mbind at 1. unfold M_bind at 1. unfold lift_py at 1. unfold lift at 1.
  destruct (lacks_key top_key json_data) as [e|missing]; [discriminate|].
  destruct missing; [apply Hretry|].
  unfold lift_py, lift. destruct (extract json_data) as [e|v'] eqn:Ex; [discriminate|].
  intros [= <- <-]. right. eauto.
Qed.

Lemma extract_metadata_shape (scopus_id : string) (json_data v : pyval) :
  extract_metadata scopus_id json_data = inr v ->
  exists title abstract authors affiliation_name affiliation_country date doi
         keywords cited_by_count source,
    v = VDict [ ("Scopus_ID", VStr scopus_id); ("Title", title);
                ("Abstract", abstract); ("Authors", VList authors);
                ("Affiliation_Name", affiliation_name);
                ("Affiliation_Country", affiliation_country);
                ("Publication_Date", date); ("DOI", doi);
                ("Keywords", keywords);
                ("Cited_By_Count", VInt cited_by_count);
                ("Source", source) ].
Proof.
  intros H. unfold extract_metadata in H.
  repeat match type of H with
         | rbind _ _ = inr _ => apply rbind_inr in H as (? & _ & H)
         end.
  injection H as <-. by repeat eexists.
Qed.

Lemma extract_citations_shape (json_data v : pyval) :
  extract_citations json_data = inr v ->
  exists citations,
    v = VDict [("citations", VList citations)] /\
    Forall (fun c => exists citing_id url date cited country,
              c = VDict [ ("Citing_Article_Scopus_ID", VStr citing_id);
                          ("Citing_Article_URL", url);
                          ("Cited_Date", date);
                          ("Citing_Citation_Count", cited);
                          ("Citing_Affiliation_Country", country) ])
           citations.
Proof.
  intros H. unfold extract_citations in H.
  repeat match type of H with
         | rbind ?m _ = inr _ =>
             let Hm := fresh "Hm" in apply rbind_inr in H as (? & Hm & H)
         end.
  injection H as <-. eexists. split; [reflexivity|].
  apply map_result_inr in Hm2.
  clear -Hm2. induction Hm2 as [|entry c l l' Hc _ IH]; constructor; [|exact IH].
  unfold citation_of in Hc.
  repeat match type of Hc with
         | rbind _ _ = inr _ => apply rbind_inr in Hc as (? & _ & Hc)
         end.
  injection Hc as <-. by repeat eexists.
Qed.

(** Extra X16: what [fetch_metadata] returns is [None] or a record with the
    eleven fields of the source, in their order, whose [Scopus_ID] is the
    identifier asked for and whose [Cited_By_Count] is an integer; so the
    caller's test [if metadata] fails exactly when the attempts ran out, and
    its comparison of [Cited_By_Count] with zero cannot raise. *)
Theorem fetch_metadata_result_shape (scopus_id : string) (retries : nat)
  (w w' : world) (v : pyval) :
  fetch_metadata scopus_id retries w = (inr v, w') ->
  (v = VNone \/
   exists title abstract authors affiliation_name affiliation_country date doi
          keywords cited_by_count source,
     v = VDict [ ("Scopus_ID", VStr scopus_id); ("Title", title);
                 ("Abstract", abstract); ("Authors", VList authors);
                 ("Affiliation_Name", affiliation_name);
                 ("Affiliation_Country", affiliation_country);
                 ("Publication_Date", date); ("DOI", doi);
                 ("Keywords", keywords);
                 ("Cited_By_Count", VInt cited_by_count);
                 ("Source", source) ]) /\
  (truthy v = false <-> v = VNone) /\
  (truthy v = true ->
   exists c, py_getitem v "Cited_By_Count" = inr (VInt c) /\
             py_positive (VInt c) = inr (Z.ltb 0 c)).
Proof.
  intros H. apply fetch_result_origin in H.
  assert (Hshape : v = VNone \/
   exists title abstract authors affiliation_name affiliation_country date doi
          keywords cited_by_count source,
     v = VDict [ ("Scopus_ID", VStr scopus_id); ("Title", title);
                 ("Abstract", abstract); ("Authors", VList authors);
                 ("Affiliation_Name", affiliation_name);
                 ("Affiliation_Country", affiliation_country);
                 ("Publication_Date", date); ("DOI", doi);
                 ("Keywords", keywords);
                 ("Cited_By_Count", VInt cited_by_count);
                 ("Source", source) ]).
  { destruct H as [->|(json_data & H)]; [by left|]. right.
    by apply extract_metadata_shape in H. }
  split; [exact Hshape|].
  destruct Hshape as [->|(title & abstract & authors & an & ac & date & doi & kw
                          & c & source & ->)].
  - split; [done|]. discriminate.
  - split; [split; discriminate|]. intros _. by exists c.
Qed.

(** Extra X17: what [fetch_citations] returns is a dict whose only field,
    [citations], is a list of records with the five fields of the source,
    one per entry of the reply, the first of them a string; so the
    caller's subscript [citation_data["citations"]] cannot raise. *)
Theorem fetch_citations_result_shape (scopus_id : string) (count : Z)
  (retries : nat) (w w' : world) (v : pyval) :
  fetch_citations scopus_id count retries w = (inr v, w') ->
  exists citations,
    v = VDict [("citations", VList citations)] /\
    py_getitem v "citations" = inr (VList citations) /\
    Forall (fun c => exists citing_id url date cited country,
              c = VDict [ ("Citing_Article_Scopus_ID", VStr citing_id);
                          ("Citing_Article_URL", url);
                          ("Cited_Date", date);
                          ("Citing_Citation_Count", cited);
                          ("Citing_Affiliation_Country", country) ])
           citations.
Proof.
  intros H. apply fetch_result_origin in H as [->|(json_data & H)].
  { exists []. split; [done|]. split; [done|]. constructor. }
  apply extract_citations_shape in H as (citations & -> & Hall).
  exists citations. split; [done|]. split; [done|exact Hall].
Qed.

End Shapes.

(** ** The first usable reply *)

Section Fetch.
Context `{JL : JsonLib} `{OUT : Outside}.

Lemma fetch_usable url params top_key extract fallback n (w : world) key json_data :
  nth_error (API_KEYS w) (current_api_key_index w) = Some key ->
  let req := {| url := url; api_key := key; params := params |} in
  status_code (respond (requests_made w) req) <> 429 ->
  json_body (respond (requests_made w) req) = Some json_data ->
  lacks_key top_key json_data = inr false ->
  fetch_with_retries url params top_key extract fallback (S n) w =
  (outcome (extract json_data), sent req w).
Proof.
  intros Hk req Hs Hj Hl.
  cbn [fetch_with_retries]. unfold mbind at 1. unfold M_bind at 1.
  pose proof (requests_get_ok url params w key Hk) as Hreq. cbv zeta in Hreq.
  rewrite Hreq. fold req.
  destruct (Z.eqb_spec (status_code (respond (requests_made w) req)) 429); [done|].
  rewrite Hj. unfold mbind at 1. unfold M_bind at 1.
  unfold lift_py at 1. unfold lift at 1. rewrite Hl.
  unfold lift_py, lift, outcome. reflexivity.
Qed.

Lemma fetch_after_retries url params top_key extract fallback j n (w : world)
  key json_data :
  let mk := fun key => {| url := url; api_key := key; params := params |} in
  all_retried top_key mk j w = true ->
  let w1 := after_retries mk j w in
  nth_error (API_KEYS w1) (current_api_key_index w1) = Some key ->
  status_code (respond (requests_made w1) (mk key)) <> 429 ->
  json_body (respond (requests_made w1) (mk key)) = Some json_data ->
  lacks_key top_key json_data = inr false ->
  fetch_with_retries url params top_key extract fallback (j + S n) w =
  (outcome (extract json_data), sent (mk key) w1).
Proof.
  intros mk. revert w. induction j as [|j IH]; intros w Hall w1.
  - intros Hk Hs Hj Hl. by apply fetch_usable.
  - subst w1. cbn [all_retried after_retries] in *.
    destruct (nth_error (API_KEYS w) (current_api_key_index w)) as [key0|] eqn:Hk0;
      [|discriminate].
    apply andb_prop in Hall as [Hr Hall].
    intros Hk Hs Hj Hl.
    change (S j + S n)%nat with (S (j + S n)).
    rewrite (fetch_retry_step url params top_key extract fallback (j + S n) w key0 Hk0 Hr).
    by apply IH.
Qed.

(** Extra X18: [fetch_metadata] and [fetch_abstract] return what they extract
    from the first reply that is neither a 429, nor without a JSON body,
    nor without the expected top-level field: after [j] replies that were
    tried again they have sent [j + 1] requests, rotated the key [j] times,
    and do not rotate after the reply they use. *)
Theorem fetch_uses_the_first_usable_reply (scopus_id : string) (j n : nat)
  (w : world) (key : option string) (json_data : pyval) :
  let mk := abstract_request scopus_id in
  all_retried "abstracts-retrieval-response" mk j w = true ->
  let w1 := after_retries mk j w in
  nth_error (API_KEYS w1) (current_api_key_index w1) = Some key ->
  status_code (respond (requests_made w1) (mk key)) <> 429 ->
  json_body (respond (requests_made w1) (mk key)) = Some json_data ->
  lacks_key "abstracts-retrieval-response" json_data = inr false ->
  fetch_metadata scopus_id (j + S n) w
  = (outcome (extract_metadata scopus_id json_data), sent (mk key) w1) /\
  fetch_abstract scopus_id (j + S n) w
  = (outcome (extract_abstract json_data), sent (mk key) w1).
Proof.
  intros mk Hall w1 Hk Hs Hj Hl. split.
  - by apply (fetch_after_retries (ABSTRACT_URL ++ scopus_id) []
                "abstracts-retrieval-response" (extract_metadata scopus_id) VNone
                j n w key json_data).
  - by apply (fetch_after_retries (ABSTRACT_URL ++ scopus_id) []
                "abstracts-retrieval-response" extract_abstract (VStr "N/A")
                j n w key json_data).
Qed.

End Fetch.

(** ** Checkpoint names *)

Lemma ends_with_app (s suf : string) : ends_with suf (s ++ suf) = true.
Proof.
  unfold ends_with. rewrite length_append.
  replace (String.length suf <=? String.length s + String.length suf)%nat with true
    by (symmetry; apply Nat.leb_le; lia).
  replace (String.length s + String.length suf - String.length suf)%nat
    with (String.length s) by lia.
  rewrite substring_app_r. simpl. apply String.eqb_refl.
Qed.

(** Extra X19: every name that the harvester gives a checkpoint is matched by
    the pattern with which [resume_backup] looks for checkpoints, and read
    back as the count it was written with; the name of the month's final
    output is not matched, so a finished month is never taken for a
    checkpoint of itself. *)
Theorem checkpoint_names_match_the_pattern (month : string) (n : Z) :
  is_backup_name month (backup_name month n) = true /\
  is_backup_name month (month ++ "_comp_23_25.json") = false /\
  (In month month_list -> backup_index (backup_name month n) = inr n).
Proof.
  split; [|split].
  - unfold is_backup_name, backup_name.
    rewrite <- (string_app_assoc month "_"). rewrite prefix_app.
    rewrite <- (string_app_assoc (month ++ "_")). rewrite ends_with_app.
    rewrite !length_append. simpl. apply Nat.leb_le. lia.
  - unfold is_backup_name. rewrite !length_append.
    replace (_ <=? _)%nat with false; [by rewrite andb_false_r|].
    symmetry. apply Nat.leb_gt. simpl. lia.
  - apply backup_index_name.
Qed.

(** ** Resuming and finishing a month *)

Section WriteFacts.
Context {T : Type}.

Lemma ancestors_proper (p q : list string) : In q (ancestors p) -> q <> p.
Proof.
  unfold ancestors. intros (n & <- & Hn%in_seq)%in_map_iff Heq.
  apply (f_equal length) in Heq. rewrite length_take in Heq. lia.
Qed.

(** What has been written is there. *)
Lemma write_file_exists (f f' : gmap (list string) (node T)) (p : list string) (t : T) :
  write_file f p t = inr f' -> stat f' p = Some (File t).
Proof.
  intros (-> & Hr & Hne)%write_file_inv. unfold stat.
  assert (Hr' : reachable (<[p:=File t]> f) p = true).
  { unfold reachable in *. apply forallb_forall. intros q Hq.
    pose proof (proj1 (forallb_forall _ _) Hr q Hq) as Hd.
    pose proof (ancestors_proper p q Hq) as Hqp.
    unfold is_dir_at in *. destruct q; [done|]. by rewrite lookup_insert_ne. }
  rewrite Hr'. destruct p; [done|]. by rewrite lookup_insert_eq.
Qed.

End WriteFacts.

Section Months.
Context `{JL : JsonLib} `{OUT : Outside}.

Lemma resume_backup_frame (year_dir : list string) (month : string) (w : world) :
  snd (resume_backup year_dir month w) = w.
Proof.
  unfold resume_backup. unfold_eff.
  destruct (backup_indices _) as [|first others]; [reflexivity|]. simpl.
  destruct (read_file _ _) as [e|t]; simpl; [reflexivity|].
  by destruct (json_load t).
Qed.

(** Extra X20: [resume_backup] only reads: it leaves the world as it found it,
    whatever it returns. It trusts the spelling of the harvester: when the
    file under the harvester's name for the largest count is not there (the
    count was read from a name spelt otherwise), it raises and the run
    stops, whatever other checkpoints exist. *)
Theorem resume_backup_only_reads (year_dir : list string) (month : string)
  (w : world) :
  snd (resume_backup year_dir month w) = w /\
  (forall first others,
     backup_indices (backup_files_in w year_dir month) = first :: others ->
     exists_ (fs w) (year_dir ++ [backup_name month (max_index first others)])%list
     = false ->
     resume_backup year_dir month w = (inl (Raised OSError), w)).
Proof.
  split; [apply resume_backup_frame|].
  - intros first others Hb Hex. unfold resume_backup. unfold_eff.
    unfold backup_files_in in Hb. rewrite Hb. simpl.
    unfold exists_ in Hex. unfold read_file.
    by destruct (stat (fs w) _).
Qed.

Lemma get_year_folder_inv (year : string) (w w' : world) r :
  get_year_folder year w = (inr r, w') ->
  r = (base_backup_dir ++ [year])%list /\
  exists f, makedirs (base_backup_dir ++ [year])%list (fs w) = (inr tt, f) /\
            w' = set_fs f w.
Proof.
  unfold get_year_folder, Scopus.on_fs. unfold_eff.
  destruct (makedirs _ (fs w)) as [[e|[]] f]; [discriminate|].
  intros [= <- <-]. eauto.
Qed.

Lemma backup_data_inv (data : pyval) (p : list string) (w w' : world) :
  backup_data data p w = (inr tt, w') ->
  stat (fs w') p = Some (File (json_dump data 4 true)).
Proof.
  unfold backup_data, Scopus.on_fs.
  destruct (write_file (fs w) p _) as [e|f'] eqn:Ew; [discriminate|].
  intros [= <-]. simpl. by apply write_file_exists in Ew.
Qed.

(** Extra X21: a month that [collect_month] has completed stays completed:
    its final output exists afterwards, so that another turn of the loop
    for the same month, in this run or in a later one, sends no request and
    changes nothing. *)
Theorem finished_month_is_not_collected_again (fuel fuel' : nat) (year month : Z)
  (w w' : world) :
  collect_month fuel (year, month) w = (inr tt, w') ->
  exists_ (fs w')
    (output_file_of (base_backup_dir ++ [str_of_int year])%list
       (nth (Z.to_nat (month - 1)) month_list "")) = true /\
  collect_month fuel' (year, month) w' = (inr tt, w').
Proof.
  intros H.
  assert (Hex : exists_ (fs w')
    (output_file_of (base_backup_dir ++ [str_of_int year])%list
       (nth (Z.to_nat (month - 1)) month_list "")) = true).
  { unfold collect_month in H.
    unfold mbind at 1 in H. unfold M_bind at 1 in H.
    destruct (get_year_folder (str_of_int year) w) as [[e|yd] w0] eqn:Ey; [discriminate|].
    apply get_year_folder_inv in Ey as (-> & f & Hmk & ->).
    unfold mbind at 1 in H. unfold M_bind at 1 in H. unfold get_world at 1 in H.
    destruct (exists_ (fs (set_fs f w)) _) eqn:Eex.
    { injection H as <-. exact Eex. }
    unfold mbind at 1 in H. unfold M_bind at 1 in H.
    destruct (pause_point fuel (set_fs f w)) as [[e|[]] w1]; [discriminate|].
    unfold mbind at 1 in H. unfold M_bind at 1 in H.
    destruct (resume_backup _ _ w1) as [[e|[start_offset monthly_articles]] w2];
      [discriminate|].
    unfold mbind at 1 in H. unfold M_bind at 1 in H.
    destruct (Scopus.page_loop fuel _ _ _ _ w2) as [[e|[[o t] ma]] w3]; [discriminate|].
    apply backup_data_inv in H. unfold exists_. by rewrite H. }
  split; [exact Hex|]. by apply collect_month_skip.
Qed.

End Months.

(** ** The calendar *)

Import Dates.

Lemma next_month_index (year month : Z) :
  1 <= month <= 12 ->
  let '(year', month') := next_month (year, month) in
  1 <= month' <= 12 /\ 12 * year' + month' = 12 * year + month + 1.
Proof.
  intros Hm. unfold next_month. destruct (Z.eqb_spec month 12); lia.
Qed.

(** Extra X22: for a date that [datetime] can hold, the step
    [replace(day=28) + timedelta(days=4)] followed by [replace(day=1)]
    lands on the first day of the next calendar month, whatever the day it
    starts from, and December goes to January of the next year; from
    December 9999 there is no next month and the sum raises
    [OverflowError]. The loop takes the step only from a first of the month
    that is not after 31 January 2025: its test is then [before_end], the
    step does not raise, and it is [next_month], which moves exactly one
    month ahead. *)
Theorem date_step_is_the_next_month (year month day : Z) :
  MINYEAR <= year <= MAXYEAR ->
  1 <= month <= 12 ->
  advance (year, month, day)
  = (if Z.eqb year MAXYEAR && Z.eqb month 12 then inl OverflowError
     else inr (fst (next_month (year, month)), snd (next_month (year, month)), 1)) /\
  date_le (year, month, 1) end_date = before_end (year, month) /\
  (before_end (year, month) = true ->
   advance (year, month, day)
   = inr (fst (next_month (year, month)), snd (next_month (year, month)), 1)) /\
  12 * fst (next_month (year, month)) + snd (next_month (year, month))
  = 12 * year + month + 1.
Proof.
  unfold MINYEAR, MAXYEAR. intros Hy Hm.
  assert (Hstep : advance (year, month, day)
    = (if Z.eqb year 9999 && Z.eqb month 12 then inl OverflowError
       else inr (fst (next_month (year, month)), snd (next_month (year, month)), 1))).
  { destruct (Z.eq_dec month 12) as [->|Hm12].
    - rewrite andb_true_r.
      assert (H1 : next_day (year, 12, 28) = inr (year, 12, 29)) by reflexivity.
      assert (H2 : next_day (year, 12, 29) = inr (year, 12, 30)) by reflexivity.
      assert (H3 : next_day (year, 12, 30) = inr (year, 12, 31)) by reflexivity.
      assert (H4 : next_day (year, 12, 31)
                   = if Z.ltb year 9999 then inr (year + 1, 1, 1) else inl OverflowError)
        by reflexivity.
      unfold advance, replace_day. cbn [add_days].
      rewrite H1. cbn [rbind]. rewrite H2. cbn [rbind]. rewrite H3. cbn [rbind].
      rewrite H4.
      destruct (Z.eqb_spec year 9999) as [->|Hne]; [reflexivity|].
      destruct (Z.ltb_spec year 9999); [reflexivity|lia].
    - unfold advance, replace_day, add_days, next_day, days_in_month, MAXYEAR, rbind,
        ret, raise.
      assert (Hcases : month = 1 \/ month = 2 \/ month = 3 \/ month = 4 \/ month = 5
                       \/ month = 6 \/ month = 7 \/ month = 8 \/ month = 9
                       \/ month = 10 \/ month = 11) by lia.
      destruct Hcases as [->|[->|[->|[->|[->|[->|[->|[->|[->|[->| ->]]]]]]]]]];
        rewrite ?andb_false_r; try reflexivity.
      destruct (is_leap year) eqn:E; cbn; rewrite ?E; reflexivity. }
  split; [exact Hstep|]. split; [|split].
  - unfold date_le, end_date, before_end.
    change (Z.leb 1 31) with true. rewrite andb_true_r.
    destruct (Z.ltb_spec year 2025); [reflexivity|]. simpl.
    destruct (Z.eqb_spec year 2025); [|reflexivity]. simpl.
    destruct (Z.ltb_spec month 1), (Z.eqb_spec month 1), (Z.leb_spec month 1);
      simpl; try reflexivity; lia.
  - intros Hb. rewrite Hstep.
    assert (Hlt : year <= 2025).
    { unfold before_end in Hb. apply orb_true_iff in Hb as [Hb|Hb].
      - apply Z.ltb_lt in Hb. lia.
      - apply andb_true_iff in Hb as [Hb _]. apply Z.eqb_eq in Hb. lia. }
    destruct (Z.eqb_spec year 9999); [lia|reflexivity].
  - pose proof (next_month_index year month Hm) as H.
    destruct (next_month (year, month)) as [y' m']. simpl. lia.
Qed.

(** ** The pagination of the main harvester comes to an end *)

Section Termination.
Context `{JL : JsonLib} `{OUT : Outside}.

Lemma bind_fueled {A B} (m : M halt world A) (k : A -> M halt world B) (w : world) :
  fst (m w) <> inl OutOfFuel ->
  (forall a w1, fst (k a w1) <> inl OutOfFuel) ->
  fst ((m ≫= k) w) <> inl OutOfFuel.
Proof.
  intros Hm Hk. unfold mbind, M_bind.
  destruct (m w) as [[e|a] w1]; simpl in *; [congruence|apply Hk].
Qed.

Lemma lift_py_fueled {A} (r : result A) (w : world) :
  fst (lift_py r w) <> inl OutOfFuel.
Proof. unfold lift_py, lift. destruct r; simpl; congruence. Qed.

Lemma backup_data_fueled data p (w : world) :
  fst (backup_data data p w) <> inl OutOfFuel.
Proof.
  unfold backup_data, Scopus.on_fs. destruct (write_file _ _ _); simpl; congruence.
Qed.

Lemma fetch_fueled url params top_key extract fallback n (w : world) :
  fst (fetch_with_retries url params top_key extract fallback n w) <> inl OutOfFuel.
Proof. apply fetch_bounded. Qed.

Lemma requests_get_fueled url params (w : world) :
  fst (requests_get url params w) <> inl OutOfFuel.
Proof.
  unfold requests_get, get_headers. unfold_eff.
  destruct (nth_error _ _); simpl; congruence.
Qed.

Lemma process_entry_fueled year_dir month_name entry st (w : world) :
  fst (Scopus.process_entry year_dir month_name entry st w) <> inl OutOfFuel.
Proof.
  destruct st as [total_processed monthly_articles]. unfold Scopus.process_entry.
  apply bind_fueled; [apply lift_py_fueled|]. intros scopus_id w1.
  apply bind_fueled; [apply fetch_fueled|]. intros metadata w2.
  destruct (truthy metadata); [|simpl; congruence].
  apply bind_fueled; [apply fetch_fueled|]. intros abstract w3.
  apply bind_fueled; [apply lift_py_fueled|]. intros metadata' w4.
  apply bind_fueled; [apply lift_py_fueled|]. intros cited w5.
  apply bind_fueled; [apply lift_py_fueled|]. intros has_citations w6.
  apply bind_fueled.
  { destruct has_citations; [|apply lift_py_fueled].
    apply bind_fueled; [apply fetch_fueled|]. intros citation_data w7.
    apply bind_fueled; [apply lift_py_fueled|]. intros citations w8.
    apply lift_py_fueled. }
  intros metadata'' w7.
  apply bind_fueled; [apply lift_py_fueled|]. intros monthly_articles' w8.
  apply bind_fueled; [|intros; simpl; congruence].
  destruct (Z.eqb _ 0); [|simpl; congruence].
  apply bind_fueled; [apply backup_data_fueled|]. intros [] w9. simpl. congruence.
Qed.

Lemma for_each_entries_fueled year_dir month_name entries st (w : world) :
  fst (for_each (Scopus.process_entry year_dir month_name) entries st w)
  <> inl OutOfFuel.
Proof.
  revert st w. induction entries as [|entry entries IH]; intros st w.
  - simpl. congruence.
  - cbn [for_each]. apply bind_fueled; [apply process_entry_fueled|]. intros st' w1.
    apply IH.
Qed.

(** Extra X23: as long as the operator asks for no pause, the pagination of a
    month in the main harvester ends: from offset [o] it takes at most
    [(5000 - o) / 200] further turns (25 from offset 0), whatever the
    service replies; it never depends on the service running out of
    pages. *)
Theorem main_pagination_ends (fuel : nat) (query : string)
  (year_dir : list string) (month_name : string)
  (current_offset total_processed : Z) (monthly_articles : pyval) (w : world) :
  (forall n, no_pause_signal (stdin_poll n) = true) ->
  5000 - current_offset <= 200 * Z.of_nat fuel ->
  fst (Scopus.page_loop (S fuel) query year_dir month_name
         (current_offset, total_processed, monthly_articles) w)
  <> inl OutOfFuel.
Proof.
  intros Hquiet.
  revert current_offset total_processed monthly_articles w.
  induction fuel as [|fuel IH]; intros current_offset total_processed monthly_articles w Hf.
  - cbn [Scopus.page_loop].
    destruct (Z.ltb_spec current_offset 5000); [lia|]. simpl. congruence.
  - cbn [Scopus.page_loop].
    destruct (Z.ltb_spec current_offset 5000); [|simpl; congruence].
    apply bind_fueled.
    { rewrite pause_point_quiet by apply Hquiet. simpl. congruence. }
    intros [] w1.
    apply bind_fueled; [apply requests_get_fueled|]. intros response w2.
    destruct (negb _).
    { apply bind_fueled; [apply lift_py_fueled|]. intros; simpl; congruence. }
    apply bind_fueled; [apply lift_py_fueled|]. intros data w3.
    apply bind_fueled; [apply lift_py_fueled|]. intros results w4.
    apply bind_fueled; [apply lift_py_fueled|]. intros entries w5.
    destruct (negb _); [simpl; congruence|].
    apply bind_fueled; [apply lift_py_fueled|]. intros entry_list w6.
    apply bind_fueled; [apply for_each_entries_fueled|]. intros [tp ma] w7.
    apply IH. unfold COUNT. lia.
Qed.

End Termination.

(** ** Checkpoints hold as many records as their names say *)

(** Take the first statement of a sequence apart: [a] and [w1] name what it
    returns and the world it leaves, [E] its equation. *)
Ltac bind_in H a w1 E :=
  unfold mbind at 1 in H; unfold M_bind at 1 in H;
  match type of H with
  | (match ?m with _ => _ end) = _ => destruct m as [[?|a] w1] eqn:E
  end.

Section Checkpoints.
Context `{JL : JsonLib} `{OUT : Outside}.

Lemma checkpoints_only_refl (year_dir : list string) (month : string)
  (f : gmap (list string) (node file_text)) :
  checkpoints_only year_dir month f f.
Proof. intros p. by left. Qed.

Lemma checkpoints_only_trans (year_dir : list string) (month : string)
  (f1 f2 f3 : gmap (list string) (node file_text)) :
  checkpoints_only year_dir month f1 f2 -> checkpoints_only year_dir month f2 f3 ->
  checkpoints_only year_dir month f1 f3.
Proof.
  intros H12 H23 p. destruct (H23 p) as [E|(l & -> & Hl & Hm)].
  - rewrite E. apply H12.
  - right. by exists l.
Qed.

Lemma lift_py_inv {A} (r : result A) (w w1 : world) x :
  lift_py r w = (x, w1) -> w1 = w /\ x = outcome r.
Proof. unfold lift_py, lift, outcome. by intros [= <- <-]. Qed.

Lemma outcome_inr {A} (r : result A) (a : A) : inr a = outcome r -> r = inr a.
Proof. destruct r; simpl; congruence. Qed.

Lemma fetch_fs url params top_key extract fallback n (w w1 : world) x :
  fetch_with_retries url params top_key extract fallback n w = (x, w1) ->
  fs w1 = fs w.
Proof.
  intros E. pose proof (fetch_bounded url params top_key extract fallback n w) as H.
  cbv zeta in H. rewrite E in H. apply H.
Qed.

Lemma pause_point_fs (fuel : nat) (w : world) : fs (snd (pause_point fuel w)) = fs w.
Proof.
  unfold pause_point. unfold mbind, M_bind.
  destruct (check_for_pause_frame w) as (b & ->). destruct b; [|done].
  by destruct (pause_and_reload_frame fuel (polled w)) as (_ & -> & _).
Qed.

Lemma requests_get_fs url params (w w1 : world) x :
  requests_get url params w = (x, w1) -> fs w1 = fs w.
Proof.
  unfold requests_get, get_headers. unfold_eff.
  destruct (nth_error _ _); simpl; by intros [= <- <-].
Qed.

(** One entry of the main harvester, from a count that is the length of
    the list. *)
Lemma process_entry_checkpoint year_dir month entry (l : list pyval)
  (w w' : world) r :
  Scopus.process_entry year_dir month entry (Z.of_nat (length l), VList l) w
  = (r, w') ->
  checkpoints_only year_dir month (fs w) (fs w') /\
  forall st', r = inr st' ->
    exists l', st' = (Z.of_nat (length l'), VList l') /\ l `prefix_of` l'.
Proof.
  intros H. unfold Scopus.process_entry in H.
  bind_in H scopus_id w1 E1; apply lift_py_inv in E1 as [-> _].
  { injection H as <- <-. split; [apply checkpoints_only_refl|discriminate]. }
  bind_in H metadata w2 E2; apply fetch_fs in E2.
  { injection H as <- <-. rewrite E2. split; [apply checkpoints_only_refl|discriminate]. }
  destruct (truthy metadata).
  2:{ injection H as <- <-. rewrite E2. split; [apply checkpoints_only_refl|].
      intros st' [= <-]. by exists l. }
  bind_in H abstract w3 E3; apply fetch_fs in E3; rewrite E2 in E3.
  { injection H as <- <-. rewrite E3. split; [apply checkpoints_only_refl|discriminate]. }
  bind_in H metadata1 w4 E4; apply lift_py_inv in E4 as [-> _].
  { injection H as <- <-. rewrite E3. split; [apply checkpoints_only_refl|discriminate]. }
  bind_in H cited w5 E5; apply lift_py_inv in E5 as [-> _].
  { injection H as <- <-. rewrite E3. split; [apply checkpoints_only_refl|discriminate]. }
  bind_in H has_citations w6 E6; apply lift_py_inv in E6 as [-> _].
  { injection H as <- <-. rewrite E3. split; [apply checkpoints_only_refl|discriminate]. }
  unfold mbind at 1 in H. unfold M_bind at 1 in H.
  match type of H with
  | (match ?m with _ => _ end) = _ =>
      assert (Hfs7 : fs (snd m) = fs w3); [|destruct m as [[?|metadata2] w7] eqn:E7]
  end.
  { destruct has_citations.
    - unfold mbind at 1. unfold M_bind at 1.
      destruct (fetch_citations scopus_id 200 3 w3) as [[?|citation_data] w7] eqn:E7;
        apply fetch_fs in E7; [done|].
      unfold mbind at 1. unfold M_bind at 1.
      destruct (lift_py _ w7) as [[?|citations] w8] eqn:E8;
        apply lift_py_inv in E8 as [-> _]; [done|].
      destruct (lift_py _ w7) as [x w9] eqn:E9.
      apply lift_py_inv in E9 as [-> _]. done.
    - destruct (lift_py _ w3) as [x w9] eqn:E9.
      apply lift_py_inv in E9 as [-> _]. done. }
  { injection H as <- <-. simpl in Hfs7. rewrite Hfs7, E3.
    split; [apply checkpoints_only_refl|discriminate]. }
  simpl in Hfs7. rewrite E3 in Hfs7.
  unfold mbind at 1 in H. unfold M_bind at 1 in H.
  unfold lift_py at 1 in H. unfold lift at 1 in H. cbn [py_append] in H.
  unfold ret in H.
  assert (Hlen : Z.of_nat (length l) + 1 = Z.of_nat (length (l ++ [metadata2]))).
  { rewrite length_app. simpl. lia. }
  rewrite Hlen in H.
  unfold mbind at 1 in H. unfold M_bind at 1 in H.
  destruct (Z.eqb_spec (Z.of_nat (length (l ++ [metadata2])) mod BACKUP_INTERVAL) 0)
    as [Hmod|Hmod].
  - unfold mbind at 1 in H. unfold M_bind at 1 in H.
    unfold backup_data, Scopus.on_fs in H.
    destruct (write_file (fs w7) _ _) as [e|f'] eqn:Ew.
    + injection H as <- <-. simpl. rewrite Hfs7.
      split; [apply checkpoints_only_refl|discriminate].
    + apply write_file_inv in Ew as (-> & _ & _).
      unfold sleep, modify, mret, M_ret in H. injection H as <- <-. simpl. split.
      * intros p. rewrite Hfs7.
        destruct (decide (p = (year_dir
                   ++ [backup_name month (Z.of_nat (length (l ++ [metadata2])))])%list))
          as [->|Hne].
        -- right. exists (l ++ [metadata2])%list. by rewrite lookup_insert_eq.
        -- left. by rewrite lookup_insert_ne.
      * intros st' [= <-]. eexists. split; [reflexivity|]. by apply prefix_app_r.
  - unfold mret, M_ret in H. injection H as <- <-. rewrite Hfs7.
    split; [apply checkpoints_only_refl|].
    intros st' [= <-]. eexists. split; [reflexivity|]. by apply prefix_app_r.
Qed.

Lemma for_each_entries_checkpoint year_dir month entries (l : list pyval)
  (w w' : world) r :
  for_each (Scopus.process_entry year_dir month) entries
    (Z.of_nat (length l), VList l) w = (r, w') ->
  checkpoints_only year_dir month (fs w) (fs w') /\
  forall st', r = inr st' ->
    exists l', st' = (Z.of_nat (length l'), VList l') /\ l `prefix_of` l'.
Proof.
  revert l w. induction entries as [|entry entries IH]; intros l w.
  - simpl. intros [= <- <-]. split; [apply checkpoints_only_refl|].
    intros st' [= <-]. by exists l.
  - cbn [for_each]. intros H.
    unfold mbind at 1 in H. unfold M_bind at 1 in H.
    destruct (Scopus.process_entry year_dir month entry _ w) as [[e|st1] w1] eqn:E1;
      apply process_entry_checkpoint in E1 as [Hrel Hst].
    + injection H as <- <-. split; [exact Hrel|discriminate].
    + destruct (Hst st1 eq_refl) as (l1 & -> & Hpre).
      apply IH in H as [Hrel' Hst']. split.
      * by apply (checkpoints_only_trans _ _ _ (fs w1)).
      * intros st' Hr. destruct (Hst' st' Hr) as (l' & -> & Hpre').
        exists l'. split; [done|]. by etrans.
Qed.

(** The pagination of a month, from a count that is the length of the
    list. *)
Lemma page_loop_checkpoint (fuel : nat) (query : string)
  (year_dir : list string) (month : string) (current_offset : Z)
  (l : list pyval) (w w' : world) r :
  Scopus.page_loop fuel query year_dir month
    (current_offset, Z.of_nat (length l), VList l) w = (r, w') ->
  checkpoints_only year_dir month (fs w) (fs w') /\
  forall st', r = inr st' ->
    exists offset' l',
      st' = (offset', Z.of_nat (length l'), VList l') /\ l `prefix_of` l'.
Proof.
  revert current_offset l w r w'.
  induction fuel as [|fuel IH]; intros current_offset l w r w' H.
  { simpl in H. injection H as <- <-. split; [apply checkpoints_only_refl|discriminate]. }
  cbn [Scopus.page_loop] in H.
  destruct (Z.ltb current_offset 5000).
  2:{ injection H as <- <-. split; [apply checkpoints_only_refl|].
      intros st' [= <-]. by exists current_offset, l. }
  pose proof (pause_point_fs fuel w) as Hp.
  bind_in H u w1 E1; simpl in Hp.
  { injection H as <- <-. rewrite Hp. split; [apply checkpoints_only_refl|discriminate]. }
  bind_in H resp w2 E2; apply requests_get_fs in E2; rewrite Hp in E2.
  { injection H as <- <-. rewrite E2. split; [apply checkpoints_only_refl|discriminate]. }
  destruct (negb (Z.eqb (status_code resp) 200)).
  { bind_in H x w3 E3; apply lift_py_inv in E3 as [-> _];
      injection H as <- <-; rewrite E2;
      (split; [apply checkpoints_only_refl|]); [discriminate|].
    intros st' [= <-]. by exists current_offset, l. }
  bind_in H data w3 E3; apply lift_py_inv in E3 as [-> _].
  { injection H as <- <-. rewrite E2. split; [apply checkpoints_only_refl|discriminate]. }
  bind_in H results w4 E4; apply lift_py_inv in E4 as [-> _].
  { injection H as <- <-. rewrite E2. split; [apply checkpoints_only_refl|discriminate]. }
  bind_in H entries w5 E5; apply lift_py_inv in E5 as [-> _].
  { injection H as <- <-. rewrite E2. split; [apply checkpoints_only_refl|discriminate]. }
  destruct (negb (truthy entries)).
  { injection H as <- <-. rewrite E2. split; [apply checkpoints_only_refl|].
    intros st' [= <-]. by exists current_offset, l. }
  bind_in H entry_list w6 E6; apply lift_py_inv in E6 as [-> _].
  { injection H as <- <-. rewrite E2. split; [apply checkpoints_only_refl|discriminate]. }
  bind_in H st1 w7 E7; apply for_each_entries_checkpoint in E7 as [Hrel Hst];
    rewrite E2 in Hrel.
  { injection H as <- <-. split; [exact Hrel|discriminate]. }
  destruct (Hst st1 eq_refl) as (l1 & -> & Hpre).
  apply IH in H as [Hrel' Hst']. split.
  - by apply (checkpoints_only_trans _ _ _ (fs w7)).
  - intros st' Hr. destruct (Hst' st' Hr) as (o' & l' & -> & Hpre').
    exists o', l'. split; [done|]. by etrans.
Qed.

(** Extra X24: when the pagination of the main harvester starts from a count
    that is the length of the list of records (as it is on a fresh start
    and after resuming from a checkpoint that holds as many records as its
    name says), the count stays the length of the list, the list only
    grows, and every file that the loop creates or changes is a checkpoint
    of the month that holds as many records as its name says, a multiple of
    500. *)
Theorem main_checkpoints_hold_their_count (fuel : nat) (query : string)
  (year_dir : list string) (month : string) (current_offset : Z)
  (l : list pyval) (w : world) :
  let out := Scopus.page_loop fuel query year_dir month
               (current_offset, Z.of_nat (length l), VList l) w in
  checkpoints_only year_dir month (fs w) (fs (snd out)) /\
  forall st', fst out = inr st' ->
    exists offset' l',
      st' = (offset', Z.of_nat (length l'), VList l') /\ l `prefix_of` l'.
Proof.
  cbv zeta.
  destruct (Scopus.page_loop fuel query year_dir month
              (current_offset, Z.of_nat (length l), VList l) w) as [r w'] eqn:E.
  exact (page_loop_checkpoint _ _ _ _ _ _ _ _ _ E).
Qed.

Lemma resume_backup_fs_only (year_dir : list string) (month : string)
  (w1 w2 : world) :
  fs w1 = fs w2 ->
  fst (resume_backup year_dir month w1) = fst (resume_backup year_dir month w2).
Proof.
  intros Hfs. unfold resume_backup. unfold_eff. rewrite Hfs.
  destruct (backup_indices _) as [|first others]; [reflexivity|]. simpl.
  destruct (read_file _ _) as [e|t]; simpl; [reflexivity|].
  by destruct (json_load t).
Qed.

(** Extra X28: what was resumed is not lost. When a month is not finished and
    [resume_backup] returns a list of records together with its length,
    a completed turn of the main loop leaves the month's final output
    holding a list that starts with the resumed records, in their order. *)
Theorem final_output_keeps_the_resumed_records (fuel : nat) (year month : Z)
  (w w' : world) (l : list pyval) :
  let year_dir := (base_backup_dir ++ [str_of_int year])%list in
  let month_name := nth (Z.to_nat (month - 1)) month_list "" in
  let w0 := set_fs (snd (makedirs year_dir (fs w))) w in
  exists_ (fs w0) (output_file_of year_dir month_name) = false ->
  fst (resume_backup year_dir month_name w0) = inr (Z.of_nat (length l), VList l) ->
  collect_month fuel (year, month) w = (inr tt, w') ->
  exists l',
    l `prefix_of` l' /\
    fs w' !! output_file_of year_dir month_name
    = Some (File (json_dump (VList l') 4 true)).
Proof.
  intros year_dir month_name w0 Hex Hres H. subst w0 year_dir month_name.
  unfold collect_month in H.
  unfold mbind at 1 in H. unfold M_bind at 1 in H.
  destruct (get_year_folder (str_of_int year) w) as [[e|yd] w0] eqn:Ey; [discriminate|].
  apply get_year_folder_inv in Ey as (-> & f & Hmk & ->).
  rewrite Hmk in Hex, Hres. cbn [snd] in Hex, Hres.
  unfold mbind at 1 in H. unfold M_bind at 1 in H. unfold get_world at 1 in H.
  match type of H with
  | context [if ?c then _ else _] =>
      assert (Hc : c = false) by exact Hex; rewrite Hc in H; clear Hc
  end.
  pose proof (pause_point_fs fuel (set_fs f w)) as Hp.
  bind_in H u w1 E1; [discriminate|]. simpl in Hp.
  pose proof (resume_backup_frame (base_backup_dir ++ [str_of_int year])%list
                (nth (Z.to_nat (month - 1)) month_list "") w1) as Hfr.
  pose proof (resume_backup_fs_only (base_backup_dir ++ [str_of_int year])%list
                (nth (Z.to_nat (month - 1)) month_list "") w1 (set_fs f w) Hp) as Hsame.
  rewrite Hres in Hsame.
  unfold mbind at 1 in H. unfold M_bind at 1 in H.
  destruct (resume_backup _ _ w1) as [r w2]. simpl in Hfr, Hsame.
  subst r w2.
  bind_in H st w3 E3; [discriminate|].
  apply page_loop_checkpoint in E3 as [_ Hst].
  destruct (Hst st eq_refl) as (offset' & l' & -> & Hpre).
  exists l'. split; [exact Hpre|].
  apply backup_data_inv in H. unfold stat in H.
  destruct (reachable (fs w') _); [|discriminate].
  unfold output_file_of in *. by destruct (_ ++ _)%list.
Qed.

Lemma fetch_citations_list (scopus_id : string) (count : Z) (n : nat)
  (w w' : world) (v : pyval) :
  fetch_citations scopus_id count n w = (inr v, w') ->
  exists citations, v = VDict [("citations", VList citations)].
Proof.
  intros H. apply fetch_result_origin in H as [->|(json_data & H)].
  - by exists [].
  - apply extract_citations_shape in H as (citations & -> & _). by exists citations.
Qed.

(** The record that the main harvester makes of the metadata [d], the
    abstract and the citations. *)
Lemma main_record_step (scopus_id : string) (d : list (string * pyval))
  (abstract : pyval) (c : Z) (w3 w7 : world) (metadata2 : pyval) :
  (if Z.ltb 0 c
   then citation_data ← fetch_citations scopus_id 200 3;
        citations ← lift_py (py_getitem citation_data "citations");
        lift_py (py_setitem (VDict (dict_set "Abstract" abstract d))
                   "Citations" citations)
   else lift_py (py_setitem (VDict (dict_set "Abstract" abstract d))
                   "Citations" (VList []))) w3
  = (inr metadata2, w7) ->
  exists citations,
    (c <= 0 -> citations = []) /\
    metadata2 = VDict (dict_set "Citations" (VList citations)
                         (dict_set "Abstract" abstract d)).
Proof.
  intros H. destruct (Z.ltb_spec 0 c).
  - bind_in H citation_data w4 E4; [discriminate|].
    apply fetch_citations_list in E4 as (citations & ->).
    unfold mbind, M_bind, lift_py, lift in H. cbn in H. injection H as <- <-.
    exists citations. split; [lia|reflexivity].
  - unfold lift_py, lift in H. cbn in H. injection H as <- <-.
    exists []. split; [done|reflexivity].
Qed.
(** Extra X29: what the harvesters store. A record that the main harvester
    appends has twelve fields in a fixed order: the eleven of
    [fetch_metadata], with [Abstract] replaced by what [fetch_abstract]
    returned, and then [Citations], a list that is empty when
    [Cited_By_Count] is not positive. The patch harvester appends what
    [fetch_metadata] returned as it is: eleven fields, no [Citations]. An
    entry adds at most one record, at the end of the list. *)
Theorem stored_record_schema (year_dir : list string) (month : string)
  (entry : pyval) (total_processed total' : Z) (l : list pyval)
  (monthly_articles' articles' : pyval) (w w' w'' : world) :
  (Scopus.process_entry year_dir month entry (total_processed, VList l) w
   = (inr (total', monthly_articles'), w') ->
   (total' = total_processed /\ monthly_articles' = VList l) \/
   (total' = total_processed + 1 /\
    exists scopus_id title abstract authors affiliation_name affiliation_country
           date doi keywords cited_by_count source citations,
      entry_scopus_id entry = inr scopus_id /\
      (cited_by_count <= 0 -> citations = []) /\
      monthly_articles' =
      VList (l ++ [VDict [ ("Scopus_ID", VStr scopus_id); ("Title", title);
                           ("Abstract", abstract); ("Authors", VList authors);
                           ("Affiliation_Name", affiliation_name);
                           ("Affiliation_Country", affiliation_country);
                           ("Publication_Date", date); ("DOI", doi);
                           ("Keywords", keywords);
                           ("Cited_By_Count", VInt cited_by_count);
                           ("Source", source);
                           ("Citations", VList citations) ]])%list)) /\
  (ScopusPatch.process_entry year_dir month entry (VList l) w = (inr articles', w'') ->
   articles' = VList l \/
   exists scopus_id title abstract authors affiliation_name affiliation_country
          date doi keywords cited_by_count source,
     entry_scopus_id entry = inr scopus_id /\
     articles' =
     VList (l ++ [VDict [ ("Scopus_ID", VStr scopus_id); ("Title", title);
                          ("Abstract", abstract); ("Authors", VList authors);
                          ("Affiliation_Name", affiliation_name);
                          ("Affiliation_Country", affiliation_country);
                          ("Publication_Date", date); ("DOI", doi);
                          ("Keywords", keywords);
                          ("Cited_By_Count", VInt cited_by_count);
                          ("Source", source) ]])%list).
Proof.
  split.
  - intros H. unfold Scopus.process_entry in H.
    bind_in H scopus_id w1 E1; [discriminate|].
    apply lift_py_inv in E1 as [-> Hid]. apply outcome_inr in Hid.
    bind_in H metadata w2 E2; [discriminate|].
    apply fetch_result_origin in E2 as [->|(json_data & Hmeta)].
    { simpl in H. injection H as <- <- <-. by left. }
    apply extract_metadata_shape in Hmeta
      as (title & abstract0 & authors & an & ac & date & doi & kw & c & source & ->).
    cbn [truthy] in H.
    bind_in H abstract w3 E3; [discriminate|]. clear E3.
    unfold mbind at 1 in H. unfold M_bind at 1 in H.
    unfold lift_py at 1 in H. unfold lift at 1 in H. cbn [py_setitem ret] in H.
    unfold mbind at 1 in H. unfold M_bind at 1 in H.
    unfold lift_py at 1 in H. unfold lift at 1 in H.
    change (py_getitem _ "Cited_By_Count") with (@inr exn pyval (VInt c)) in H.
    unfold mbind at 1 in H. unfold M_bind at 1 in H.
    unfold lift_py at 1 in H. unfold lift at 1 in H. cbn [py_positive ret] in H.
    bind_in H metadata2 w7 E7; [discriminate|].
    apply main_record_step in E7 as (citations & Hempty & ->).
    unfold mbind at 1 in H. unfold M_bind at 1 in H.
    unfold lift_py at 1 in H. unfold lift at 1 in H. cbn [py_append ret] in H.
    bind_in H u w8 E8; [discriminate|].
    unfold mret, M_ret in H. injection H as <- <- <-.
    right. split; [reflexivity|].
    exists scopus_id, title, abstract, authors, an, ac, date, doi, kw, c, source, citations.
    split; [exact Hid|]. split; [exact Hempty|]. reflexivity.
  - intros H. unfold ScopusPatch.process_entry in H.
    bind_in H scopus_id w1 E1; [discriminate|].
    apply lift_py_inv in E1 as [-> Hid]. apply outcome_inr in Hid.
    destruct (String.eqb scopus_id ""); [injection H as <- <-; by left|].
    bind_in H metadata w2 E2; [discriminate|].
    apply fetch_result_origin in E2 as [->|(json_data & Hmeta)].
    { simpl in H. injection H as <- <-. by left. }
    apply extract_metadata_shape in Hmeta
      as (title & abstract & authors & an & ac & date & doi & kw & c & source & ->).
    cbn [truthy negb] in H.
    unfold mbind at 1 in H. unfold M_bind at 1 in H.
    unfold lift_py at 1 in H. unfold lift at 1 in H. cbn [py_append ret] in H.
    unfold mbind at 1 in H. unfold M_bind at 1 in H.
    unfold lift_py at 1 in H. unfold lift at 1 in H. cbn [ScopusPatch.py_len ret] in H.
    bind_in H u w8 E8; [discriminate|].
    unfold mret, M_ret in H. injection H as <- <-.
    right.
    exists scopus_id, title, abstract, authors, an, ac, date, doi, kw, c, source.
    split; [exact Hid|reflexivity].
Qed.

Lemma patch_checkpoints_only_refl (year_dir : list string) (month : string)
  (f : gmap (list string) (node file_text)) :
  patch_checkpoints_only year_dir month f f.
Proof. intros p. by left. Qed.

Lemma patch_checkpoints_only_trans (year_dir : list string) (month : string)
  (f1 f2 f3 : gmap (list string) (node file_text)) :
  patch_checkpoints_only year_dir month f1 f2 ->
  patch_checkpoints_only year_dir month f2 f3 ->
  patch_checkpoints_only year_dir month f1 f3.
Proof.
  intros H12 H23 p. destruct (H23 p) as [E|(data & n & Hn & -> & Hl)].
  - rewrite E. apply H12.
  - right. by exists data, n.
Qed.

(** A write of [data] under the name of its length. *)
Lemma backup_by_length year_dir month (data : pyval) (n : Z) (w w' : world) r :
  ScopusPatch.py_len data = inr n ->
  backup_data data (year_dir ++ [backup_name month n])%list w = (r, w') ->
  patch_checkpoints_only year_dir month (fs w) (fs w').
Proof.
  intros Hn. unfold backup_data, Scopus.on_fs.
  destruct (write_file (fs w) _ _) as [e|f'] eqn:Ew; intros [= <- <-]; simpl.
  - apply patch_checkpoints_only_refl.
  - apply write_file_inv in Ew as (-> & _ & _). intros p.
    destruct (decide (p = (year_dir ++ [backup_name month n])%list)) as [->|Hne].
    + right. exists data, n. by rewrite lookup_insert_eq.
    + left. by rewrite lookup_insert_ne.
Qed.

Lemma save_collected_checkpoint year_dir month (articles : pyval) (w w' : world) r :
  ScopusPatch.save_collected year_dir month articles w = (r, w') ->
  patch_checkpoints_only year_dir month (fs w) (fs w').
Proof.
  unfold ScopusPatch.save_collected. destruct (truthy articles).
  2:{ intros [= <- <-]. apply patch_checkpoints_only_refl. }
  intros H. bind_in H n w1 E1; apply lift_py_inv in E1 as [-> Hn].
  { injection H as <- <-. apply patch_checkpoints_only_refl. }
  apply outcome_inr in Hn. by apply (backup_by_length _ _ _ _ _ _ _ Hn) in H.
Qed.

Lemma patch_process_entry_checkpoint year_dir month entry (articles : pyval)
  (w w' : world) r :
  ScopusPatch.process_entry year_dir month entry articles w = (r, w') ->
  patch_checkpoints_only year_dir month (fs w) (fs w').
Proof.
  intros H. unfold ScopusPatch.process_entry in H.
  bind_in H scopus_id w1 E1; apply lift_py_inv in E1 as [-> _].
  { injection H as <- <-. apply patch_checkpoints_only_refl. }
  destruct (String.eqb scopus_id "").
  { injection H as <- <-. apply patch_checkpoints_only_refl. }
  bind_in H metadata w2 E2; apply fetch_fs in E2.
  { injection H as <- <-. rewrite E2. apply patch_checkpoints_only_refl. }
  destruct (negb (truthy metadata)).
  { injection H as <- <-. rewrite E2. apply patch_checkpoints_only_refl. }
  bind_in H articles1 w3 E3; apply lift_py_inv in E3 as [-> _].
  { injection H as <- <-. rewrite E2. apply patch_checkpoints_only_refl. }
  bind_in H n w4 E4; apply lift_py_inv in E4 as [-> Hn].
  { injection H as <- <-. rewrite E2. apply patch_checkpoints_only_refl. }
  apply outcome_inr in Hn. rewrite <- E2.
  unfold mbind at 1 in H. unfold M_bind at 1 in H.
  destruct (Z.eqb (n mod BACKUP_INTERVAL) 0).
  - destruct (backup_data articles1 _ w2) as [[e|[]] w5] eqn:E5;
      apply (backup_by_length _ _ _ _ _ _ _ Hn) in E5;
      injection H as <- <-; exact E5.
  - injection H as <- <-. apply patch_checkpoints_only_refl.
Qed.

Lemma patch_for_each_checkpoint year_dir month entries (articles : pyval)
  (w w' : world) r :
  for_each (ScopusPatch.process_entry year_dir month) entries articles w = (r, w') ->
  patch_checkpoints_only year_dir month (fs w) (fs w').
Proof.
  revert articles w. induction entries as [|entry entries IH]; intros articles w.
  - simpl. intros [= <- <-]. apply patch_checkpoints_only_refl.
  - cbn [for_each]. intros H.
    unfold mbind at 1 in H. unfold M_bind at 1 in H.
    destruct (ScopusPatch.process_entry year_dir month entry articles w)
      as [[e|articles1] w1] eqn:E1;
      apply patch_process_entry_checkpoint in E1.
    + by injection H as <- <-.
    + apply IH in H. by apply (patch_checkpoints_only_trans _ _ _ (fs w1)).
Qed.

Lemma cycle_then_sleep_inv {A} (k : M halt world A) (w w' : world) r :
  (cycle_api_key;; sleep 2;; k) w = (r, w') ->
  fs w' = fs w \/ exists w2, fs w2 = fs w /\ k w2 = (r, w').
Proof.
  unfold cycle_api_key, sleep. unfold_eff.
  destruct (API_KEYS w); simpl.
  - intros [= <- <-]. by left.
  - intros H. right. eexists. split; [|exact H]. done.
Qed.

Lemma patch_page_loop_checkpoint (fuel : nat) query year_dir month st
  (w w' : world) r :
  ScopusPatch.page_loop fuel query year_dir month st w = (r, w') ->
  patch_checkpoints_only year_dir month (fs w) (fs w').
Proof.
  revert st w r w'. induction fuel as [|fuel IH]; intros [start articles] w r w' H.
  { simpl in H. injection H as <- <-. apply patch_checkpoints_only_refl. }
  cbn [ScopusPatch.page_loop] in H.
  pose proof (pause_point_fs fuel w) as Hp.
  bind_in H u w1 E1; simpl in Hp.
  { injection H as <- <-. rewrite Hp. apply patch_checkpoints_only_refl. }
  bind_in H resp w2 E2; apply requests_get_fs in E2; rewrite Hp in E2.
  { injection H as <- <-. rewrite E2. apply patch_checkpoints_only_refl. }
  assert (Hretry : forall r w',
    (cycle_api_key;; sleep 2;;
     ScopusPatch.page_loop fuel query year_dir month (start, articles)) w2 = (r, w') ->
    patch_checkpoints_only year_dir month (fs w) (fs w')).
  { intros r0 w0 [Hfs|(w3 & Hfs & Hk)]%cycle_then_sleep_inv.
    - rewrite Hfs, E2. apply patch_checkpoints_only_refl.
    - apply IH in Hk. by rewrite Hfs, E2 in Hk. }
  destruct (Z.eqb (status_code resp) 429); [by apply Hretry in H|].
  destruct (json_body resp) as [json_data|]; [|by apply Hretry in H].
  bind_in H missing w3 E3; apply lift_py_inv in E3 as [-> _].
  { injection H as <- <-. rewrite E2. apply patch_checkpoints_only_refl. }
  destruct missing.
  { unfold mbind at 1 in H. unfold M_bind at 1 in H.
    destruct (ScopusPatch.save_collected year_dir month articles w2)
      as [[e|[]] w4] eqn:E4; apply save_collected_checkpoint in E4; rewrite E2 in E4.
    - by injection H as <- <-.
    - apply cycle_then_sleep_inv in H as [Hfs|(w5 & Hfs & Hk)].
      + by rewrite Hfs.
      + unfold mret, M_ret in Hk. injection Hk as <- <-. by rewrite Hfs. }
  bind_in H results w4 E4; apply lift_py_inv in E4 as [-> _].
  { injection H as <- <-. rewrite E2. apply patch_checkpoints_only_refl. }
  bind_in H entries w5 E5; apply lift_py_inv in E5 as [-> _].
  { injection H as <- <-. rewrite E2. apply patch_checkpoints_only_refl. }
  destruct (negb (truthy entries)).
  { unfold mbind at 1 in H. unfold M_bind at 1 in H.
    destruct (ScopusPatch.save_collected year_dir month articles w2)
      as [[e|[]] w6] eqn:E6; apply save_collected_checkpoint in E6; rewrite E2 in E6;
      injection H as <- <-; exact E6. }
  bind_in H entry_list w6 E6; apply lift_py_inv in E6 as [-> _].
  { injection H as <- <-. rewrite E2. apply patch_checkpoints_only_refl. }
  bind_in H articles1 w7 E7; apply patch_for_each_checkpoint in E7; rewrite E2 in E7.
  { by injection H as <- <-. }
  unfold sleep in H. unfold mbind at 1 in H. unfold M_bind at 1 in H.
  unfold modify at 1 in H.
  apply IH in H. simpl in H. by apply (patch_checkpoints_only_trans _ _ _ (fs w7)).
Qed.

(** Extra X25: every file that a month's turn of the patch harvester creates
    or changes is a file of that month in the year's directory, named by
    the [len] of what it holds: in the patch script the count in a name
    and the size of the content cannot differ. Nothing else in the file
    system changes, whatever the outcome of the turn. *)
Theorem patch_checkpoints_hold_their_count (fuel : nat) (year : string)
  (year_dir : list string) (month : string) (w : world) :
  patch_checkpoints_only year_dir month (fs w)
    (fs (snd (ScopusPatch.collect_month fuel year year_dir month tt w))).
Proof.
  destruct (ScopusPatch.collect_month fuel year year_dir month tt w) as [r w'] eqn:H.
  simpl. unfold ScopusPatch.collect_month in H.
  unfold mbind at 1 in H. unfold M_bind at 1 in H.
  pose proof (resume_backup_frame year_dir month w) as Hr.
  destruct (resume_backup year_dir month w) as [[e|[start_offset articles]] w1];
    simpl in Hr; subst w1.
  { injection H as <- <-. apply patch_checkpoints_only_refl. }
  bind_in H articles1 w2 E2; apply patch_page_loop_checkpoint in E2.
  { by injection H as <- <-. }
  apply save_collected_checkpoint in H.
  by apply (patch_checkpoints_only_trans _ _ _ (fs w2)).
Qed.

End Checkpoints.

(** ** Entries without an identifier, and error pages without a body *)

Section Entries.
Context `{JL : JsonLib} `{OUT : Outside}.

Lemma grows_refl (w : world) : grows w w.
Proof. split; [lia|done]. Qed.

Lemma grows_trans (w1 w2 w3 : world) : grows w1 w2 -> grows w2 w3 -> grows w1 w3.
Proof. intros [H1 H2] [H3 H4]. split; [lia|by etrans]. Qed.

Lemma bind_grows {A B} (m : M halt world A) (k : A -> M halt world B) (w : world) :
  grows w (snd (m w)) ->
  (forall a w1, grows w1 (snd (k a w1))) ->
  grows w (snd ((m ≫= k) w)).
Proof.
  intros Hm Hk. unfold mbind, M_bind.
  destruct (m w) as [[e|a] w1]; simpl in *; [exact Hm|].
  eapply grows_trans; [exact Hm|apply Hk].
Qed.

Lemma lift_py_grows {A} (r : result A) (w : world) : grows w (snd (lift_py r w)).
Proof. apply grows_refl. Qed.

Lemma sent_grows (req : request) (w : world) : grows w (sent req w).
Proof. split; simpl; [lia|by apply prefix_app_r]. Qed.

Lemma requests_get_grows url params (w : world) :
  grows w (snd (requests_get url params w)).
Proof.
  unfold requests_get, get_headers. unfold_eff.
  destruct (nth_error _ _); simpl; [apply sent_grows|apply grows_refl].
Qed.

Lemma cycle_sleep_grows {A} (k : M halt world A) (w : world) :
  (forall w1, grows w1 (snd (k w1))) ->
  grows w (snd ((cycle_api_key;; sleep 2;; k) w)).
Proof.
  intros Hk. unfold cycle_api_key, sleep. unfold_eff.
  destruct (API_KEYS w); simpl; [apply grows_refl|].
  eapply grows_trans; [|apply Hk]. split; simpl; [lia|by apply prefix_app_r].
Qed.

Lemma fetch_grows url params top_key extract fallback n (w : world) :
  grows w (snd (fetch_with_retries url params top_key extract fallback n w)).
Proof.
  revert w. induction n as [|n IH]; intros w; [apply grows_refl|].
  cbn [fetch_with_retries].
  apply bind_grows; [apply requests_get_grows|]. intros resp w1.
  destruct (Z.eqb _ 429); [by apply cycle_sleep_grows|].
  destruct (json_body resp); [|by apply cycle_sleep_grows].
  apply bind_grows; [apply lift_py_grows|]. intros missing w2.
  destruct missing; [by apply cycle_sleep_grows|apply lift_py_grows].
Qed.

Lemma backup_data_grows data p (w : world) : grows w (snd (backup_data data p w)).
Proof.
  unfold backup_data, Scopus.on_fs.
  destruct (write_file _ _ _); split; simpl; (lia || done).
Qed.

(** A fetch with attempts left starts with a request. *)
Lemma fetch_first_request url params top_key extract fallback n (w : world) key :
  nth_error (API_KEYS w) (current_api_key_index w) = Some key ->
  let req := {| url := url; api_key := key; params := params |} in
  grows (sent req w)
    (snd (fetch_with_retries url params top_key extract fallback (S n) w)).
Proof.
  intros Hk req. cbn [fetch_with_retries].
  unfold mbind at 1. unfold M_bind at 1.
  pose proof (requests_get_ok url params w key Hk) as Hreq.
  cbv zeta in Hreq. rewrite Hreq. fold req.
  destruct (Z.eqb _ 429); [apply cycle_sleep_grows; intros; apply fetch_grows|].
  destruct (json_body _); [|apply cycle_sleep_grows; intros; apply fetch_grows].
  apply bind_grows; [apply lift_py_grows|]. intros missing w2.
  destruct missing; [apply cycle_sleep_grows; intros; apply fetch_grows|].
  apply lift_py_grows.
Qed.

(** What follows the metadata call in the body of the main loop. *)
Lemma after_metadata_grows year_dir month_name scopus_id total_processed
  monthly_articles metadata (w : world) :
  grows w (snd (
    (if truthy metadata
     then
       abstract ← fetch_abstract scopus_id 3;
       metadata ← lift_py (py_setitem metadata "Abstract" abstract);
       cited ← lift_py (py_getitem metadata "Cited_By_Count");
       has_citations ← lift_py (py_positive cited);
       metadata ←
         (if has_citations : bool
          then citation_data ← fetch_citations scopus_id 200 3;
               citations ← lift_py (py_getitem citation_data "citations");
               lift_py (py_setitem metadata "Citations" citations)
          else lift_py (py_setitem metadata "Citations" (VList [])));
       monthly_articles ← lift_py (py_append monthly_articles metadata);
       let total_processed := total_processed + 1 in
       (if Z.eqb (total_processed mod BACKUP_INTERVAL) 0
        then backup_data monthly_articles
               (year_dir ++ [backup_name month_name total_processed])%list;;
             sleep 10
        else mret tt);;
       mret (total_processed, monthly_articles)
     else mret (total_processed, monthly_articles)) w)).
Proof.
  destruct (truthy metadata); [|apply grows_refl].
  apply bind_grows; [apply fetch_grows|]. intros abstract w3.
  apply bind_grows; [apply lift_py_grows|]. intros metadata' w4.
  apply bind_grows; [apply lift_py_grows|]. intros cited w5.
  apply bind_grows; [apply lift_py_grows|]. intros has_citations w6.
  apply bind_grows.
  { destruct has_citations; [|apply lift_py_grows].
    apply bind_grows; [apply fetch_grows|]. intros citation_data w7.
    apply bind_grows; [apply lift_py_grows|]. intros citations w8.
    apply lift_py_grows. }
  intros metadata'' w7.
  apply bind_grows; [apply lift_py_grows|]. intros monthly_articles' w8.
  apply bind_grows; [|intros; apply grows_refl].
  destruct (Z.eqb _ 0); [|apply grows_refl].
  apply bind_grows; [apply backup_data_grows|]. intros [] w9.
  split; simpl; [lia|by apply prefix_app_r].
Qed.

(** Extra X26: an entry without [dc:identifier] is passed over by the patch
    harvester without any request, while the main harvester, which has no
    such test, asks the abstract service for the empty identifier: its
    first step on such an entry is a request to the bare abstract URL. *)
Theorem entry_without_identifier (year_dir : list string) (month : string)
  (d : list (string * pyval)) (articles : pyval) (st : Z * pyval) (w : world)
  (key : option string) :
  dict_find "dc:identifier" d = None ->
  ScopusPatch.process_entry year_dir month (VDict d) articles w = (inr articles, w) /\
  (nth_error (API_KEYS w) (current_api_key_index w) = Some key ->
   let w' := snd (Scopus.process_entry year_dir month (VDict d) st w) in
   (requests_made w < requests_made w')%nat /\
   (trace w ++ [EvRequest (abstract_request "" key)])%list `prefix_of` trace w').
Proof.
  intros Hd.
  assert (Hid : entry_scopus_id (VDict d) = inr "").
  { unfold entry_scopus_id, py_get, dict_get. by rewrite Hd. }
  split.
  { unfold ScopusPatch.process_entry. unfold mbind at 1. unfold M_bind at 1.
    unfold lift_py at 1. unfold lift at 1. by rewrite Hid. }
  intros Hk. cbv zeta. destruct st as [total_processed monthly_articles].
  unfold Scopus.process_entry. unfold mbind at 1. unfold M_bind at 1.
  unfold lift_py at 1. unfold lift at 1. rewrite Hid.
  pose proof (fetch_first_request (ABSTRACT_URL ++ "") []
                "abstracts-retrieval-response" (extract_metadata "") VNone 2 w key Hk)
    as Hfirst.
  cbv zeta in Hfirst.
  change (fetch_with_retries (ABSTRACT_URL ++ "") [] "abstracts-retrieval-response"
            (extract_metadata "") VNone 3) with (fetch_metadata "" 3) in Hfirst.
  fold (abstract_request "" key) in Hfirst.
  assert (Hall : grows (sent (abstract_request "" key) w)
    (snd ((fetch_metadata "" 3 ≫= fun metadata =>
      if truthy metadata
      then
        abstract ← fetch_abstract "" 3;
        metadata ← lift_py (py_setitem metadata "Abstract" abstract);
        cited ← lift_py (py_getitem metadata "Cited_By_Count");
        has_citations ← lift_py (py_positive cited);
        metadata ←
          (if has_citations : bool
           then citation_data ← fetch_citations "" 200 3;
                citations ← lift_py (py_getitem citation_data "citations");
                lift_py (py_setitem metadata "Citations" citations)
           else lift_py (py_setitem metadata "Citations" (VList [])));
        monthly_articles ← lift_py (py_append monthly_articles metadata);
        let total_processed := total_processed + 1 in
        (if Z.eqb (total_processed mod BACKUP_INTERVAL) 0
         then backup_data monthly_articles
                (year_dir ++ [backup_name month total_processed])%list;;
              sleep 10
         else mret tt);;
        mret (total_processed, monthly_articles)
      else mret (total_processed, monthly_articles)) w))).
  { unfold mbind at 1. unfold M_bind at 1.
    destruct (fetch_metadata "" 3 w) as [[e|metadata] w1]; simpl in Hfirst;
      [exact Hfirst|].
    eapply grows_trans; [exact Hfirst|]. apply after_metadata_grows. }
  destruct Hall as [Hreqs Htrace]. simpl in Hreqs, Htrace. split; [lia|exact Htrace].
Qed.

(** Extra X27: in the main harvester a page reply with a status other than
    200 and a body that is not JSON is not survived: the message about the
    error calls [response.json()], which raises, nothing catches it, and
    the pagination stops with that exception after the one request. *)
Theorem error_page_without_json_stops_the_run (fuel : nat) (query : string)
  (year_dir : list string) (month_name : string)
  (current_offset total_processed : Z) (monthly_articles : pyval) (w : world)
  (key : option string) :
  current_offset < 5000 ->
  no_pause_signal (stdin_poll (polls_made w)) = true ->
  nth_error (API_KEYS w) (current_api_key_index w) = Some key ->
  let reply := respond (requests_made w) (page_request query current_offset key) in
  status_code reply <> 200 ->
  json_body reply = None ->
  Scopus.page_loop (S fuel) query year_dir month_name
    (current_offset, total_processed, monthly_articles) w
  = (inl (Raised JSONDecodeError),
     sent (page_request query current_offset key) (polled w)).
Proof.
  intros Ho Hq Hk reply Hs Hj. cbn [Scopus.page_loop].
  destruct (Z.ltb_spec current_offset 5000); [|lia].
  unfold mbind at 1. unfold M_bind at 1. rewrite (pause_point_quiet fuel w Hq).
  unfold mbind at 1. unfold M_bind at 1.
  pose proof (requests_get_ok SEARCH_URL
                [("query", VStr query); ("count", VInt COUNT);
                 ("start", VInt current_offset)] (polled w) key Hk) as Hreq.
  cbv zeta in Hreq. rewrite Hreq.
  fold (page_request query current_offset key).
  change (requests_made (polled w)) with (requests_made w). fold reply.
  destruct (Z.eqb_spec (status_code reply) 200); [done|]. simpl.
  unfold mbind, M_bind, lift_py, lift, response_json. by rewrite Hj.
Qed.

End Entries.

(** ** A month that ends on an error page *)

Section ChildPaths.
Context {T : Type}.

Lemma ancestors_snoc (d : list string) (x : string) :
  ancestors (d ++ [x])%list = (ancestors d ++ [d])%list.
Proof.
  unfold ancestors. rewrite length_app. simpl.
  rewrite Nat.add_1_r, seq_S, map_app. simpl. f_equal.
  - apply map_ext_in. intros n Hn%in_seq. apply take_app_le. lia.
  - by rewrite take_app_length.
Qed.

(** Below an existing directory every name can be reached. *)
Lemma reachable_child (f : gmap (list string) (node T)) (d : list string)
  (x : string) :
  stat f d = Some Dir -> reachable f (d ++ [x])%list = true.
Proof.
  unfold stat, reachable. rewrite ancestors_snoc, forallb_app.
  destruct (forallb (is_dir_at f) (ancestors d)) eqn:E; [|discriminate].
  intros H. simpl. rewrite andb_true_r. unfold is_dir_at.
  destruct d; [done|]. by rewrite H.
Qed.

(** A name that does not exist below an existing directory can be
    written. *)
Lemma write_file_new (f : gmap (list string) (node T)) (d : list string)
  (x : string) (t : T) :
  stat f d = Some Dir -> exists_ f (d ++ [x])%list = false ->
  write_file f (d ++ [x])%list t = inr (<[(d ++ [x])%list := File t]> f).
Proof.
  intros Hd Hex. pose proof (reachable_child f d x Hd) as Hr.
  unfold write_file, exists_, stat in *. rewrite Hr in *.
  destruct (d ++ [x])%list eqn:E; [by destruct d|].
  by destruct (f !! (s :: l)).
Qed.

End ChildPaths.

Section ErrorMonth.
Context `{JL : JsonLib} `{OUT : Outside}.

(** Extra X30: an error page closes the month. When the first page request of
    an unfinished month is answered with a status other than 200 and a JSON
    body (a rate limit, for one), the main harvester leaves the page loop
    and writes the month's final output with nothing but the records it
    resumed with, having sent that one request; the month then counts as
    collected, and no later turn asks for it again. *)
Theorem api_error_closes_the_month (fuel : nat) (year month : Z) (w : world)
  (key : option string) (start_offset : Z) (monthly_articles json_data : pyval) :
  let year_dir := (base_backup_dir ++ [str_of_int year])%list in
  let month_name := nth (Z.to_nat (month - 1)) month_list "" in
  let made := makedirs year_dir (fs w) in
  let reply := respond (requests_made w)
                 (page_request (month_query month_name (str_of_int year))
                    start_offset key) in
  fst made = inr tt ->
  exists_ (snd made) (output_file_of year_dir month_name) = false ->
  no_pause_signal (stdin_poll (polls_made w)) = true ->
  no_pause_signal (stdin_poll (S (polls_made w))) = true ->
  fst (resume_backup year_dir month_name (set_fs (snd made) w))
  = inr (start_offset, monthly_articles) ->
  start_offset < 5000 ->
  nth_error (API_KEYS w) (current_api_key_index w) = Some key ->
  status_code reply <> 200 ->
  json_body reply = Some json_data ->
  exists w',
    collect_month (S fuel) (year, month) w = (inr tt, w') /\
    fs w' = <[output_file_of year_dir month_name
              := File (json_dump monthly_articles 4 true)]> (snd made) /\
    requests_made w' = S (requests_made w) /\
    forall fuel', collect_month fuel' (year, month) w' = (inr tt, w').
Proof.
  intros year_dir month_name made reply Hmade Hex Hq1 Hq2 Hres Hlt Hk Hs Hj.
  subst year_dir month_name made reply.
  destruct (makedirs (base_backup_dir ++ [str_of_int year])%list (fs w))
    as [r f] eqn:Hmk.
  simpl in Hmade. subst r. cbn [snd] in Hex, Hres.
  pose proof (makedirs_stat _ _ _ Hmk) as Hdir.
  assert (Hrun : collect_month (S fuel) (year, month) w =
    (inr tt,
     set_fs (<[output_file_of (base_backup_dir ++ [str_of_int year])%list
                 (nth (Z.to_nat (month - 1)) month_list "")
               := File (json_dump monthly_articles 4 true)]> f)
       (sent (page_request
                (month_query (nth (Z.to_nat (month - 1)) month_list "")
                   (str_of_int year)) start_offset key)
          (polled (polled (set_fs f w)))))).
  { unfold collect_month.
    unfold mbind at 1. unfold M_bind at 1.
    unfold get_year_folder at 1. unfold mbind at 1. unfold M_bind at 1.
    unfold Scopus.on_fs at 1. rewrite Hmk.
    unfold mret at 1. unfold M_ret at 1.
    unfold mbind at 1. unfold M_bind at 1. unfold get_world at 1.
    match goal with
    | |- context [if ?c then _ else _] =>
        assert (Hc : c = false) by exact Hex; rewrite Hc; clear Hc
    end.
    unfold mbind at 1. unfold M_bind at 1.
    rewrite (pause_point_quiet (S fuel) (set_fs f w) Hq1).
    unfold mbind at 1. unfold M_bind at 1.
    pose proof (resume_backup_frame (base_backup_dir ++ [str_of_int year])%list
                  (nth (Z.to_nat (month - 1)) month_list "")
                  (polled (set_fs f w))) as Hfr.
    pose proof (resume_backup_fs_only (base_backup_dir ++ [str_of_int year])%list
                  (nth (Z.to_nat (month - 1)) month_list "")
                  (polled (set_fs f w)) (set_fs f w) eq_refl) as Hsame.
    rewrite Hres in Hsame.
    destruct (resume_backup _ _ (polled (set_fs f w))) as [r w2].
    simpl in Hfr, Hsame. subst r w2.
    unfold mbind at 1. unfold M_bind at 1.
    rewrite (main_page_not_200 fuel _ _ _ start_offset start_offset monthly_articles
               (polled (set_fs f w)) key json_data Hlt Hq2 Hk Hs Hj).
    unfold backup_data, Scopus.on_fs.
    change (fs (sent _ (polled (polled (set_fs f w))))) with f.
    unfold output_file_of in *.
    rewrite (write_file_new f _ _ _ Hdir Hex). reflexivity. }
  eexists. split; [exact Hrun|]. split; [reflexivity|]. split; [reflexivity|].
  intros fuel'. apply collect_month_skip. simpl.
  unfold exists_, output_file_of in *.
  erewrite write_file_exists; [done|]. apply (write_file_new f _ _ _ Hdir Hex).
Qed.

End ErrorMonth.

(** * The further properties at concrete inputs *)

Import AnnotMore MoreExamples.


(** The scorer raises on the first record; the second is still scored. *)
Lemma scorer_failure_skips_record_witness :
  fst (for_each score_article [VDict unreadable_record; VDict fresh_record] []
         april_world)
  = inr [scored_one (VStr "3")].
Proof.
  rewrite (scorer_failure_skips_record unreadable_record [VDict fresh_record] []
             april_world eq_refl eq_refl).
  vm_compute. reflexivity.
Defined.

(** A string in the stream after one eligible record: the record's text
    went to the scorer, the run returns [False], nothing is written. *)
Lemma malformed_stream_aborts_without_write_witness :
  exists w',
    Binoculars.process_file_streaming april_in april_out broken_world = (inr false, w') /\
    Binoculars.fs w' = Binoculars.fs broken_world /\
    scorer_inputs (Binoculars.trace w') = [VStr "third text"].
Proof.
  destruct (malformed_stream_aborts_without_write april_in april_out broken_world
              (VList [VDict fresh_record; VStr "oops"])
              [VDict fresh_record; VStr "oops"] true)
    as (w' & H1 & H2 & H3).
  - vm_compute. reflexivity.
  - reflexivity.
  - right. apply Exists_cons_tl. apply Exists_cons_hd. reflexivity.
  - exists w'. split; [exact H1|]. split; [exact H2|]. exact H3.
Defined.

(** A record whose identifier is written [0.1]: the stream reads it as a
    decimal and the score is stored under the decimal; the reload reads it
    as a float, which equals no stored identifier, and the merge leaves the
    reloaded record without a score and still eligible, while the run
    returns [True]. The third record of the example document, whose
    identifier is a string, gets its score. *)
Lemma score_reaches_an_equal_identifier_witness :
  (exists item,
     fst (score_article (VDict decimal_id_record) [] two_readings_world) = inr [item] /\
     Scopus_ID item = VDec 1 (-1) /\ Binoculars_Score item = one /\
     forall processed_items scores_dict articles articles' i d2 key2,
       In item processed_items ->
       build_scores_dict processed_items [] = inr scores_dict ->
       merge_scores scores_dict (VList articles) = inr (VList articles') ->
       articles !! i = Some (VDict d2) ->
       dict_find "Scopus_ID" d2 = Some key2 ->
       (key_eqb key2 (VDec 1 (-1)) = true ->
        exists d', articles' !! i = Some (VDict d') /\ already_scored d' /\
          passes_checks d' = false /\
          forall processed (w2 : @Binoculars.world two_readings counting_scorer),
            score_article (VDict d') processed w2 = (inr processed, w2)) /\
       (last_with_key key2 processed_items = None ->
        articles' !! i = Some (VDict d2))) /\
  key_eqb (VFloat tenth) (VDec 1 (-1)) = false /\
  last_with_key (VFloat tenth) [scored_one (VDec 1 (-1))] = None /\
  merge_scores [(VDec 1 (-1), scored_one (VDec 1 (-1)))] (VList [VDict float_id_record])
  = inr (VList [VDict float_id_record]) /\
  passes_checks float_id_record = true /\
  fst (Binoculars.process_file_streaming april_in april_out two_readings_world)
  = inr true /\
  Binoculars.fs (snd (Binoculars.process_file_streaming april_in april_out
                        two_readings_world)) !! april_out
  = Some (File (([], VList [VDict float_id_record]) : @file_text two_readings)) /\
  merge_scores [(VStr "3", scored_one (VStr "3"))] (VList [VDict fresh_record])
  = inr (VList
      [ VDict [ ("Scopus_ID", VStr "3"); ("Title", VStr "Third");
                ("Abstract", VStr "third text");
                ("Binoculars_Score", VFloat one);
                ("Accuracy_Prediction", VInt 0); ("FPR_Prediction", VInt 0) ] ]).
Proof.
  split; [|split_and!; vm_compute; reflexivity].
  apply (score_reaches_an_equal_identifier decimal_id_record one []
           two_readings_world); reflexivity.
Defined.

(** A scored record whose identifier is a list. *)
Lemma unhashable_identifier_fails_the_run_witness :
  exists w',
    Binoculars.process_file_streaming april_in april_out listed_world = (inr false, w') /\
    Binoculars.fs w' = Binoculars.fs listed_world.
Proof.
  apply (unhashable_identifier_fails_the_run april_in april_out listed_world
           (snd (for_each score_article [VDict listed_id_record] []
                   (logged [EvGetSize april_in; EvOpenStream april_in] listed_world)))
           (VList [VDict listed_id_record]) [VDict listed_id_record]
           [scored_one (VList [VStr "a"])]).
  - vm_compute. reflexivity.
  - reflexivity.
  - vm_compute. reflexivity.
  - apply Exists_cons_hd. reflexivity.
Defined.

(** A scored record with a null identifier, then a record without the
    field. *)
Lemma null_identifier_fails_the_run_witness :
  (forall scores_dict,
     build_scores_dict [scored_one VNone; scored_one (VStr "")] [] = inr scores_dict ->
     update_article scores_dict (VDict nameless) = inl KeyError) /\
  exists w',
    Binoculars.process_file_streaming april_in april_out null_world = (inr false, w') /\
    Binoculars.fs w' = Binoculars.fs null_world.
Proof.
  apply (null_identifier_fails_the_run april_in april_out null_world
           (snd (for_each score_article [VDict null_id_record; VDict nameless] []
                   (logged [EvGetSize april_in; EvOpenStream april_in] null_world)))
           (VList [VDict null_id_record; VDict nameless])
           [VDict null_id_record; VDict nameless]
           [VDict null_id_record; VDict nameless]
           [scored_one VNone; scored_one (VStr "")]
           (scored_one VNone) nameless).
  - vm_compute. reflexivity.
  - reflexivity.
  - reflexivity.
  - vm_compute. reflexivity.
  - left. reflexivity.
  - reflexivity.
  - right. left. reflexivity.
  - reflexivity.
Defined.

(** The first input holds a string where a record should be and its run
    returns [False]; the second input is still processed and counted. *)
Lemma analyze_abstracts_reaches_every_input_witness :
  fst (Binoculars.analyze_abstracts two_inputs_world) = inr 1 /\
  size_queries (Binoculars.trace (snd (Binoculars.analyze_abstracts two_inputs_world)))
  = [april_in; february_in] /\
  In february_in
    (size_queries (Binoculars.trace (snd (Binoculars.analyze_abstracts two_inputs_world)))) /\
  fst (BinocularsPatch.analyze_abstracts two_patch_inputs_world) = inr 1 /\
  size_queries
    (Binoculars.trace (snd (BinocularsPatch.analyze_abstracts two_patch_inputs_world)))
  = [["MAY_comp_2023.json"]; ["JULY_comp_2023.json"]].
Proof.
  split_and!; try (vm_compute; reflexivity).
  destruct (analyze_abstracts_reaches_every_input two_inputs_world)
    as [(n & w' & E & _ & sized & Hq & _ & Hall) _].
  rewrite E. simpl. rewrite Hq. apply in_or_app. right.
  apply (Hall ["2021"; "FEBRUARY_comp_2021.json"]).
  - right. left. reflexivity.
  - vm_compute. reflexivity.
Defined.

(** The input of the patch driver. *)
Lemma patched_name_keeps_extension_witness :
  BinocularsPatch.patched_filename ["data"; "MAY_comp_2023.json"]
  = ["MAY_comp_2023_patched.json"].
Proof.
  apply (patched_name_keeps_extension ["data"] "MAY_comp_2023" "json");
    [discriminate|discriminate|reflexivity].
Defined.

(** Three eligible records, two with the same identifier and one without. *)
Lemma stored_items_follow_the_stream_witness :
  exists new,
    [scored_one (VStr "7"); scored_one (VStr ""); scored_one (VStr "7")]
    = ([] ++ new)%list /\
    map Scopus_ID new `sublist_of`
      map stored_id (filter (fun d => passes_checks d = true) (leading_records sevens)) /\
    (length new <= length sevens)%nat.
Proof.
  apply (stored_items_follow_the_stream sevens [] _ april_world
           (snd (for_each score_article sevens [] april_world))).
  vm_compute. reflexivity.
Defined.

(** Three fields, with blanks around the second. *)
Lemma keys_of_a_comma_list_witness :
  length (load_api_keys (Some "k1, k2 ,k3") None) = 3%nat /\
  Forall (fun k => exists key, k = Some key /\ strip key = key)
         (load_api_keys (Some "k1, k2 ,k3") None) /\
  load_api_keys (Some "k1, k2 ,k3,") None
  = [Some "k1"; Some "k2"; Some "k3"; Some ""].
Proof.
  apply (keys_of_a_comma_list "k1, k2 ,k3" None). discriminate.
Defined.

(** A reload to a single key, and a rotation, from a pool of three. *)
Lemma key_pool_is_never_empty_witness :
  API_KEYS (snd (pause_and_reload (OUT:=operator_reloads) 5 finished_world)) <> [] /\
  exists w', cycle_api_key finished_world = (inr tt, w') /\
             API_KEYS w' = API_KEYS finished_world /\
             (current_api_key_index w' < 3)%nat.
Proof.
  destruct (key_pool_is_never_empty (OUT:=operator_reloads) None None 5 finished_world)
    as [_ H].
  destruct (H ltac:(discriminate)) as (H1 & w' & H2 & H3 & H4).
  split; [exact H1|]. exists w'. rewrite H3 in H4. split; [exact H2|]. split; [exact H3|].
  exact H4.
Defined.

(** Four rotations over three keys, from the first key. *)
Lemma rotation_is_round_robin_witness :
  cycle_times 4 finished_world = (inr tt, set_index 1 finished_world) /\
  cycle_times 3 finished_world = (inr tt, finished_world) /\
  forall j, (j < 3)%nat ->
    exists k, (k < 3)%nat /\
              current_api_key_index (snd (cycle_times k finished_world)) = j.
Proof.
  apply (rotation_is_round_robin 4 finished_world); [discriminate|].
  simpl. lia.
Defined.

(** The pointer is on the third key when the operator reloads a pool of
    one. *)
Lemma reload_can_strand_the_pointer_witness :
  API_KEYS (snd (pause_and_reload (OUT:=operator_reloads) 1 third_key_world))
  = [Some "k9"] /\
  requests_get (OUT:=operator_reloads) SEARCH_URL []
    (snd (pause_and_reload (OUT:=operator_reloads) 1 third_key_world))
  = (inl (Raised IndexError),
     snd (pause_and_reload (OUT:=operator_reloads) 1 third_key_world)).
Proof.
  split; [vm_compute; reflexivity|].
  apply (reload_can_strand_the_pointer (OUT:=operator_reloads) 1 SEARCH_URL []
           third_key_world).
  vm_compute. lia.
Defined.

(** Two looks that find no resume request, then [P] between blanks. *)
Lemma pause_ends_at_the_first_p_witness :
  pause_and_reload (OUT:=operator_waits) 3 finished_world
  = (inr tt,
     set_keys [Some "k7"; Some "k8"]
       (reloaded (polled (waited 2 finished_world)))) /\
  requests_made (snd (pause_and_reload (OUT:=operator_waits) 3 finished_world))
  = 0%nat /\
  Scopus.fs (snd (pause_and_reload (OUT:=operator_waits) 3 finished_world))
  = Scopus.fs finished_world.
Proof.
  apply (pause_ends_at_the_first_p (OUT:=operator_waits) 2 3 finished_world " P ").
  - intros i Hi. destruct i as [|[|i]]; [reflexivity|reflexivity|lia].
  - reflexivity.
  - reflexivity.
  - lia.
Defined.

(** The entry of the examples. *)
Lemma scopus_id_label_is_removed_witness :
  entry_scopus_id entry_42 = inr "42" /\
  entry_scopus_id (VDict [("dc:identifier", VStr "42")]) = inr "42" /\
  entry_scopus_id (VDict []) = inr "".
Proof.
  split; [|split].
  - exact (proj1 (scopus_id_label_is_removed
                    [("dc:identifier", VStr "SCOPUS_ID:42")] "42" eq_refl) eq_refl).
  - exact (proj1 (proj2 (scopus_id_label_is_removed
                           [("dc:identifier", VStr "42")] "42" eq_refl)) eq_refl).
  - exact (proj2 (proj2 (scopus_id_label_is_removed [] "42" eq_refl)) eq_refl).
Defined.

(** The metadata reply of the examples. *)
Lemma fetch_metadata_result_shape_witness :
  exists v,
    fst (fetch_metadata (OUT:=abstract_fails) "42" 3 finished_world) = inr v /\
    (truthy v = false <-> v = VNone) /\
    (truthy v = true ->
     exists c, py_getitem v "Cited_By_Count" = inr (VInt c) /\
               py_positive (VInt c) = inr (Z.ltb 0 c)).
Proof.
  exists (VDict [ ("Scopus_ID", VStr "42"); ("Title", VStr "A title");
                  ("Abstract", VStr "N/A"); ("Authors", VList []);
                  ("Affiliation_Name", VStr "N/A");
                  ("Affiliation_Country", VStr "N/A");
                  ("Publication_Date", VStr "N/A");
                  ("DOI", VStr "N/A"); ("Keywords", VStr "N/A");
                  ("Cited_By_Count", VInt 0); ("Source", VStr "N/A") ]).
  split; [vm_compute; reflexivity|].
  apply (fetch_metadata_result_shape (OUT:=abstract_fails) "42" 3 finished_world
           (snd (fetch_metadata (OUT:=abstract_fails) "42" 3 finished_world))).
  vm_compute. reflexivity.
Defined.

(** A reply with one citing article. *)
Lemma fetch_citations_result_shape_witness :
  exists citations,
    fst (fetch_citations (OUT:=cited) "42" 200 3 finished_world)
    = inr (VDict [("citations", VList citations)]) /\
    length citations = 1%nat /\
    Forall (fun c => exists citing_id url date cited country,
              c = VDict [ ("Citing_Article_Scopus_ID", VStr citing_id);
                          ("Citing_Article_URL", url);
                          ("Cited_Date", date);
                          ("Citing_Citation_Count", cited);
                          ("Citing_Affiliation_Country", country) ])
           citations.
Proof.
  destruct (fetch_citations_result_shape (OUT:=cited) "42" 200 3 finished_world
              (snd (fetch_citations (OUT:=cited) "42" 200 3 finished_world))
              (VDict [("citations",
                       VList [VDict [ ("Citing_Article_Scopus_ID", VStr "7");
                                      ("Citing_Article_URL", VStr "N/A");
                                      ("Cited_Date", VStr "N/A");
                                      ("Citing_Citation_Count", VStr "N/A");
                                      ("Citing_Affiliation_Country", VStr "France") ]])]))
    as (citations & Hv & _ & Hall).
  { vm_compute. reflexivity. }
  exists citations. injection Hv as <-.
  split; [vm_compute; reflexivity|]. split; [reflexivity|exact Hall].
Defined.

(** One rate-limited reply, then the metadata, answered to the second key. *)
Lemma fetch_uses_the_first_usable_reply_witness :
  fst (fetch_metadata (OUT:=limited_once) "42" 3 finished_world)
  = inr (VDict [ ("Scopus_ID", VStr "42"); ("Title", VStr "A title");
                 ("Abstract", VStr "N/A"); ("Authors", VList []);
                 ("Affiliation_Name", VStr "N/A");
                 ("Affiliation_Country", VStr "N/A");
                 ("Publication_Date", VStr "N/A");
                 ("DOI", VStr "N/A"); ("Keywords", VStr "N/A");
                 ("Cited_By_Count", VInt 0); ("Source", VStr "N/A") ]) /\
  snd (fetch_metadata (OUT:=limited_once) "42" 3 finished_world)
  = sent (abstract_request "42" (Some "k2"))
      (after_retries (abstract_request "42") 1 finished_world) /\
  fst (fetch_abstract (OUT:=limited_once) "42" 3 finished_world) = inr (VStr "N/A").
Proof.
  destruct (fetch_uses_the_first_usable_reply (OUT:=limited_once) "42" 1 1
              finished_world (Some "k2")
              (VDict [("abstracts-retrieval-response",
                       VDict [("coredata",
                               VDict [("dc:title", VStr "A title");
                                      ("citedby-count", VStr "0")])])]))
    as [Hm Ha].
  - reflexivity.
  - reflexivity.
  - vm_compute. discriminate.
  - reflexivity.
  - reflexivity.
  - change (1 + 2)%nat with 3%nat in Hm, Ha. rewrite Hm, Ha.
    split; [reflexivity|]. split; reflexivity.
Defined.

(** The checkpoint of May at 500 records. *)
Lemma checkpoint_names_match_the_pattern_witness :
  is_backup_name "MAY" "MAY_500_comp_23_25.json" = true /\
  is_backup_name "MAY" "MAY_comp_23_25.json" = false /\
  backup_index "MAY_500_comp_23_25.json" = inr 500.
Proof.
  destruct (checkpoint_names_match_the_pattern "MAY" 500) as (H1 & H2 & H3).
  split; [exact H1|]. split; [exact H2|]. apply H3. simpl. tauto.
Defined.

(** A checkpoint spelt [MAY_0500_comp_23_25.json]: the count is read as
    500, and the file of that count is not there. *)
Lemma resume_backup_only_reads_witness :
  resume_backup year_2023 "MAY" stray_world = (inl (Raised OSError), stray_world).
Proof.
  apply (proj2 (resume_backup_only_reads year_2023 "MAY" stray_world) 500 []).
  - vm_compute. reflexivity.
  - vm_compute. reflexivity.
Defined.

(** January 2023, collected from a service that has no articles. *)
Lemma finished_month_is_not_collected_again_witness :
  exists_ (Scopus.fs (snd (collect_month (OUT:=quiet) 5 (2023, 1) finished_world)))
    (year_2023 ++ ["JANUARY_comp_23_25.json"])%list = true /\
  collect_month (OUT:=limited) 7 (2023, 1)
    (snd (collect_month (OUT:=quiet) 5 (2023, 1) finished_world))
  = (inr tt, snd (collect_month (OUT:=quiet) 5 (2023, 1) finished_world)).
Proof.
  destruct (finished_month_is_not_collected_again (OUT:=quiet) 5 7 2023 1
              finished_world
              (snd (collect_month (OUT:=quiet) 5 (2023, 1) finished_world)))
    as [H1 _].
  { vm_compute. reflexivity. }
  split; [exact H1|].
  apply (collect_month_skip (OUT:=limited) 7 2023 1). exact H1.
Defined.

(** February of a leap year, a December, and the last December that
    [datetime] can hold. *)
Lemma date_step_is_the_next_month_witness :
  advance (2024, 2, 1) = inr (2024, 3, 1) /\
  advance (2024, 12, 31) = inr (2025, 1, 1) /\
  advance (9999, 12, 1) = inl OverflowError /\
  date_le (2025, 1, 1) end_date = true /\
  date_le (2025, 2, 1) end_date = false.
Proof.
  assert (H24 : MINYEAR <= 2024 <= MAXYEAR) by (unfold MINYEAR, MAXYEAR; lia).
  assert (H25 : MINYEAR <= 2025 <= MAXYEAR) by (unfold MINYEAR, MAXYEAR; lia).
  assert (H99 : MINYEAR <= 9999 <= MAXYEAR) by (unfold MINYEAR, MAXYEAR; lia).
  assert (M1 : 1 <= 1 <= 12) by lia.
  assert (M2 : 1 <= 2 <= 12) by lia.
  assert (M12 : 1 <= 12 <= 12) by lia.
  split_and!.
  - exact (proj1 (date_step_is_the_next_month 2024 2 1 H24 M2)).
  - exact (proj1 (date_step_is_the_next_month 2024 12 31 H24 M12)).
  - exact (proj1 (date_step_is_the_next_month 9999 12 1 H99 M12)).
  - exact (proj1 (proj2 (date_step_is_the_next_month 2025 1 1 H25 M1))).
  - exact (proj1 (proj2 (date_step_is_the_next_month 2025 2 1 H25 M2))).
Defined.

(** From offset 0, 26 turns are enough. *)
Lemma main_pagination_ends_witness :
  fst (Scopus.page_loop (OUT:=quiet) 26 "q" year_2023 "MAY" (0, 0, VList [])
         finished_world)
  <> inl OutOfFuel.
Proof.
  apply (main_pagination_ends (OUT:=quiet) 25 "q" year_2023 "MAY" 0 0 (VList [])
           finished_world).
  - intros n. reflexivity.
  - vm_compute. discriminate.
Defined.

(** The 500th record of May arrives: the checkpoint of 500 is written. *)
Lemma main_checkpoints_hold_their_count_witness :
  let out := Scopus.page_loop (OUT:=one_more_record) 3 "q" year_2023 "MAY"
               (0, 499, VList collected_499) finished_world in
  checkpoints_only year_2023 "MAY" (Scopus.fs finished_world) (Scopus.fs (snd out)) /\
  Scopus.fs finished_world !! (year_2023 ++ ["MAY_500_comp_23_25.json"])%list = None /\
  Scopus.fs (snd out) !! (year_2023 ++ ["MAY_500_comp_23_25.json"])%list
  = Some (File (VList (collected_499 ++ [record_42]) : @file_text plain_json)) /\
  exists offset' l',
    fst out = inr (offset', 500, VList l') /\ collected_499 `prefix_of` l'.
Proof.
  cbv zeta.
  destruct (main_checkpoints_hold_their_count (OUT:=one_more_record) 3 "q" year_2023
              "MAY" 0 collected_499 finished_world) as [H1 H2].
  change (Z.of_nat (length collected_499)) with 499 in H1, H2.
  split; [exact H1|]. split; [vm_compute; reflexivity|].
  split; [vm_compute; reflexivity|].
  destruct (H2 (200, 500, VList (collected_499 ++ [record_42])%list))
    as (offset' & l' & Hst & Hpre); [vm_compute; reflexivity|].
  exists offset', l'. split; [|exact Hpre].
  transitivity (@inr halt _ (200, 500, VList (collected_499 ++ [record_42])%list));
    [vm_compute; reflexivity|].
  f_equal. rewrite Hst. f_equal. f_equal.
  injection Hst as _ Hlen _. lia.
Defined.

(** The same arrival in the patch harvester. *)
Lemma patch_checkpoints_hold_their_count_witness :
  patch_checkpoints_only year_2023 "MAY" (Scopus.fs finished_world)
    (Scopus.fs (snd (ScopusPatch.collect_month (OUT:=quiet) 3 "2023" year_2023
                       "MAY" tt finished_world))).
Proof.
  apply (patch_checkpoints_hold_their_count (OUT:=quiet) 3 "2023" year_2023 "MAY"
           finished_world).
Defined.

(** An entry that is an empty object. *)
Lemma entry_without_identifier_witness :
  ScopusPatch.process_entry (OUT:=quiet) year_2023 "MAY" (VDict []) (VList [])
    finished_world = (inr (VList []), finished_world) /\
  (0 < requests_made (snd (Scopus.process_entry (OUT:=quiet) year_2023 "MAY"
                             (VDict []) (0%Z, VList []) finished_world)))%nat /\
  [EvRequest (abstract_request "" (Some "k1"))]
  `prefix_of` Scopus.trace (snd (Scopus.process_entry (OUT:=quiet) year_2023 "MAY"
                                   (VDict []) (0, VList []) finished_world)).
Proof.
  destruct (entry_without_identifier (OUT:=quiet) year_2023 "MAY" [] (VList [])
              (0, VList []) finished_world (Some "k1") eq_refl) as [H1 H2].
  split; [exact H1|]. apply H2. reflexivity.
Defined.

(** A 500 whose body is not JSON. *)
Lemma error_page_without_json_stops_the_run_witness :
  Scopus.page_loop (OUT:=server_error) 3 "q" year_2023 "MAY" (0, 0, VList [])
    finished_world
  = (inl (Raised JSONDecodeError),
     sent (page_request "q" 0 (Some "k1")) (polled finished_world)).
Proof.
  apply (error_page_without_json_stops_the_run (OUT:=server_error) 2 "q" year_2023
           "MAY" 0 0 (VList []) finished_world (Some "k1")).
  - lia.
  - reflexivity.
  - reflexivity.
  - vm_compute. discriminate.
  - reflexivity.
Defined.

(** May 2023 resumed from a checkpoint of two records, with a service that
    has no more articles. *)
Lemma final_output_keeps_the_resumed_records_witness :
  exists l',
    two_collected `prefix_of` l' /\
    Scopus.fs (snd (collect_month (OUT:=quiet) 5 (2023, 5) two_world))
      !! (year_2023 ++ ["MAY_comp_23_25.json"])%list
    = Some (File (VList l' : @file_text plain_json)).
Proof.
  apply (final_output_keeps_the_resumed_records (OUT:=quiet) 5 2023 5 two_world
           (snd (collect_month (OUT:=quiet) 5 (2023, 5) two_world)) two_collected).
  - vm_compute. reflexivity.
  - vm_compute. reflexivity.
  - vm_compute. reflexivity.
Defined.

(** The entry of the examples, with a service that answers the metadata
    call and then rate-limits. *)
Lemma stored_record_schema_witness :
  fst (Scopus.process_entry (OUT:=abstract_fails) year_2023 "MAY" entry_42
         (0, VList []) finished_world) = inr (1, VList [record_42]) /\
  fst (ScopusPatch.process_entry (OUT:=abstract_fails) year_2023 "MAY" entry_42
         (VList []) finished_world) = inr (VList [metadata_42]) /\
  exists scopus_id title abstract authors affiliation_name affiliation_country
         date doi keywords cited_by_count source citations,
    entry_scopus_id entry_42 = inr scopus_id /\
    (cited_by_count <= 0 -> citations = []) /\
    VList [record_42] =
    VList ([] ++ [VDict [ ("Scopus_ID", VStr scopus_id); ("Title", title);
                          ("Abstract", abstract); ("Authors", VList authors);
                          ("Affiliation_Name", affiliation_name);
                          ("Affiliation_Country", affiliation_country);
                          ("Publication_Date", date); ("DOI", doi);
                          ("Keywords", keywords);
                          ("Cited_By_Count", VInt cited_by_count);
                          ("Source", source);
                          ("Citations", VList citations) ]])%list.
Proof.
  split; [vm_compute; reflexivity|]. split; [vm_compute; reflexivity|].
  destruct (stored_record_schema (OUT:=abstract_fails) year_2023 "MAY" entry_42 0 1 []
              (VList [record_42]) (VList [metadata_42]) finished_world
              (snd (Scopus.process_entry (OUT:=abstract_fails) year_2023 "MAY"
                      entry_42 (0, VList []) finished_world))
              (snd (ScopusPatch.process_entry (OUT:=abstract_fails) year_2023 "MAY"
                      entry_42 (VList []) finished_world)))
    as [H1 _].
  destruct H1 as [[H _]|[_ H]]; [vm_compute; reflexivity|discriminate H|exact H].
Defined.

(** January 2023 with a service that answers every request with a 429. *)
Lemma api_error_closes_the_month_witness :
  exists w',
    collect_month (OUT:=limited) 5 (2023, 1) finished_world = (inr tt, w') /\
    Scopus.fs w' !! (year_2023 ++ ["JANUARY_comp_23_25.json"])%list
    = Some (File (VList [] : @file_text plain_json)) /\
    requests_made w' = 1%nat /\
    forall fuel', collect_month (OUT:=limited) fuel' (2023, 1) w' = (inr tt, w').
Proof.
  destruct (api_error_closes_the_month (OUT:=limited) 4 2023 1 finished_world
              (Some "k1") 0 (VList []) (VDict []))
    as (w' & H1 & H2 & H3 & H4).
  - vm_compute. reflexivity.
  - vm_compute. reflexivity.
  - reflexivity.
  - reflexivity.
  - vm_compute. reflexivity.
  - lia.
  - reflexivity.
  - vm_compute. discriminate.
  - reflexivity.
  - exists w'. split; [exact H1|]. split; [|split; [exact H3|exact H4]].
    rewrite H2. apply lookup_insert_eq.
Defined.
